(** * FocusFlow analytics service: a shallow embedding of the scoring engine

    The Python service under [python_service/src/ai] is embedded module by
    module:

    - [DistractionDetector]  (distraction_detector.py)
    - [TimePredictor]        (time_predictor.py)
    - [SmartSuggestions]     (smart_suggestions.py)
    - [FocusCoach]           (focus_coach.py, [summarize_tasks])
    - [FocusPlanner]         (focus_coach.py, [generate_focus_plan])

    and, of the summarization service under [python-summarizer], the text
    cleaner, the summary service and its endpoint:

    - [Summarizer]           (utils/cleaner.py, services/summary_service.py,
                              app.py)

    Conventions of the embedding.

    - A Python [dict] record read with [d.get(key, default)] is a Rocq record
      of [option] fields: [None] is the absent key, the default is written
      at the place of the [get], as in the source.  A key that is present
      holds a value of the type of its field (the records reach the engine
      typed, the transport layer validates them).
    - Python [int] is [Z]; Python [float] is modelled by exact rationals [Q]
      (no rounding error); equality of floats is [Qeq].
    - Python exceptions are the [Raise] constructor of [result]; a function
      that can raise returns a [result].
    - [datetime.now()] is an explicit argument [now] (the microseconds of the
      local wall clock), always a naive datetime as in Python.
    - dictionaries used as maps are stdpp [gmap]s; where the source depends on
      the insertion order of a dict, an association list is used. *)

From Stdlib Require Import ZArith QArith Qround Lia List Ascii String Sorting.Sorted.
From stdpp Require Import base decidable option list gmap strings pretty sorting.
From Stdlib Require Import Lqa.

Local Open Scope string_scope.
Local Open Scope list_scope.
Local Open Scope Z_scope.

(** ** Exceptions *)

Inductive exn : Type :=
  | ValueError        (* datetime.fromisoformat on a malformed string *)
  | TypeError         (* comparing an offset-naive with an offset-aware datetime *)
  | OverflowError.    (* datetime arithmetic out of the years 1..9999 *)

Inductive result (A : Type) : Type :=
  | Ok (a : A)
  | Raise (e : exn).
Arguments Ok {A} a.
Arguments Raise {A} e.

#[global] Instance result_ret : MRet result := fun A a => Ok a.
#[global] Instance result_bind : MBind result := fun A B k r =>
  match r with
  | Ok a => k a
  | Raise e => Raise e
  end.

(** [[x for x in l if p(x)]] where the test [p] may raise: the exception of
    the first failing element escapes. *)
Fixpoint filterM {A : Type} (p : A -> result bool) (l : list A) : result (list A) :=
  match l with
  | [] => Ok []
  | x :: l' =>
      b ← p x;
      ys ← filterM p l';
      Ok (if (b : bool) then x :: ys else ys)
  end.

(** ** Numbers *)

(** Python's [min(a, b)] and [max(a, b)]: the first argument wins a tie. *)
Definition py_min (a b : Q) : Q := if Qlt_le_dec b a then b else a.
Definition py_max (a b : Q) : Q := if Qlt_le_dec a b then b else a.

Definition Qgtb (a b : Q) : bool := if Qlt_le_dec b a then true else false.
Definition Qgeb (a b : Q) : bool := if Qlt_le_dec a b then false else true.
Definition Qltb (a b : Q) : bool := Qgtb b a.

(** [int(x)] of a float: truncation toward zero. *)
Definition py_int (x : Q) : Z :=
  if Qlt_le_dec x 0 then Qceiling x else Qfloor x.

(** [round(x, 2)]: the nearest multiple of 1/100, halves to the even one. *)
Definition round_half_even (x : Q) : Z :=
  let f := Qfloor x in
  let r := (x - inject_Z f)%Q in
  if Qlt_le_dec r (1 # 2) then f
  else if Qlt_le_dec (1 # 2) r then f + 1
  else if Z.even f then f else f + 1.

Definition py_round2 (x : Q) : Q := (inject_Z (round_half_even (x * 100)) / 100)%Q.

Definition Zsum (l : list Z) : Z := fold_left Z.add l 0.
Definition Qsum (l : list Q) : Q := fold_left Qplus l 0%Q.

(** Insertion into a sorted list, after the elements that may stand before
    [x]: the sort built on it is stable, as Python's [sorted] is. *)
Fixpoint insert_by {A : Type} (leb : A -> A -> bool) (x : A) (l : list A) : list A :=
  match l with
  | [] => [x]
  | y :: l' => if leb y x then y :: insert_by leb x l' else x :: y :: l'
  end.

Definition sort_by {A : Type} (leb : A -> A -> bool) (l : list A) : list A :=
  fold_right (insert_by leb) [] (rev l).

Definition Qleb (a b : Q) : bool := Qle_bool a b.

(** [statistics.mean] and [statistics.median] on a non-empty list (every call
    site guards the empty list). *)
Definition mean (l : list Q) : Q := (Qsum l / inject_Z (Z.of_nat (length l)))%Q.

Definition median (l : list Q) : Q :=
  let s := sort_by Qleb l in
  let n := length s in
  if Nat.even n
  then ((nth (n / 2 - 1) s 0%Q + nth (n / 2) s 0%Q) / 2)%Q
  else nth (n / 2) s 0%Q.

(** ** Strings *)

Definition is_upper (c : ascii) : bool :=
  let n := nat_of_ascii c in (65 <=? n)%nat && (n <=? 90)%nat.

Definition lower_ascii (c : ascii) : ascii :=
  if is_upper c then ascii_of_nat (nat_of_ascii c + 32) else c.

(** [s.lower()] on ASCII text. *)
Fixpoint lower (s : string) : string :=
  match s with
  | EmptyString => EmptyString
  | String c s' => String (lower_ascii c) (lower s')
  end.

(** Python whitespace for [str.split()]: space, \t, \n, \v, \f, \r. *)
Definition is_whitespace (c : ascii) : bool :=
  let n := nat_of_ascii c in
  (n =? 32)%nat || ((9 <=? n)%nat && (n <=? 13)%nat).

(** [s.split()]: maximal runs of non-whitespace characters. *)
Fixpoint split_go (cur : string) (s : string) : list string :=
  match s with
  | EmptyString => if decide (cur = EmptyString) then [] else [String.rev cur]
  | String c s' =>
      if is_whitespace c
      then (if decide (cur = EmptyString) then split_go EmptyString s'
            else String.rev cur :: split_go EmptyString s')
      else split_go (String c cur) s'
  end.

Definition split (s : string) : list string := split_go EmptyString s.

(** [sub in s] on strings. *)
Fixpoint contains (sub s : string) : bool :=
  if String.prefix sub s then true
  else match s with
       | EmptyString => false
       | String _ s' => contains sub s'
       end.

(** [s.replace("Z", "+00:00")]: every occurrence is replaced. *)
Fixpoint replace_Z (s : string) : string :=
  match s with
  | EmptyString => EmptyString
  | String c s' =>
      if decide (c = "Z"%char) then "+00:00" +:+ replace_Z s'
      else String c (replace_Z s')
  end.

Definition str_eqb (a b : string) : bool := bool_decide (a = b).

(** [x in l] for a list of strings. *)
Definition str_in (x : string) (l : list string) : bool :=
  existsb (str_eqb x) l.

(** ** [datetime]

    A datetime is the number of microseconds its wall clock shows since
    0001-01-01T00:00:00, with the UTC offset of an aware value ([None] for a
    naive one).  [fromisoformat] follows the grammar of CPython 3.7 to 3.10,
    [YYYY-MM-DD[*HH[:MM[:SS[.fff[fff]]]][+HH:MM[:SS]]]]; the service first
    rewrites a [Z] suffix to [+00:00], which that grammar needs. *)
Module Datetime.

Record datetime : Type := {
  ticks : Z;             (* microseconds of the wall clock *)
  tzinfo : option Z      (* UTC offset in microseconds, None when naive *)
}.

Definition is_leap (y : Z) : bool :=
  (y mod 4 =? 0) && (negb (y mod 100 =? 0) || (y mod 400 =? 0)).

Definition days_in_month (y m : Z) : Z :=
  if m =? 2 then (if is_leap y then 29 else 28)
  else if (m =? 4) || (m =? 6) || (m =? 9) || (m =? 11) then 30
  else 31.

Definition days_before_year (y : Z) : Z :=
  let p := y - 1 in p * 365 + p / 4 - p / 100 + p / 400.

Definition days_before_month (y m : Z) : Z :=
  nth (Z.to_nat (m - 1)) [0; 31; 59; 90; 120; 151; 181; 212; 243; 273; 304; 334] 0
  + (if (2 <? m) && is_leap y then 1 else 0).

Definition us_per_second : Z := 1000000.
Definition us_per_hour : Z := 3600 * us_per_second.

Definition max_ticks : Z := days_before_year 10000 * 24 * us_per_hour.

Definition digit (c : ascii) : option Z :=
  let n := nat_of_ascii c in
  if (48 <=? n)%nat && (n <=? 57)%nat then Some (Z.of_nat (n - 48)) else None.

Fixpoint digits (n : nat) (acc : Z) (s : string) : option (Z * string) :=
  match n, s with
  | O, _ => Some (acc, s)
  | S n', String c s' => d ← digit c; digits n' (acc * 10 + d) s'
  | S _, EmptyString => None
  end.

Definition expect (c : ascii) (s : string) : option string :=
  match s with
  | String c' s' => if decide (c = c') then Some s' else None
  | EmptyString => None
  end.

(** The time string is cut at its first sign character. *)
Fixpoint split_tz (s : string) : string * option (Z * string) :=
  match s with
  | EmptyString => (EmptyString, None)
  | String c s' =>
      if decide (c = "+"%char) then (EmptyString, Some (1, s'))
      else if decide (c = "-"%char) then (EmptyString, Some (-1, s'))
      else let '(t, z) := split_tz s' in (String c t, z)
  end.

(** [HH[:MM[:SS[.fff[fff]]]]], the whole string. *)
Definition parse_hh_mm_ss_ff (s : string) : option (Z * Z * Z * Z) :=
  '(h, s1) ← digits 2 0 s;
  if decide (s1 = EmptyString) then Some (h, 0, 0, 0) else
  s2 ← expect ":" s1;
  '(m, s3) ← digits 2 0 s2;
  if decide (s3 = EmptyString) then Some (h, m, 0, 0) else
  s4 ← expect ":" s3;
  '(sec, s5) ← digits 2 0 s4;
  if decide (s5 = EmptyString) then Some (h, m, sec, 0) else
  s6 ← expect "." s5;
  match String.length s6 with
  | 6%nat => '(us, _) ← digits 6 0 s6; Some (h, m, sec, us)
  | 3%nat => '(ms, _) ← digits 3 0 s6; Some (h, m, sec, ms * 1000)
  | _ => None
  end.

Definition parse_date (s : string) : option (Z * Z * Z * string) :=
  '(y, s1) ← digits 4 0 s;
  s2 ← expect "-" s1;
  '(m, s3) ← digits 2 0 s2;
  s4 ← expect "-" s3;
  '(d, s5) ← digits 2 0 s4;
  if (1 <=? y) && (1 <=? m) && (m <=? 12) && (1 <=? d) && (d <=? days_in_month y m)
  then Some (y, m, d, s5) else None.

Definition parse_offset (z : option (Z * string)) : option (option Z) :=
  match z with
  | None => Some None
  | Some (sign, s) =>
      let n := String.length s in
      if (n =? 5)%nat || (n =? 8)%nat then
        '(h, m, sec, _) ← parse_hh_mm_ss_ff s;
        let seconds := (h * 60 + m) * 60 + sec in
        (* timezone(...) wants an offset strictly between -24h and 24h *)
        if seconds <? 86400
        then Some (Some (sign * seconds * us_per_second))
        else None
      else None
  end.

Definition parse_isoformat (s : string) : option datetime :=
  '(y, m, d, rest) ← parse_date s;
  let days := days_before_year y + days_before_month y m + (d - 1) in
  match rest with
  | EmptyString => Some {| ticks := days * 24 * us_per_hour; tzinfo := None |}
  | String _ tstr =>
      let '(t, z) := split_tz tstr in
      '(h, mi, sec, us) ← parse_hh_mm_ss_ff t;
      off ← parse_offset z;
      if (h <? 24) && (mi <? 60) && (sec <? 60)
      then Some {| ticks := (((days * 24 + h) * 60 + mi) * 60 + sec) * us_per_second + us;
                   tzinfo := off |}
      else None
  end.

(** [datetime.fromisoformat(s)]: [ValueError] on a malformed string. *)
Definition fromisoformat (s : string) : result datetime :=
  match parse_isoformat s with
  | Some d => Ok d
  | None => Raise ValueError
  end.

(** [datetime.now()]: always naive. *)
Definition of_now (now : Z) : datetime := {| ticks := now; tzinfo := None |}.

(** [d - timedelta(hours=h)]. *)
Definition minus_hours (d : datetime) (h : Z) : result datetime :=
  let t := ticks d - h * us_per_hour in
  if (0 <=? t) && (t <? max_ticks)
  then Ok {| ticks := t; tzinfo := tzinfo d |}
  else Raise OverflowError.

(** Ordering two datetimes: Python refuses to order a naive and an aware
    one ("can't compare offset-naive and offset-aware datetimes"). *)
Definition compare (a b : datetime) : result comparison :=
  match tzinfo a, tzinfo b with
  | None, None => Ok (ticks a ?= ticks b)
  | Some oa, Some ob => Ok ((ticks a - oa) ?= (ticks b - ob))
  | _, _ => Raise TypeError
  end.

(** [a >= b] *)
Definition ge (a b : datetime) : result bool :=
  c ← compare a b; Ok (match c with Lt => false | _ => true end).

(** [a < b] *)
Definition lt (a b : datetime) : result bool :=
  c ← compare a b; Ok (match c with Lt => true | _ => false end).

(** [(a - b).total_seconds()] *)
Definition diff_seconds (a b : datetime) : result Q :=
  match tzinfo a, tzinfo b with
  | None, None => Ok (inject_Z (ticks a - ticks b) / inject_Z us_per_second)%Q
  | Some oa, Some ob =>
      Ok (inject_Z ((ticks a - oa) - (ticks b - ob)) / inject_Z us_per_second)%Q
  | _, _ => Raise TypeError
  end.

(** [d.hour] *)
Definition hour (d : datetime) : Z := (ticks d / us_per_hour) mod 24.

End Datetime.

(** [datetime.fromisoformat(s.replace("Z", "+00:00"))], as every reader of a
    timestamp in the service spells it. *)
Definition parse_timestamp (s : option string) : result Datetime.datetime :=
  Datetime.fromisoformat (replace_Z (default EmptyString s)).

(** ** Insertion-ordered dictionaries

    Where the source iterates over a dict ([items()], [max], [sorted],
    [Counter.most_common]) the order of first insertion decides ties, so such
    a dict is an association list in insertion order. *)

(** [d[k] = f(d.get(k, init))] *)
Fixpoint assoc_upsert {K V : Type} `{EqDecision K}
    (k : K) (init : V) (f : V -> V) (d : list (K * V)) : list (K * V) :=
  match d with
  | [] => [(k, f init)]
  | (k', v) :: d' =>
      if decide (k = k') then (k', f v) :: d'
      else (k', v) :: assoc_upsert k init f d'
  end.

(** [max(items, key=key)] on a non-empty sequence: the first maximum. *)
Fixpoint first_max_by {A : Type} (key : A -> Z) (best : A) (l : list A) : A :=
  match l with
  | [] => best
  | x :: l' => first_max_by key (if key best <? key x then x else best) l'
  end.

(** [sorted(l, key=key, reverse=True)]: descending, equal keys keep their
    order. *)
Definition key_geb {A : Type} (key : A -> Q) (x y : A) : bool := Qleb (key y) (key x).

Definition sort_desc_by {A : Type} (key : A -> Q) (l : list A) : list A :=
  sort_by (key_geb key) l.

(** ** distraction_detector.py *)
Module DistractionDetector.
Import Datetime.

Record activity : Type := {
  activity_type : option string;
  activity_category : option string;
  timestamp : option string;
  duration_seconds : option Z;
  distraction_score : option Q
}.

Definition model_version : string := "v1.0".

Record category_info : Type := { weight : Q; apps : list string }.

(** [self.distraction_categories] *)
Definition distraction_categories : gmap string category_info :=
  list_to_map [
    ("communication", {| weight := 0.8; apps := ["slack"; "cliq"; "teams"; "messages"] |});
    ("entertainment", {| weight := 0.9;
                         apps := ["youtube"; "netflix"; "twitter"; "instagram"; "tiktok"] |});
    ("social", {| weight := 0.7; apps := ["facebook"; "linkedin"; "reddit"] |});
    ("news", {| weight := 0.5; apps := ["news"; "cnn"; "bbc"] |});
    ("work", {| weight := 0.1; apps := ["vscode"; "excel"; "docs"; "sheets"] |})
  ].

(** [self.distraction_categories.get(category, {}).get("weight", 0.5)] *)
Definition category_weight (category : string) : Q :=
  match distraction_categories !! category with
  | Some info => weight info
  | None => 0.5
  end.

(** *** [_calculate_distraction_scores] *)

Record category_data : Type := {
  count : Z;
  total_duration : Z;
  distraction_duration : Q;
  avg_score : Q
}.

Record distraction_scores : Type := {
  overall_distraction_score : Q;
  by_category : gmap string category_data;
  total_duration_seconds : Z;
  distraction_duration_seconds : Q
}.

(** The three accumulators of the loop. *)
Record scores_acc : Type := {
  acc_category_scores : gmap string category_data;
  acc_total_duration : Z;
  acc_distraction_duration : Q
}.

Definition scores_init : scores_acc :=
  {| acc_category_scores := ∅; acc_total_duration := 0; acc_distraction_duration := 0 |}.

Definition fresh_category : category_data :=
  {| count := 0; total_duration := 0; distraction_duration := 0; avg_score := 0 |}.

(** One iteration of [for activity in activities]. *)
Definition scores_step (st : scores_acc) (a : activity) : scores_acc :=
  let category := lower (default "unknown" (activity_category a)) in
  let duration := default 0 (duration_seconds a) in
  let total := acc_total_duration st + duration in
  let weight := category_weight category in
  let is_distraction := Qgtb weight 0.5 in
  let distraction :=
    if is_distraction
    then (acc_distraction_duration st + inject_Z duration * weight)%Q
    else acc_distraction_duration st in
  let old := default fresh_category (acc_category_scores st !! category) in
  let new :=
    {| count := count old + 1;
       total_duration := total_duration old + duration;
       distraction_duration := (distraction_duration old + inject_Z duration * weight)%Q;
       avg_score := avg_score old |} in
  {| acc_category_scores := <[category := new]> (acc_category_scores st);
     acc_total_duration := total;
     acc_distraction_duration := distraction |}.

(** The second loop: [data["avg_score"] = ...] for every category. *)
Definition set_avg_score (d : category_data) : category_data :=
  {| count := count d;
     total_duration := total_duration d;
     distraction_duration := distraction_duration d;
     avg_score :=
       if 0 <? total_duration d
       then (distraction_duration d / inject_Z (total_duration d))%Q
       else 0%Q |}.

Definition _calculate_distraction_scores (activities : list activity) : distraction_scores :=
  let st := fold_left scores_step activities scores_init in
  let overall_score :=
    if 0 <? acc_total_duration st
    then (acc_distraction_duration st / inject_Z (acc_total_duration st))%Q
    else 0%Q in
  {| overall_distraction_score := py_min overall_score 1;
     by_category := set_avg_score <$> acc_category_scores st;
     total_duration_seconds := acc_total_duration st;
     distraction_duration_seconds := acc_distraction_duration st |}.

(** *** [_detect_patterns] *)

(** A pattern dict, by its ["type"]; its ["recommendation"] text is a fixed
    sentence around the hour or the category. *)
Inductive pattern : Type :=
  | peak_distraction_hour (hour : Z) (distraction_count : Z)
  | recurring_distraction (category : string) (frequency : Z)
  | rapid_context_switching (switch_count : Z).

Definition recommendation (p : pattern) : string :=
  match p with
  | peak_distraction_hour h _ =>
      "Avoid scheduling focus sessions at " +:+ pretty h +:+ ":00"
  | recurring_distraction c _ =>
      "Consider blocking " +:+ c +:+ " during focus sessions"
  | rapid_context_switching _ =>
      "Try focusing on single tasks for longer periods"
  end.

(** [hourly_activity], filled in the order of the activities. *)
Fixpoint group_by_hour (activities : list activity)
    (hourly_activity : list (Z * list activity)) : result (list (Z * list activity)) :=
  match activities with
  | [] => Ok hourly_activity
  | a :: rest =>
      t ← parse_timestamp (timestamp a);
      group_by_hour rest
        (assoc_upsert (Datetime.hour t) [] (fun acts => acts ++ [a]) hourly_activity)
  end.

Definition is_distracting_in_hour (a : activity) : bool :=
  Qgtb (category_weight (lower (default EmptyString (activity_category a)))) 0.5.

Definition distraction_by_hour (hourly_activity : list (Z * list activity)) : list (Z * Z) :=
  map (fun '(h, acts) =>
         (h, Z.of_nat (length (List.filter is_distracting_in_hour acts))))
      hourly_activity.

(** [Counter(...)]: the categories in the order first seen, with counts. *)
Definition category_counter (activities : list activity) : list (string * Z) :=
  fold_left
    (fun c a =>
       assoc_upsert (lower (default "unknown" (activity_category a))) 0 (Z.add 1) c)
    activities [].

(** [Counter.most_common(n)] *)
Definition most_common (n : nat) (c : list (string * Z)) : list (string * Z) :=
  take n (sort_desc_by (fun x => inject_Z (snd x)) c).

(** The rapid switches among consecutive activities. *)
Fixpoint count_rapid_switches (activities : list activity) : result Z :=
  match activities with
  | a :: ((b :: _) as rest) =>
      tb ← parse_timestamp (timestamp b);
      ta ← parse_timestamp (timestamp a);
      time_diff ← diff_seconds tb ta;
      n ← count_rapid_switches rest;
      Ok (if Qltb time_diff 60 then 1 + n else n)
  | _ => Ok 0
  end.

Definition _detect_patterns (activities : list activity) : result (list pattern) :=
  hourly_activity ← group_by_hour activities [];
  let by_hour := distraction_by_hour hourly_activity in
  let peak :=
    match by_hour with
    | [] => []
    | first :: others =>
        let m := first_max_by snd first others in
        [peak_distraction_hour (fst m) (snd m)]
    end in
  let recurring :=
    omap (fun '(category, n) =>
            if Qgtb (category_weight category) 0.5
            then Some (recurring_distraction category n) else None)
         (most_common 3 (category_counter activities)) in
  rapid_switches ← count_rapid_switches activities;
  let rapid :=
    if Qgtb (inject_Z rapid_switches) (inject_Z (Z.of_nat (length activities)) * 0.1)
    then [rapid_context_switching rapid_switches] else [] in
  Ok (peak ++ recurring ++ rapid).

(** *** [_generate_insights] *)

(** An insight dict, by its ["type"]; title, description and
    recommendations are fixed sentences around the score or the pattern. *)
Inductive insight : Type :=
  | high_distraction (overall_score : Q)        (* severity high *)
  | moderate_distraction (overall_score : Q)    (* severity medium *)
  | pattern_insight (p : pattern).              (* severity medium *)

Definition _generate_insights (activities : list activity)
    (scores : distraction_scores) (patterns : list pattern) : list insight :=
  let overall_score := overall_distraction_score scores in
  let level :=
    if Qgtb overall_score 0.6 then [high_distraction overall_score]
    else if Qgtb overall_score 0.4 then [moderate_distraction overall_score]
    else [] in
  level ++
  omap (fun p =>
          match p with
          | peak_distraction_hour _ _ | recurring_distraction _ _ => Some (pattern_insight p)
          | rapid_context_switching _ => None
          end) patterns.

(** *** [_calculate_statistics] *)

Record statistics : Type := {
  stat_total_activities : Z;
  avg_duration_seconds : Q;
  median_duration_seconds : Q;
  avg_distraction_score : Q;
  max_distraction_score : Q;
  min_distraction_score : Q
}.

(** Truth value of [a.get("distraction_score")]: a missing key is [None],
    and both [None] and [0.0] are false. *)
Definition score_is_truthy (a : activity) : bool :=
  match distraction_score a with
  | Some q => negb (Qeq_bool q 0)
  | None => false
  end.

(** [[a.get("distraction_score", 0.0) for a in activities
      if a.get("distraction_score")]] *)
Definition collect_scores (activities : list activity) : list Q :=
  map (fun a => default 0%Q (distraction_score a))
      (List.filter score_is_truthy activities).

(** [max(l)] and [min(l)] of a non-empty list. *)
Definition list_max (l : list Q) : Q :=
  match l with
  | [] => 0%Q
  | x :: l' => fold_left py_max l' x
  end.

Definition list_min (l : list Q) : Q :=
  match l with
  | [] => 0%Q
  | x :: l' => fold_left py_min l' x
  end.

Definition _calculate_statistics (activities : list activity)
    (scores : distraction_scores) : statistics :=
  let durations := map (fun a => inject_Z (default 0 (duration_seconds a))) activities in
  let scores := collect_scores activities in
  {| stat_total_activities := Z.of_nat (length activities);
     avg_duration_seconds := match durations with [] => 0%Q | _ => mean durations end;
     median_duration_seconds := match durations with [] => 0%Q | _ => median durations end;
     avg_distraction_score := match scores with [] => 0%Q | _ => mean scores end;
     max_distraction_score := match scores with [] => 0%Q | _ => list_max scores end;
     min_distraction_score := match scores with [] => 0%Q | _ => list_min scores end |}.

(** *** [analyze_activity_patterns] *)

Record report : Type := {
  analysis_period_hours : Z;
  total_activities : Z;
  report_distraction_scores : distraction_scores;
  patterns : list pattern;
  insights : list insight;
  report_statistics : statistics;
  report_model_version : string;
  analyzed_at : datetime
}.

(** The returned dict: either the two-key error object or the report. *)
Inductive analysis : Type :=
  | AnalysisError (error : string) (total_activities : Z)
  | AnalysisReport (r : report).

(** The test of the list comprehension that filters by the time window. *)
Definition in_window (cutoff_time : datetime) (a : activity) : result bool :=
  t ← parse_timestamp (timestamp a);
  Datetime.ge t cutoff_time.

Definition analyze_activity_patterns
    (now : Z) (activities : list activity) (time_window_hours : Z) : result analysis :=
  match activities with
  | [] => Ok (AnalysisError "No activities provided for analysis" 0)
  | _ :: _ =>
      cutoff_time ← minus_hours (of_now now) time_window_hours;
      recent_activities ← filterM (in_window cutoff_time) activities;
      match recent_activities with
      | [] => Ok (AnalysisError "No recent activities in the specified time window" 0)
      | _ :: _ =>
          let scores := _calculate_distraction_scores recent_activities in
          patterns ← _detect_patterns recent_activities;
          let insights := _generate_insights recent_activities scores patterns in
          let stats := _calculate_statistics recent_activities scores in
          Ok (AnalysisReport
                {| analysis_period_hours := time_window_hours;
                   total_activities := Z.of_nat (length recent_activities);
                   report_distraction_scores := scores;
                   patterns := patterns;
                   insights := insights;
                   report_statistics := stats;
                   report_model_version := model_version;
                   analyzed_at := of_now now |})
      end
  end.

End DistractionDetector.

(** ** Task records, shared by the predictor, the ranker and the coach *)
Module Task.

Record task : Type := {
  id : option string;
  title : option string;
  description : option string;
  type : option string;
  priority : option string;
  due_date : option string;
  estimated_minutes : option Z;
  duration_minutes : option Z;
  actual_minutes : option Z;
  category : option string;
  tags : option (list string);
  status : option string
}.

(** A task with no key at all, to build examples from. *)
Definition empty : task :=
  {| id := None; title := None; description := None; type := None; priority := None;
     due_date := None; estimated_minutes := None; duration_minutes := None;
     actual_minutes := None; category := None; tags := None; status := None |}.

End Task.

(** Truth value of an optional string or number: [None], the empty string
    and [0] are false. *)
Definition truthy_str (o : option string) : bool :=
  match o with
  | Some s => negb (str_eqb s EmptyString)
  | None => false
  end.

Definition truthy_Z (o : option Z) : bool :=
  match o with
  | Some z => negb (z =? 0)
  | None => false
  end.

Definition truthy_Q (o : option Q) : bool :=
  match o with
  | Some q => negb (Qeq_bool q 0)
  | None => false
  end.

(** [x or y] on optional numbers. *)
Definition py_or (x y : option Z) : option Z := if truthy_Z x then x else y.

(** ** time_predictor.py *)
Module TimePredictor.

Definition model_version : string := "v1.0".

(** [self.base_estimates], in minutes. *)
Definition base_estimates : gmap string Q :=
  list_to_map [
    ("email", 5%Q); ("meeting", 60%Q); ("coding", 90%Q); ("writing", 45%Q);
    ("research", 60%Q); ("design", 120%Q); ("review", 30%Q); ("planning", 60%Q);
    ("general", 30%Q)
  ].

Record user_profile : Type := {
  average_task_duration_minutes : option Q
}.

Record features : Type := {
  title_length : Z;
  description_length : Z;
  word_count : Z;
  task_type : string;
  priority : string;
  has_deadline : bool;
  estimated_minutes : option Z;
  tags : list string;
  complexity_score : Z;
  urgency_score : Z
}.

Definition complexity_keywords : list string :=
  ["complex"; "difficult"; "challenging"; "multiple"; "several"].

Definition urgency_keywords : list string :=
  ["urgent"; "asap"; "immediate"; "critical"; "important"].

(** [sum(1 for keyword in keywords if keyword in title or keyword in description)] *)
Definition keyword_hits (keywords : list string) (title description : string) : Z :=
  Z.of_nat (length (List.filter
    (fun keyword => contains keyword title || contains keyword description) keywords)).

Definition _extract_features (t : Task.task) : features :=
  let title := lower (default EmptyString (Task.title t)) in
  let description := lower (default EmptyString (Task.description t)) in
  let task_type := lower (default "general" (Task.type t)) in
  {| title_length := Z.of_nat (String.length title);
     description_length := Z.of_nat (String.length description);
     word_count := Z.of_nat (length (split title)) + Z.of_nat (length (split description));
     task_type := task_type;
     priority := lower (default "medium" (Task.priority t));
     has_deadline := truthy_str (Task.due_date t);
     estimated_minutes := Task.estimated_minutes t;
     tags := default [] (Task.tags t);
     complexity_score := keyword_hits complexity_keywords title description;
     urgency_score := keyword_hits urgency_keywords title description |}.

(** [self.base_estimates["general"]] *)
Definition general_estimate : Q := default 30%Q (base_estimates !! "general").

Definition _get_base_estimate (t : Task.task) (f : features) : Q :=
  let task_type := task_type f in
  let base := default general_estimate (base_estimates !! task_type) in
  let base :=
    if str_in task_type ["writing"; "research"; "email"] then
      let word_count := word_count f in
      if 500 <? word_count then (base * 1.5)%Q
      else if 1000 <? word_count then (base * 2.0)%Q
      else base
    else base in
  let complexity := complexity_score f in
  if 0 <? complexity then (base * (1 + inject_Z complexity * 0.2))%Q else base.

(** [len(a.intersection(b)) / len(a.union(b))] *)
Definition overlap (a b : gset string) : Q :=
  (inject_Z (Z.of_nat (size (a ∩ b))) / inject_Z (Z.of_nat (size (a ∪ b))))%Q.

Definition set_is_empty (a : gset string) : bool := bool_decide (a = ∅).

Definition similarity_score (t hist_task : Task.task) : Q :=
  let task_title := lower (default EmptyString (Task.title t)) in
  let task_type := lower (default "general" (Task.type t)) in
  let s0 := 0%Q in
  let s1 :=
    if str_eqb (lower (default EmptyString (Task.type hist_task))) task_type
    then (s0 + 3)%Q else s0 in
  let hist_title := lower (default EmptyString (Task.title hist_task)) in
  let task_words : gset string := list_to_set (split task_title) in
  let hist_words : gset string := list_to_set (split hist_title) in
  let s2 :=
    if negb (set_is_empty task_words) && negb (set_is_empty hist_words)
    then (s1 + overlap task_words hist_words * 2)%Q else s1 in
  let s3 :=
    if str_eqb (lower (default EmptyString (Task.priority hist_task)))
               (lower (default "medium" (Task.priority t)))
    then (s2 + 1)%Q else s2 in
  let task_tags : gset string := list_to_set (default [] (Task.tags t)) in
  let hist_tags : gset string := list_to_set (default [] (Task.tags hist_task)) in
  if negb (set_is_empty task_tags) && negb (set_is_empty hist_tags)
  then (s3 + overlap task_tags hist_tags)%Q else s3.

Definition _find_similar_tasks (t : Task.task) (historical_data : list Task.task)
    : list Task.task :=
  take 10 (List.filter (fun hist_task => Qgeb (similarity_score t hist_task) 2)
                       historical_data).

(** [if not historical_data]: [None] and the empty list are both false. *)
Definition history_is_empty (historical_data : option (list Task.task)) : bool :=
  match historical_data with
  | None | Some [] => true
  | Some (_ :: _) => false
  end.

Definition _adjust_with_history (base_estimate : Q) (t : Task.task)
    (historical_data : option (list Task.task)) : Q :=
  if history_is_empty historical_data then base_estimate else
  let similar_tasks := _find_similar_tasks t (default [] historical_data) in
  match similar_tasks with
  | [] => base_estimate
  | _ :: _ =>
      let actual_durations :=
        omap (fun h =>
                let d := py_or (Task.actual_minutes h) (Task.duration_minutes h) in
                if truthy_Z d then inject_Z <$> d else None)
             similar_tasks in
      match actual_durations with
      | [] => base_estimate
      | _ :: _ =>
          let avg_actual := mean actual_durations in
          let median_actual := median actual_durations in
          let adjusted := (avg_actual * 0.3 + median_actual * 0.7)%Q in
          let similarity_confidence :=
            py_min (inject_Z (Z.of_nat (length similar_tasks)) / 5) 1 in
          (base_estimate * (1 - similarity_confidence)
           + adjusted * similarity_confidence)%Q
      end
  end.

Definition _adjust_with_profile (estimate : Q) (profile : option user_profile) : Q :=
  match profile with
  | None => estimate
  | Some p =>
      match average_task_duration_minutes p with
      | Some avg_task_duration =>
          if negb (Qeq_bool avg_task_duration 0)
          then (estimate * (avg_task_duration / 30))%Q
          else estimate
      | None => estimate
      end
  end.

Definition _calculate_confidence (t : Task.task)
    (historical_data : option (list Task.task)) (profile : option user_profile) : Q :=
  let confidence := 0.5%Q in
  let confidence :=
    if history_is_empty historical_data then confidence else
    let similar_count :=
      Z.of_nat (length (_find_similar_tasks t (default [] historical_data))) in
    if 0 <? similar_count
    then (confidence + py_min (inject_Z similar_count / 10) 0.3)%Q
    else confidence in
  let confidence :=
    match profile with
    | Some p =>
        if truthy_Q (average_task_duration_minutes p)
        then (confidence + 0.2)%Q else confidence
    | None => confidence
    end in
  let confidence :=
    if negb (truthy_str (Task.description t))
       || (Z.of_nat (String.length (default EmptyString (Task.description t))) <? 10)
    then (confidence - 0.1)%Q else confidence in
  py_max 0.3 (py_min 0.95 confidence).

Definition _generate_reasoning (t : Task.task) (estimate confidence : Q) : string :=
  let task_type := default "general" (Task.type t) in
  let reasoning :=
    "Based on " +:+ task_type +:+ " task patterns, estimated duration is "
    +:+ pretty (py_int estimate) +:+ " minutes. " in
  if Qgtb confidence 0.7
  then reasoning +:+ "High confidence based on similar historical tasks."
  else if Qgtb confidence 0.5
  then reasoning +:+ "Moderate confidence with some uncertainty."
  else reasoning +:+ "Lower confidence - task details may need refinement.".

Record prediction : Type := {
  task_id : option string;
  predicted_minutes : Z;
  confidence_score : Q;
  base_estimate_minutes : Z;
  reasoning : string;
  input_features : features;
  prediction_model_version : string;
  predicted_at : Datetime.datetime
}.

Definition predict_task_duration (now : Z) (t : Task.task)
    (historical_data : option (list Task.task)) (profile : option user_profile)
    : prediction :=
  let features := _extract_features t in
  let base_estimate := _get_base_estimate t features in
  let adjusted_estimate := _adjust_with_history base_estimate t historical_data in
  let final_estimate := _adjust_with_profile adjusted_estimate profile in
  let confidence := _calculate_confidence t historical_data profile in
  {| task_id := Task.id t;
     predicted_minutes := py_int final_estimate;
     confidence_score := py_round2 confidence;
     base_estimate_minutes := py_int base_estimate;
     reasoning := _generate_reasoning t final_estimate confidence;
     input_features := features;
     prediction_model_version := model_version;
     predicted_at := Datetime.of_now now |}.

Definition batch_predict (now : Z) (tasks : list Task.task)
    (historical_data : option (list Task.task)) (profile : option user_profile)
    : list prediction :=
  map (fun t => predict_task_duration now t historical_data profile) tasks.

End TimePredictor.

(** ** smart_suggestions.py *)
Module SmartSuggestions.
Import Datetime.

Definition model_version : string := "v1.0".

Record session : Type := {
  started_at : option string;
  duration_minutes : option Z;
  interruption_count : option Z
}.

(** The ["context_data"] of a suggestion.  Title, description, rationale,
    action items and expected benefit of a suggestion are fixed sentences
    around these values. *)
Inductive context_data : Type :=
  | schedule_context (peak_hours : list Z) (productivity_score : Q)
  | overdue_context (overdue_count : Z) (tasks : list (option string))
  | break_context (avg_duration avg_interruptions : Q)
  | duration_context (optimal_duration : Q) (sample_size : Z)
  | distraction_context (distraction_type : string) (frequency : Z).

Record suggestion : Type := {
  suggestion_type : string;
  priority_score : Q;
  context : context_data
}.

(** *** [_generate_schedule_suggestions] *)

Record hour_stats : Type := { duration : Z; interruptions : Z; count : Z }.

Definition hour_stats_zero : hour_stats :=
  {| duration := 0; interruptions := 0; count := 0 |}.

(** [hourly_productivity], filled in the order of the sessions. *)
Fixpoint hourly_productivity (focus_sessions : list session)
    (acc : list (Z * hour_stats)) : result (list (Z * hour_stats)) :=
  match focus_sessions with
  | [] => Ok acc
  | s :: rest =>
      t ← parse_timestamp (started_at s);
      let d := default 0 (duration_minutes s) in
      let i := default 0 (interruption_count s) in
      hourly_productivity rest
        (assoc_upsert (Datetime.hour t) hour_stats_zero
           (fun h => {| duration := duration h + d;
                        interruptions := interruptions h + i;
                        count := count h + 1 |})
           acc)
  end.

(** [x[1]["duration"] / max(x[1]["interruptions"], 1)] *)
Definition productivity (h : hour_stats) : Q :=
  (inject_Z (duration h) / inject_Z (Z.max (interruptions h) 1))%Q.

Definition _generate_schedule_suggestions {PD : Type}
    (focus_sessions : list session) (productivity_data : PD) : result (list suggestion) :=
  match focus_sessions with
  | [] => Ok []
  | _ :: _ =>
      hourly ← hourly_productivity focus_sessions [];
      let best_hours :=
        take 3 (sort_desc_by (fun x => productivity (snd x)) hourly) in
      match best_hours with
      | [] => Ok []
      | best :: _ =>
          Ok [ {| suggestion_type := "schedule_optimization";
                  priority_score := 0.85;
                  context := schedule_context (map fst best_hours)
                               (productivity (snd best)) |} ]
      end
  end.

(** *** [_generate_task_prioritization_suggestions] *)

Definition is_incomplete_high_priority (t : Task.task) : bool :=
  negb (match Task.status t with
        | Some st => str_in st ["completed"; "cancelled"]
        | None => false
        end)
  && str_in (lower (default "medium" (Task.priority t))) ["urgent"; "high"].

(** [t.get("due_date") and fromisoformat(...) < datetime.now()] *)
Definition is_overdue (now : Z) (t : Task.task) : result bool :=
  if truthy_str (Task.due_date t)
  then d ← parse_timestamp (Task.due_date t); Datetime.lt d (of_now now)
  else Ok false.

Definition _generate_task_prioritization_suggestions (now : Z)
    (tasks : list Task.task) (focus_sessions : list session) : result (list suggestion) :=
  let incomplete_high_priority := List.filter is_incomplete_high_priority tasks in
  match incomplete_high_priority with
  | [] => Ok []
  | _ :: _ =>
      overdue ← filterM (is_overdue now) incomplete_high_priority;
      match overdue with
      | [] => Ok []
      | _ :: _ =>
          Ok [ {| suggestion_type := "task_prioritization";
                  priority_score := 0.95;
                  context := overdue_context (Z.of_nat (length overdue))
                               (map Task.title (take 3 overdue)) |} ]
      end
  end.

(** *** [_generate_break_timing_suggestions] *)

Definition _generate_break_timing_suggestions
    (focus_sessions : list session)
    (activity_patterns : list DistractionDetector.activity) : list suggestion :=
  match focus_sessions with
  | [] => []
  | _ :: _ =>
      let sessions_with_interruptions :=
        List.filter (fun s => 0 <? default 0 (interruption_count s)) focus_sessions in
      match sessions_with_interruptions with
      | [] => []
      | _ :: _ =>
          let avg_duration :=
            mean (map (fun s => inject_Z (default 0 (duration_minutes s)))
                      sessions_with_interruptions) in
          let avg_interruptions :=
            mean (map (fun s => inject_Z (default 0 (interruption_count s)))
                      sessions_with_interruptions) in
          if Qgtb avg_interruptions 3 && Qgtb avg_duration 50
          then [ {| suggestion_type := "break_timing";
                    priority_score := 0.75;
                    context := break_context avg_duration avg_interruptions |} ]
          else []
      end
  end.

(** *** [_generate_duration_suggestions] *)

Definition _generate_duration_suggestions
    (focus_sessions : list session) (tasks : list Task.task) : list suggestion :=
  match focus_sessions with
  | [] => []
  | _ :: _ =>
      let successful_sessions :=
        List.filter (fun s => (default 0 (interruption_count s) <=? 1)
                              && (30 <=? default 0 (duration_minutes s)))
                    focus_sessions in
      match successful_sessions with
      | [] => []
      | _ :: _ =>
          let optimal_durations :=
            map (fun s => inject_Z (default 0 (duration_minutes s))) successful_sessions in
          match optimal_durations with
          | [] => []
          | _ :: _ =>
              let median_duration := median optimal_durations in
              [ {| suggestion_type := "focus_duration";
                   priority_score := 0.70;
                   context := duration_context median_duration
                                (Z.of_nat (length successful_sessions)) |} ]
          end
      end
  end.

(** *** [_generate_pattern_suggestions] *)

Definition _generate_pattern_suggestions
    (activity_patterns : list DistractionDetector.activity)
    (focus_sessions : list session) : list suggestion :=
  match activity_patterns with
  | [] => []
  | _ :: _ =>
      let high_distraction_activities :=
        List.filter
          (fun a => Qgtb (default 0%Q (DistractionDetector.distraction_score a)) 0.7)
          activity_patterns in
      match high_distraction_activities with
      | [] => []
      | _ :: _ =>
          let distraction_types :=
            fold_left
              (fun d a =>
                 assoc_upsert (default "unknown" (DistractionDetector.activity_category a))
                              0 (fun n => n + 1) d)
              high_distraction_activities [] in
          match distraction_types with
          | [] => []
          | first :: others =>
              let top_distraction := first_max_by snd first others in
              [ {| suggestion_type := "distraction_management";
                   priority_score := 0.80;
                   context := distraction_context (fst top_distraction)
                                (snd top_distraction) |} ]
          end
      end
  end.

(** *** [generate_suggestions] *)

(** The suggestions in the order the five generators are called, before
    [suggestions.sort]. *)
Definition collect_suggestions {PD : Type} (now : Z) (productivity_data : PD)
    (focus_sessions : list session) (tasks : list Task.task)
    (activity_patterns : list DistractionDetector.activity) : result (list suggestion) :=
  schedule_suggestions ← _generate_schedule_suggestions focus_sessions productivity_data;
  task_suggestions ← _generate_task_prioritization_suggestions now tasks focus_sessions;
  let break_suggestions :=
    _generate_break_timing_suggestions focus_sessions activity_patterns in
  let duration_suggestions := _generate_duration_suggestions focus_sessions tasks in
  let pattern_suggestions :=
    _generate_pattern_suggestions activity_patterns focus_sessions in
  Ok (schedule_suggestions ++ task_suggestions ++ break_suggestions
      ++ duration_suggestions ++ pattern_suggestions).

(** [suggestions.sort(key=lambda x: x.get("priority_score", 0), reverse=True)] *)
Definition sort_suggestions (suggestions : list suggestion) : list suggestion :=
  sort_desc_by priority_score suggestions.

Definition generate_suggestions {PD : Type} (now : Z) (user_id : string)
    (productivity_data : PD) (focus_sessions : list session) (tasks : list Task.task)
    (activity_patterns : list DistractionDetector.activity) : result (list suggestion) :=
  suggestions ← collect_suggestions now productivity_data focus_sessions tasks
                  activity_patterns;
  Ok (take 10 (sort_suggestions suggestions)).

End SmartSuggestions.

(** ** focus_coach.py: [summarize_tasks]

    The service builds its coach with [FocusCoach()], so [self.openai_client]
    is [None] and [_generate_ai_summary] takes its rule-based branch. *)
Module FocusCoach.

Definition model_version : string := "v1.0".

Record summary : Type := {
  summary_text : string;
  total_tasks : Z;
  categories : gmap string Z;
  priority_breakdown : gmap string Z;
  total_estimated_minutes : option Z;
  average_task_minutes : option Q;
  summary_model_version : option string
}.

Definition initial_priority_breakdown : gmap string Z :=
  {[ "urgent" := 0; "high" := 0; "medium" := 0; "low" := 0 ]}.

(** [priority_breakdown[priority] = priority_breakdown.get(priority, 0) + 1] *)
Definition tally (breakdown : gmap string Z) (t : Task.task) : gmap string Z :=
  let priority := lower (default "medium" (Task.priority t)) in
  <[priority := default 0 (breakdown !! priority) + 1]> breakdown.

(** [categories[category].append(title)] *)
Definition categorize (categories : gmap string (list string)) (t : Task.task)
    : gmap string (list string) :=
  let category := default "general" (Task.category t) in
  <[category := default [] (categories !! category) ++ [default EmptyString (Task.title t)]]>
    categories.

(** [task.get("estimated_minutes", 0) or task.get("duration_minutes", 0)] *)
Definition estimated (t : Task.task) : Z :=
  let e := default 0 (Task.estimated_minutes t) in
  if negb (e =? 0) then e else default 0 (Task.duration_minutes t).

Definition _generate_ai_summary (tasks : list Task.task)
    (categories : gmap string (list string)) (priority_breakdown : gmap string Z)
    : string :=
  let total := Z.of_nat (length tasks) in
  let urgent := default 0 (priority_breakdown !! "urgent") in
  let high := default 0 (priority_breakdown !! "high") in
  let s := "You have " +:+ pretty total +:+ " tasks to complete. " in
  let s := if 0 <? urgent
           then s +:+ pretty urgent +:+ " urgent task(s) require immediate attention. "
           else s in
  let s := if 0 <? high
           then s +:+ pretty high +:+ " high-priority task(s) should be prioritized. "
           else s in
  s +:+ "Tasks are distributed across " +:+ pretty (Z.of_nat (size categories))
    +:+ " categories.".

Definition summarize_tasks (tasks : list Task.task) : summary :=
  match tasks with
  | [] =>
      {| summary_text := "No tasks to summarize.";
         total_tasks := 0;
         categories := ∅;
         priority_breakdown := ∅;
         total_estimated_minutes := None;
         average_task_minutes := None;
         summary_model_version := None |}
  | _ :: _ =>
      let cats := fold_left categorize tasks ∅ in
      let breakdown := fold_left tally tasks initial_priority_breakdown in
      let total := fold_left (fun acc t => acc + estimated t) tasks 0 in
      {| summary_text := _generate_ai_summary tasks cats breakdown;
         total_tasks := Z.of_nat (length tasks);
         categories := (fun titles => Z.of_nat (length titles)) <$> cats;
         priority_breakdown := breakdown;
         total_estimated_minutes := Some total;
         average_task_minutes :=
           Some (inject_Z total / inject_Z (Z.of_nat (length tasks)))%Q;
         summary_model_version := Some model_version |}
  end.

End FocusCoach.

(** ** focus_coach.py: [generate_focus_plan]

    [datetime.now(tz)] for an aware due date needs the instant of the call,
    so the planner takes, besides the wall clock [now], the UTC offset
    [utc_offset] of the machine (in microseconds). *)
Module FocusPlanner.
Import Datetime.

(** The failures of the scheduler: [peak_hours[0]] on an empty list, an hour
    outside 0..23 in [replace(hour=...)], a clock past the year 9999. *)
Inductive schedule_error : Type :=
  | PeakIndexError
  | HourValueError
  | ClockOverflowError.

Inductive attempt (A : Type) : Type :=
  | Done (a : A)
  | Failed (e : schedule_error).
Arguments Done {A} a.
Arguments Failed {A} e.

#[global] Instance attempt_bind : MBind attempt := fun A B k r =>
  match r with
  | Done a => k a
  | Failed e => Failed e
  end.

Record user_prefs : Type := {
  peak_productivity_hours : option (list Z);
  preferred_focus_duration : option Z
}.

(** [user_preferences or {}] *)
Definition prefs_or_empty (user_preferences : option user_prefs) : user_prefs :=
  default {| peak_productivity_hours := None; preferred_focus_duration := None |}
          user_preferences.

(** *** [_prioritize_tasks] *)

Definition priority_order : gmap string Z :=
  {[ "urgent" := 4; "high" := 3; "medium" := 2; "low" := 1 ]}.

Definition us_per_day : Z := 24 * us_per_hour.

(** [(due - datetime.now(due.tzinfo)).days]; any exception of the [try]
    block leaves [None]. *)
Definition days_until_due (now utc_offset : Z) (t : Task.task) : option Z :=
  if truthy_str (Task.due_date t) then
    match parse_timestamp (Task.due_date t) with
    | Ok due =>
        let delta :=
          match tzinfo due with
          | None => ticks due - now
          | Some off => (ticks due - off) - (now - utc_offset)
          end in
        Some (delta / us_per_day)
    | Raise _ => None
    end
  else None.

Definition task_score (now utc_offset : Z) (t : Task.task) : Z :=
  let priority := lower (default "medium" (Task.priority t)) in
  let base_score := default 2 (priority_order !! priority) in
  match days_until_due now utc_offset t with
  | Some days =>
      if days <? 0 then base_score + 3
      else if days =? 0 then base_score + 2
      else if days <=? 1 then base_score + 1
      else base_score
  | None => base_score
  end.

(** [sorted(tasks, key=task_score, reverse=True)] *)
Definition _prioritize_tasks (now utc_offset : Z) (tasks : list Task.task)
    : list Task.task :=
  sort_desc_by (fun t => inject_Z (task_score now utc_offset t)) tasks.

(** *** [_generate_schedule] *)

Record schedule_entry : Type := {
  entry_task_id : option string;
  entry_title : option string;
  scheduled_time : datetime;
  entry_estimated_minutes : Z;
  entry_priority : string;
  order : Z
}.

Record schedule : Type := {
  task_schedule : list schedule_entry;
  start_time : option datetime;
  end_time : option datetime;
  total_scheduled_minutes : Z
}.

Definition default_peak_hours : list Z := [9; 10; 11; 14; 15; 16].

Definition us_per_minute : Z := 60 * us_per_second.

(** [d.replace(hour=h, minute=0)]: the date, the seconds and the
    microseconds stay. *)
Definition replace_hour (d : datetime) (h : Z) : attempt datetime :=
  if (0 <=? h) && (h <=? 23)
  then Done {| ticks := ticks d - ticks d mod us_per_day + h * us_per_hour
                        + ticks d mod us_per_minute;
               tzinfo := tzinfo d |}
  else Failed HourValueError.

(** [datetime.now().replace(hour=9, minute=0, second=0, microsecond=0)] *)
Definition nine_o_clock (now : Z) : datetime :=
  {| ticks := now - now mod us_per_day + 9 * us_per_hour; tzinfo := None |}.

(** [d + timedelta(minutes=m)] *)
Definition plus_minutes (d : datetime) (m : Z) : attempt datetime :=
  let t := ticks d + m * us_per_minute in
  if (0 <=? t) && (t <? max_ticks)
  then Done {| ticks := t; tzinfo := tzinfo d |}
  else Failed ClockOverflowError.

(** [min(l)] of a non-empty list of integers. *)
Definition list_min_Z (x : Z) (l : list Z) : Z := fold_left Z.min l x.

(** [min([h for h in peak_hours if h > current_hour], default=peak_hours[0])]:
    the default is evaluated first, whatever the list. *)
Definition next_peak_hour (peak_hours : list Z) (current_hour : Z) : attempt Z :=
  match peak_hours with
  | [] => Failed PeakIndexError
  | first :: _ =>
      match List.filter (fun h => current_hour <? h) peak_hours with
      | [] => Done first
      | h :: hs => Done (list_min_Z h hs)
      end
  end.

Definition Z_in (x : Z) (l : list Z) : bool := existsb (Z.eqb x) l.

(** [task.get("estimated_minutes", 30)] *)
Definition estimated_or_30 (t : Task.task) : Z := default 30 (Task.estimated_minutes t).

(** [if current_hour not in peak_hours and i > 0: ...]: the clock of every
    task but the first is moved to a peak hour of the same day. *)
Definition move_to_peak (peak_hours : list Z) (i : Z) (current_time : datetime)
    : attempt datetime :=
  let current_hour := hour current_time in
  if negb (Z_in current_hour peak_hours) && (0 <? i)
  then next_peak ← next_peak_hour peak_hours current_hour;
       replace_hour current_time next_peak
  else Done current_time.

(** The body of [for i, task in enumerate(tasks)], from the index [i] on;
    the [break] returns what is scheduled so far. *)
Fixpoint schedule_loop (peak_hours : list Z) (available_minutes : Z) (i : Z)
    (tasks : list Task.task) (acc : list schedule_entry) (current_time : datetime)
    (total_scheduled : Z) : attempt (list schedule_entry * Z) :=
  match tasks with
  | [] => Done (acc, total_scheduled)
  | t :: rest =>
      let estimated := estimated_or_30 t in
      if available_minutes <? total_scheduled + estimated
      then Done (acc, total_scheduled)
      else
        current_time ← move_to_peak peak_hours i current_time;
        let entry :=
          {| entry_task_id := Task.id t;
             entry_title := Task.title t;
             scheduled_time := current_time;
             entry_estimated_minutes := estimated;
             entry_priority := default "medium" (Task.priority t);
             order := i + 1 |} in
        next_time ← plus_minutes current_time (estimated + 5);
        schedule_loop peak_hours available_minutes (i + 1) rest (acc ++ [entry])
                      next_time (total_scheduled + estimated)
  end.

Definition _generate_schedule (now : Z) (tasks : list Task.task)
    (available_minutes : Z) (prefs : user_prefs) : attempt schedule :=
  let peak_hours := default default_peak_hours (peak_productivity_hours prefs) in
  '(entries, total_scheduled) ←
    schedule_loop peak_hours available_minutes 0 tasks [] (nine_o_clock now) 0;
  Done {| task_schedule := entries;
          start_time := scheduled_time <$> head entries;
          end_time := scheduled_time <$> last entries;
          total_scheduled_minutes := total_scheduled |}.

(** *** [_generate_focus_strategy] *)

Definition is_high_priority (t : Task.task) : bool :=
  str_in (lower (default "medium" (Task.priority t))) ["urgent"; "high"].

(** [" ".join(strategies)] *)
Fixpoint join_with_space (l : list string) : string :=
  match l with
  | [] => EmptyString
  | [s] => s
  | s :: rest => s +:+ " " +:+ join_with_space rest
  end.

Definition _generate_focus_strategy (tasks : list Task.task) (prefs : user_prefs)
    (s : schedule) : string :=
  let high_priority_count := Z.of_nat (length (List.filter is_high_priority tasks)) in
  let first :=
    if Qgtb (inject_Z high_priority_count) (inject_Z (Z.of_nat (length tasks)) * 0.5)
    then "Focus on high-priority tasks first during your peak productivity hours."
    else "Distribute focus sessions evenly throughout the day with strategic breaks." in
  let avg_duration :=
    match tasks with
    | [] => 30%Q
    | _ :: _ => (inject_Z (Zsum (map estimated_or_30 tasks))
                 / inject_Z (Z.of_nat (length tasks)))%Q
    end in
  let split_advice :=
    if Qgtb avg_duration 60
    then ["Consider breaking down longer tasks into focused 50-minute sessions with 10-minute breaks."]
    else [] in
  let preferred_duration := default 50 (preferred_focus_duration prefs) in
  join_with_space
    ([first] ++ split_advice
     ++ ["Schedule " +:+ pretty preferred_duration
         +:+ "-minute focus blocks aligned with your natural rhythm."]).

(** *** [generate_focus_plan] *)

(** The plan dict; its title is the date of [created_at] in words. *)
Record plan : Type := {
  plan_type : string;
  description : string;
  tasks_summary : FocusCoach.summary;
  recommended_schedule : schedule;
  focus_strategy : string;
  estimated_total_minutes : Z;
  status : string;
  created_at : datetime;
  plan_model_version : string
}.

Inductive plan_result : Type :=
  | PlanError (error : string)
  | Plan (p : plan).

(** [available_hours or 8] *)
Definition hours_or_8 (available_hours : option Z) : Z :=
  default 8 (py_or available_hours (Some 8)).

Definition generate_focus_plan (now utc_offset : Z) (tasks : list Task.task)
    (user_preferences : option user_prefs) (available_hours : option Z)
    : attempt plan_result :=
  match tasks with
  | [] => Done (PlanError "No tasks provided for focus plan generation")
  | _ :: _ =>
      let prefs := prefs_or_empty user_preferences in
      let available_minutes := hours_or_8 available_hours * 60 in
      let sorted_tasks := _prioritize_tasks now utc_offset tasks in
      sched ← _generate_schedule now sorted_tasks available_minutes prefs;
      let strategy := _generate_focus_strategy sorted_tasks prefs sched in
      let total_minutes := Zsum (map entry_estimated_minutes (task_schedule sched)) in
      Done (Plan
        {| plan_type := "daily";
           description := "AI-generated focus plan with "
                          +:+ pretty (Z.of_nat (length tasks)) +:+ " tasks";
           tasks_summary := FocusCoach.summarize_tasks tasks;
           recommended_schedule := sched;
           focus_strategy := strategy;
           estimated_total_minutes := total_minutes;
           status := "draft";
           created_at := of_now now;
           plan_model_version := FocusCoach.model_version |})
  end.

End FocusPlanner.

(** ** python-summarizer: utils/cleaner.py and services/summary_service.py

    A text is a string of code points below 256. *)
Module Summarizer.

(** A character matched by [\s], the same ones [str.strip()] removes. *)
Definition is_space (c : ascii) : bool :=
  let n := nat_of_ascii c in
  (n =? 32)%nat || ((9 <=? n)%nat && (n <=? 13)%nat) || ((28 <=? n)%nat && (n <=? 31)%nat)
  || (n =? 133)%nat || (n =? 160)%nat.

(** [WHITESPACE_RE.sub(" ", s)]: every maximal run of whitespace becomes one
    space; [in_run] tells that the run has already been replaced. *)
Fixpoint collapse (in_run : bool) (s : string) : string :=
  match s with
  | EmptyString => EmptyString
  | String c s' =>
      if is_space c
      then (if in_run then collapse true s' else String " " (collapse true s'))
      else String c (collapse false s')
  end.

(** [s.lstrip()] and [s.rstrip()] *)
Fixpoint lstrip (s : string) : string :=
  match s with
  | EmptyString => EmptyString
  | String c s' => if is_space c then lstrip s' else s
  end.

Fixpoint rstrip (s : string) : string :=
  match s with
  | EmptyString => EmptyString
  | String c s' =>
      match rstrip s' with
      | EmptyString => if is_space c then EmptyString else String c EmptyString
      | r => String c r
      end
  end.

(** [s.strip()] *)
Definition strip (s : string) : string := rstrip (lstrip s).

Definition clean_text (value : string) : string := strip (collapse false value).

(** [round(x, 4)] *)
Definition py_round4 (x : Q) : Q := (inject_Z (round_half_even (x * 10000)) / 10000)%Q.

(** The dict a summarization pipeline returns. *)
Record model_output : Type := {
  summary_text : option string;
  summary : option string
}.

Record summary_metadata : Type := {
  meta_summary : string;
  meta_length : Z;
  compression_ratio : Q
}.

(** [x or y] on optional strings. *)
Definition str_or (x y : option string) : option string :=
  if truthy_str x then x else y.

Section Service.
(** [summarize_text]: the pretrained model, called with the cleaned text
    and the two length bounds. *)
Variable summarize_text : string -> Z -> Z -> model_output.

(** [SummaryService(min_length, max_length).summarize(payload)] *)
Definition summarize (min_length max_length : Z) (payload : string) : summary_metadata :=
  let normalized := clean_text payload in
  let result := summarize_text normalized min_length max_length in
  let text := default EmptyString
                (str_or (str_or (summary_text result) (summary result)) (Some EmptyString)) in
  let text := strip text in
  let original_length := Z.max (Z.of_nat (String.length normalized)) 1 in
  let summary_length := Z.of_nat (String.length text) in
  {| meta_summary := text;
     meta_length := summary_length;
     compression_ratio := py_round4 (inject_Z summary_length / inject_Z original_length) |}.

(** app.py, [POST /summarize], with the service built by [SummaryService()];
    the call of the model neither times out nor raises. *)
Inductive response : Type :=
  | BadRequest (detail : string)
  | Summary (body : summary_metadata).

Definition summarize_endpoint (text : string) : response :=
  let cleaned_input := clean_text text in
  if str_eqb cleaned_input EmptyString
  then BadRequest "Text cannot be empty."
  else if (String.length cleaned_input <? 30)%nat
  then BadRequest "Text must be at least 30 characters."
  else Summary (summarize 60 180 cleaned_input).
End Service.

End Summarizer.

(** * Specification-side definitions and example inputs *)

(** [x] may stand before [y] in a list sorted by descending [key]. *)
Definition key_desc {A : Type} (key : A -> Q) (x y : A) : Prop := (key y <= key x)%Q.

(** The elements whose key is [q]. *)
Definition has_key {A : Type} (key : A -> Q) (q : Q) (x : A) : bool := Qeq_bool (key x) q.

Module DistractionSpec.
Import DistractionDetector.

Definition category_of (a : activity) : string :=
  lower (default "unknown" (activity_category a)).

Definition duration_of (a : activity) : Z := default 0 (duration_seconds a).

(** [duration * weight] of one activity. *)
Definition weighted_duration (a : activity) : Q :=
  (inject_Z (duration_of a) * category_weight (category_of a))%Q.

Definition is_distraction (a : activity) : bool :=
  Qgtb (category_weight (category_of a)) 0.5.

Definition total_duration_of (l : list activity) : Z := Zsum (map duration_of l).

(** The pool in the words of the specification: every activity adds its
    weighted duration. *)
Definition unconditional_pool (l : list activity) : Q :=
  Qsum (map weighted_duration l).

(** The pool with the threshold of the source: only the activities of a
    distracting category add their weighted duration. *)
Definition thresholded_pool (l : list activity) : Q :=
  Qsum (map (fun a => if is_distraction a then weighted_duration a else 0%Q) l).

Definition in_category (c : string) (a : activity) : bool := str_eqb (category_of a) c.

Definition score_of_pool (pool : Q) (total : Z) : Q :=
  if 0 <? total then py_min (pool / inject_Z total) 1 else 0%Q.

(** What the per-category entries hold after the activities [seen]. *)
Definition category_invariant (m : gmap string category_data) (seen : list activity) : Prop :=
  forall c : string,
    match m !! c with
    | Some d =>
        (distraction_duration d
         == unconditional_pool (List.filter (in_category c) seen))%Q
        /\ total_duration d = total_duration_of (List.filter (in_category c) seen)
    | None => List.filter (in_category c) seen = []
    end.
End DistractionSpec.

Module StatisticsSpec.
Import DistractionDetector.
(** The scores of the activities that carry the field. *)
Definition explicit_scores (l : list activity) : list Q := omap distraction_score l.
Definition nonzero (q : Q) : bool := negb (Qeq_bool q 0).
End StatisticsSpec.

Module PredictorSpec.
Import TimePredictor.

(** The pipeline of the specification for a call without history: the base
    estimate, then the profile adjustment. *)
Definition base_profile_estimate (t : Task.task) (profile : option user_profile) : Q :=
  _adjust_with_profile (_get_base_estimate t (_extract_features t)) profile.

(** The confidence of the specification without the history term: 0.5,
    plus 0.2 with a profile average, minus 0.1 for a short description,
    clamped to [0.3, 0.95]. *)
Definition confidence_without_history (t : Task.task) (profile : option user_profile) : Q :=
  let c := 0.5%Q in
  let c := match profile with
           | Some p => if truthy_Q (average_task_duration_minutes p)
                       then (c + 0.2)%Q else c
           | None => c
           end in
  let c := if negb (truthy_str (Task.description t))
              || (Z.of_nat (String.length (default EmptyString (Task.description t))) <? 10)
           then (c - 0.1)%Q else c in
  py_max 0.3 (py_min 0.95 c).

Definition predict_without_history (now : Z) (t : Task.task)
    (profile : option user_profile) : prediction :=
  {| task_id := Task.id t;
     predicted_minutes := py_int (base_profile_estimate t profile);
     confidence_score := py_round2 (confidence_without_history t profile);
     base_estimate_minutes := py_int (_get_base_estimate t (_extract_features t));
     reasoning := _generate_reasoning t (base_profile_estimate t profile)
                    (confidence_without_history t profile);
     input_features := _extract_features t;
     prediction_model_version := model_version;
     predicted_at := Datetime.of_now now |}.
End PredictorSpec.

Module RankerSpec.
Import SmartSuggestions.
(** The five constants of the generators. *)
Definition fixed_score (s : suggestion) : Prop :=
  (priority_score s == 0.95 \/ priority_score s == 0.85 \/ priority_score s == 0.80
   \/ priority_score s == 0.75 \/ priority_score s == 0.70)%Q.

(** A generator's output: no more than one suggestion, scored with one of
    the fixed constants. *)
Definition at_most_one_fixed (l : list suggestion) : Prop :=
  (length l <= 1)%nat /\ Forall fixed_score l.
End RankerSpec.

Module CoachSpec.
Import FocusCoach.
(** The key a task is tallied under. *)
Definition priority_key (t : Task.task) : string :=
  lower (default "medium" (Task.priority t)).

(** The number of tasks tallied under [k]. *)
Definition count_priority (k : string) (tasks : list Task.task) : Z :=
  Z.of_nat (length (List.filter (fun t => str_eqb (priority_key t) k) tasks)).

Definition blocker_task : Task.task :=
  {| Task.id := Some "t9"; Task.title := Some "Unblock the release";
     Task.description := None; Task.type := None; Task.priority := Some "BLOCKER";
     Task.due_date := None; Task.estimated_minutes := None;
     Task.duration_minutes := None; Task.actual_minutes := None;
     Task.category := None; Task.tags := None; Task.status := None |}.
End CoachSpec.

Module Examples.
Import DistractionDetector.

(** 2024-03-01T12:00:00 on the local wall clock. *)
Definition noon : Z := 63844891200000000.

Definition activity_at (category ts : string) (seconds : Z) (score : option Q) : activity :=
  {| activity_type := Some "app"; activity_category := Some category;
     timestamp := Some ts; duration_seconds := Some seconds;
     distraction_score := score |}.

(** One hundred seconds in the editor. *)
Definition work_100 : activity :=
  activity_at "work" "2024-03-01T10:30:00" 100 None.

(** An activity scored 0.0 and one scored 0.8. *)
Definition zero_then_high : list activity :=
  [activity_at "work" "2024-03-01T10:30:00" 600 (Some 0%Q);
   activity_at "social" "2024-03-01T11:00:00" 600 (Some 0.8%Q)].

Fixpoint repeat_words (n : nat) (w : string) : string :=
  match n with
  | O => EmptyString
  | S n' => w +:+ " " +:+ repeat_words n' w
  end.

Definition long_writing_task : Task.task :=
  {| Task.id := Some "t1"; Task.title := Some "Write the annual report";
     Task.description := Some (repeat_words 1001 "word");
     Task.type := Some "writing"; Task.priority := Some "high";
     Task.due_date := None; Task.estimated_minutes := None;
     Task.duration_minutes := None; Task.actual_minutes := None;
     Task.category := None; Task.tags := None; Task.status := None |}.
End Examples.

Module RankerExamples.
Import SmartSuggestions Examples.

Definition session_at (ts : string) (minutes interruptions : Z) : session :=
  {| started_at := Some ts; duration_minutes := Some minutes;
     interruption_count := Some interruptions |}.

Definition sessions3 : list session :=
  [session_at "2024-03-01T09:00:00" 60 4;
   session_at "2024-03-01T14:00:00" 45 0;
   session_at "2024-03-01T09:30:00" 55 5].

Definition overdue_task : Task.task :=
  {| Task.id := Some "t7"; Task.title := Some "File the tax return";
     Task.description := None; Task.type := None; Task.priority := Some "High";
     Task.due_date := Some "2024-02-01T00:00:00"; Task.estimated_minutes := None;
     Task.duration_minutes := None; Task.actual_minutes := None;
     Task.category := None; Task.tags := None; Task.status := None |}.

Definition patterns1 : list DistractionDetector.activity :=
  [activity_at "social" "2024-03-01T10:30:00" 300 (Some 0.9%Q)].

Definition ranked5 : list suggestion :=
  [ {| suggestion_type := "task_prioritization"; priority_score := 0.95;
       context := overdue_context 1 [Some "File the tax return"] |};
    {| suggestion_type := "schedule_optimization"; priority_score := 0.85;
       context := schedule_context [14; 9] (45 # 1) |};
    {| suggestion_type := "distraction_management"; priority_score := 0.80;
       context := distraction_context "social" 1 |};
    {| suggestion_type := "break_timing"; priority_score := 0.75;
       context := break_context (115 # 2) (9 # 2) |};
    {| suggestion_type := "focus_duration"; priority_score := 0.70;
       context := duration_context 45 1 |} ].
End RankerExamples.

(** ** Counting and reading the models

    What the properties below say about the code, in the terms of the code. *)

(** [d.get(k)] on an insertion-ordered dict. *)
Fixpoint assoc_get {K V : Type} `{EqDecision K} (k : K) (d : list (K * V)) : option V :=
  match d with
  | [] => None
  | (k', v) :: d' => if decide (k' = k) then Some v else assoc_get k d'
  end.

(** [Counter]-style tallies: the number of elements of [l] with key [k]... *)
Definition tally_count {A K : Type} `{EqDecision K} (key : A -> K) (k : K) (l : list A) : Z :=
  Z.of_nat (length (List.filter (fun a => bool_decide (key a = k)) l)).

(** ...and what a tally dict holds after the elements [seen]: every key
    once, with the number of its elements. *)
Definition tally_ok {A K : Type} `{EqDecision K} (key : A -> K)
    (c : list (K * Z)) (seen : list A) : Prop :=
  NoDup c.*1
  /\ forall k, assoc_get k c
               = if tally_count key k seen =? 0 then None
                 else Some (tally_count key k seen).

Module DistractionProps.
Import DistractionDetector DistractionSpec.


(** The activities whose timestamp parses to a naive datetime. *)
Definition naive_timestamp (a : activity) : Prop :=
  exists d, parse_timestamp (timestamp a) = Ok d /\ Datetime.tzinfo d = None.

(** [timestamp >= cutoff] for a naive timestamp, as a boolean. *)
Definition at_or_after (cutoff : Datetime.datetime) (a : activity) : bool :=
  match parse_timestamp (timestamp a) with
  | Ok d => negb (Datetime.ticks d <? Datetime.ticks cutoff)
  | Raise _ => false
  end.

(** The number of activities of a category. *)
Definition count_category (c : string) (l : list activity) : Z :=
  tally_count category_of c l.

(** What a pattern says about the activities it was detected in. *)
Definition pattern_ok (l : list activity) (p : pattern) : Prop :=
  match p with
  | peak_distraction_hour h n => 0 <= h <= 23 /\ 0 <= n
  | recurring_distraction c n =>
      (0.5 < category_weight c)%Q /\ n = count_category c l /\ 1 <= n
  | rapid_context_switching k => Z.of_nat (length l) < 10 * k
  end.
End DistractionProps.

Module PredictorProps.
Import TimePredictor.

(** [t.get("actual_minutes") or t.get("duration_minutes")], when it counts
    as true. *)
Definition recorded_minutes (h : Task.task) : option Q :=
  let d := py_or (Task.actual_minutes h) (Task.duration_minutes h) in
  if truthy_Z d then inject_Z <$> d else None.

(** The parts of two tasks that [similarity_score] compares. *)
Definition title_words (t : Task.task) : gset string :=
  list_to_set (split (lower (default EmptyString (Task.title t)))).

Definition tag_set (t : Task.task) : gset string :=
  list_to_set (default [] (Task.tags t)).

Definition same_type (t h : Task.task) : bool :=
  str_eqb (lower (default EmptyString (Task.type h)))
          (lower (default "general" (Task.type t))).

Definition same_priority (t h : Task.task) : bool :=
  str_eqb (lower (default EmptyString (Task.priority h)))
          (lower (default "medium" (Task.priority t))).
End PredictorProps.

Module RankerProps.
Import SmartSuggestions.

(** The order in which the kinds of suggestion are ranked. *)
Definition ranking_order : list string :=
  ["task_prioritization"; "schedule_optimization"; "distraction_management";
   "break_timing"; "focus_duration"].

(** A generator's output: nothing, or one suggestion of its kind and score. *)
Definition emits (kind : string) (score : Q) (l : list suggestion) : Prop :=
  l = [] \/ exists ctx,
    l = [ {| suggestion_type := kind; priority_score := score; context := ctx |} ].

(** A due date that is read. *)
Definition has_due_date (t : Task.task) : bool := truthy_str (Task.due_date t).

(** [due < now] for a naive due date, as a boolean. *)
Definition overdue_at (now : Z) (t : Task.task) : bool :=
  has_due_date t
  && match parse_timestamp (Task.due_date t) with
     | Ok d => Datetime.ticks d <? now
     | Raise _ => false
     end.

(** The category a high-distraction activity is counted under. *)
Definition raw_category (a : DistractionDetector.activity) : string :=
  default "unknown" (DistractionDetector.activity_category a).

Definition is_high_distraction (a : DistractionDetector.activity) : bool :=
  Qgtb (default 0%Q (DistractionDetector.distraction_score a)) 0.7.
End RankerProps.

Module PlannerProps.
Import FocusPlanner.

(** The order [_prioritize_tasks] sorts by. *)
Definition score_desc (now utc_offset : Z) (a b : Task.task) : Prop :=
  task_score now utc_offset b <= task_score now utc_offset a.

Definition has_score (now utc_offset z : Z) (t : Task.task) : bool :=
  task_score now utc_offset t =? z.

(** The task without its due date. *)
Definition without_due_date (t : Task.task) : Task.task :=
  {| Task.id := Task.id t; Task.title := Task.title t;
     Task.description := Task.description t; Task.type := Task.type t;
     Task.priority := Task.priority t; Task.due_date := None;
     Task.estimated_minutes := Task.estimated_minutes t;
     Task.duration_minutes := Task.duration_minutes t;
     Task.actual_minutes := Task.actual_minutes t;
     Task.category := Task.category t; Task.tags := Task.tags t;
     Task.status := Task.status t |}.

(** What a schedule entry takes from its task. *)
Definition entry_of (t : Task.task) (e : schedule_entry) : Prop :=
  entry_task_id e = Task.id t /\ entry_title e = Task.title t
  /\ entry_estimated_minutes e = estimated_or_30 t
  /\ entry_priority e = default "medium" (Task.priority t).


Definition peaks_of (prefs : user_prefs) : list Z :=
  default default_peak_hours (peak_productivity_hours prefs).

End PlannerProps.

Module SummarizerProps.
Import Summarizer.

(** Every whitespace character is a space, and no space follows a space;
    with [after_space] the string does not start with one either. *)
Fixpoint single_spaced (after_space : bool) (s : string) : bool :=
  match s with
  | EmptyString => true
  | String c s' =>
      if is_space c
      then bool_decide (c = " "%char) && negb after_space && single_spaced true s'
      else single_spaced false s'
  end.

Fixpoint ends_with_space (s : string) : bool :=
  match s with
  | EmptyString => false
  | String c EmptyString => is_space c
  | String _ s' => ends_with_space s'
  end.

(** The characters that are not whitespace, in order. *)
Fixpoint non_spaces (s : string) : list ascii :=
  match s with
  | EmptyString => []
  | String c s' => if is_space c then non_spaces s' else c :: non_spaces s'
  end.

Fixpoint all_spaces (s : string) : bool :=
  match s with
  | EmptyString => true
  | String c s' => is_space c && all_spaces s'
  end.

End SummarizerProps.

(** ** More example inputs *)

Module Fixtures.
Import DistractionDetector Examples.

(** Two activities of the first of March and one a month older. *)
Definition three_naive : list activity :=
  [activity_at "social" "2024-03-01T10:30:00" 300 None;
   activity_at "work" "2024-02-01T10:30:00" 300 None;
   activity_at "news" "2024-03-01T11:45:00" 120 None].

(** An activity with no timestamp key. *)
Definition no_timestamp : activity :=
  {| activity_type := Some "app"; activity_category := Some "work";
     timestamp := None; duration_seconds := Some 60; distraction_score := None |}.


(** Five times the same earlier report. *)
Definition five_reports : list Task.task :=
  repeat {| Task.id := Some "h1"; Task.title := Some "Quarterly report";
            Task.description := None; Task.type := Some "writing"; Task.priority := None;
            Task.due_date := None; Task.estimated_minutes := None;
            Task.duration_minutes := None; Task.actual_minutes := Some 70;
            Task.category := None; Task.tags := None; Task.status := None |} 5.

End Fixtures.

Module PlannerExamples.
Import Datetime FocusPlanner Examples.

Definition task_of (title priority : string) (due : option string) (minutes : option Z)
    : Task.task :=
  {| Task.id := None; Task.title := Some title; Task.description := None;
     Task.type := None; Task.priority := Some priority; Task.due_date := due;
     Task.estimated_minutes := minutes; Task.duration_minutes := None;
     Task.actual_minutes := None; Task.category := None; Task.tags := None;
     Task.status := None |}.

Definition report : Task.task := task_of "Write the report" "high" None (Some 120).
Definition review : Task.task := task_of "Review pull requests" "low" (Some "soon") (Some 45).
Definition inbox : Task.task := task_of "Empty the inbox" "medium" None None.

Definition no_prefs : user_prefs := prefs_or_empty None.
Definition no_peaks : user_prefs :=
  {| peak_productivity_hours := Some []; preferred_focus_duration := None |}.

(** 2024-03-01T17:00:00 *)
Definition five_pm : datetime := {| ticks := noon + 5 * us_per_hour; tzinfo := None |}.
End PlannerExamples.

Module SummarizerExamples.
Import Summarizer.

(** A stand-in for the model: the text up to its first period, padded as
    the decoder pads it. *)
Fixpoint first_sentence (s : string) : string :=
  match s with
  | EmptyString => EmptyString
  | String c s' =>
      if decide (c = "."%char) then "." else String c (first_sentence s')
  end.

Definition lead_model (text : string) (min_length max_length : Z) : model_output :=
  {| summary_text := Some (" " +:+ first_sentence text +:+ " "); summary := None |}.

Definition memo : string :=
  "  The release moved   to Friday. QA needs two more days, notes pending.  ".
End SummarizerExamples.

(** * Properties *)

Section Sums.
Lemma fold_left_Qplus_acc (l : list Q) (a : Q) :
  (fold_left Qplus l a == a + fold_left Qplus l 0)%Q.
Proof.
  revert a. induction l as [|x l IH]; intros a; cbn [fold_left].
  - ring.
  - rewrite (IH (a + x)%Q), (IH (0 + x)%Q). ring.
Qed.

Lemma Qsum_cons (x : Q) (l : list Q) : (Qsum (x :: l) == x + Qsum l)%Q.
Proof.
  unfold Qsum. cbn [fold_left]. rewrite fold_left_Qplus_acc. ring.
Qed.

Lemma Qsum_app (l1 l2 : list Q) : (Qsum (l1 ++ l2) == Qsum l1 + Qsum l2)%Q.
Proof.
  induction l1 as [|x l1 IH].
  - unfold Qsum at 2. simpl. ring.
  - cbn [app]. rewrite !Qsum_cons, IH. ring.
Qed.

Lemma fold_left_Zadd_acc (l : list Z) (a : Z) :
  fold_left Z.add l a = a + fold_left Z.add l 0.
Proof.
  revert a. induction l as [|x l IH]; intros a; cbn [fold_left].
  - lia.
  - rewrite (IH (a + x)), (IH (0 + x)). lia.
Qed.

Lemma Zsum_cons (x : Z) (l : list Z) : Zsum (x :: l) = x + Zsum l.
Proof. unfold Zsum. cbn [fold_left]. rewrite fold_left_Zadd_acc. lia. Qed.

Lemma py_min_le_r (a b : Q) : (py_min a b <= b)%Q.
Proof. unfold py_min. destruct (Qlt_le_dec b a); lra. Qed.

Lemma py_min_compat (a a' b : Q) : (a == a')%Q -> (py_min a b == py_min a' b)%Q.
Proof.
  intros H. unfold py_min.
  destruct (Qlt_le_dec b a), (Qlt_le_dec b a'); lra.
Qed.
End Sums.

Section Scores.
Import DistractionDetector DistractionSpec Examples.

Lemma scores_step_total (st : scores_acc) (a : activity) :
  acc_total_duration (scores_step st a) = acc_total_duration st + duration_of a.
Proof. reflexivity. Qed.

Lemma scores_step_pool (st : scores_acc) (a : activity) :
  (acc_distraction_duration (scores_step st a)
   == acc_distraction_duration st + (if is_distraction a then weighted_duration a else 0))%Q.
Proof.
  unfold scores_step, is_distraction, weighted_duration, category_of, duration_of. simpl.
  destruct (Qgtb _ _); ring.
Qed.

Lemma fold_scores_total (l : list activity) (st : scores_acc) :
  acc_total_duration (fold_left scores_step l st)
  = acc_total_duration st + total_duration_of l.
Proof.
  revert st. induction l as [|a l IH]; intros st.
  - unfold total_duration_of, Zsum. simpl. lia.
  - cbn [fold_left]. rewrite IH, scores_step_total.
    unfold total_duration_of. cbn [map]. rewrite Zsum_cons. lia.
Qed.

Lemma fold_scores_pool (l : list activity) (st : scores_acc) :
  (acc_distraction_duration (fold_left scores_step l st)
   == acc_distraction_duration st + thresholded_pool l)%Q.
Proof.
  revert st. induction l as [|a l IH]; intros st.
  - unfold thresholded_pool, Qsum. simpl. ring.
  - cbn [fold_left]. rewrite IH, scores_step_pool.
    unfold thresholded_pool. cbn [map]. rewrite Qsum_cons. ring.
Qed.

Lemma category_invariant_step (st : scores_acc) (seen : list activity) (a : activity) :
  category_invariant (acc_category_scores st) seen ->
  category_invariant (acc_category_scores (scores_step st a)) (seen ++ [a]).
Proof.
  intros Hinv c. specialize (Hinv c).
  unfold scores_step. cbn [acc_category_scores].
  fold (category_of a). fold (duration_of a).
  rewrite List.filter_app. cbn [List.filter].
  destruct (decide (category_of a = c)) as [Heq | Hne].
  - replace (in_category c a) with true
      by (symmetry; apply bool_decide_eq_true_2, Heq).
    rewrite Heq, lookup_insert_eq. cbn [distraction_duration total_duration].
    unfold unconditional_pool, total_duration_of.
    rewrite !map_app, Qsum_app. cbn [map]. rewrite Qsum_cons.
    unfold Zsum. rewrite fold_left_app. cbn [fold_left].
    fold (Zsum (map duration_of (List.filter (in_category c) seen))).
    fold (total_duration_of (List.filter (in_category c) seen)).
    fold (unconditional_pool (List.filter (in_category c) seen)).
    unfold weighted_duration. rewrite Heq.
    assert (Hnil : (Qsum [] == 0)%Q) by reflexivity. rewrite Hnil.
    destruct (acc_category_scores st !! c) as [d|].
    + destruct Hinv as [Hd Ht]. change (default fresh_category (Some d)) with d.
      split; [rewrite Hd; ring | rewrite Ht; reflexivity].
    + rewrite Hinv. change (default fresh_category None) with fresh_category.
      cbn [fresh_category distraction_duration total_duration].
      split; [unfold unconditional_pool, Qsum; cbn [map fold_left]; ring | reflexivity].
  - replace (in_category c a) with false
      by (symmetry; apply bool_decide_eq_false_2, Hne).
    rewrite lookup_insert_ne by exact Hne. rewrite app_nil_r. exact Hinv.
Qed.

Lemma category_invariant_fold (l : list activity) (st : scores_acc) (seen : list activity) :
  category_invariant (acc_category_scores st) seen ->
  category_invariant (acc_category_scores (fold_left scores_step l st)) (seen ++ l).
Proof.
  revert st seen. induction l as [|a l IH]; intros st seen Hinv.
  - rewrite app_nil_r. exact Hinv.
  - cbn [fold_left].
    replace (seen ++ a :: l) with ((seen ++ [a]) ++ l) by (rewrite <- app_assoc; reflexivity).
    apply IH, category_invariant_step, Hinv.
Qed.

Lemma by_category_unconditional (l : list activity) :
  category_invariant (by_category (_calculate_distraction_scores l)) l.
Proof.
  intros c. unfold _calculate_distraction_scores. cbn [by_category].
  rewrite lookup_fmap.
  assert (Hinit : category_invariant (acc_category_scores scores_init) []).
  { intros c'. cbn. rewrite lookup_empty. reflexivity. }
  pose proof (category_invariant_fold l scores_init [] Hinit c) as H.
  cbn [app] in H.
  destruct (acc_category_scores (fold_left scores_step l scores_init) !! c) as [d|];
    cbn; exact H.
Qed.

(** C2, as amended.  In [_calculate_distraction_scores] the product
    duration_seconds x weight of an activity enters the overall pool only
    when the weight of its category exceeds 0.5; the pool of its own category
    receives the product of every activity.  The overall score is the overall
    pool divided by the total duration, at most 1, and 0 when the total
    duration is not positive. *)
Theorem overall_pool_is_thresholded (l : list activity) :
  let s := _calculate_distraction_scores l in
  (distraction_duration_seconds s == thresholded_pool l)%Q
  /\ total_duration_seconds s = total_duration_of l
  /\ (overall_distraction_score s
      == score_of_pool (thresholded_pool l) (total_duration_of l))%Q
  /\ (overall_distraction_score s <= 1)%Q
  /\ category_invariant (by_category s) l.
Proof.
  cbn zeta. unfold _calculate_distraction_scores. cbn [distraction_duration_seconds
    total_duration_seconds overall_distraction_score].
  pose proof (fold_scores_pool l scores_init) as Hp.
  pose proof (fold_scores_total l scores_init) as Ht.
  cbn [scores_init acc_distraction_duration acc_total_duration] in Hp, Ht.
  rewrite Z.add_0_l in Ht. rewrite Qplus_0_l in Hp.
  split; [|split; [|split; [|split]]].
  - exact Hp.
  - exact Ht.
  - unfold score_of_pool. rewrite Ht.
    destruct (0 <? total_duration_of l).
    + apply py_min_compat. rewrite Hp. reflexivity.
    + unfold py_min. destruct (Qlt_le_dec 1 0); [lra | reflexivity].
  - apply py_min_le_r.
  - apply by_category_unconditional.
Qed.

(** C2, as stated, fails on one activity of the category "work" (weight 0.1)
    lasting 100 seconds: its product 10 is not added to the overall pool,
    which stays 0, and the overall score is 0, not 10/100. *)
Lemma unconditional_pool_refuted :
  let s := _calculate_distraction_scores [work_100] in
  (distraction_duration_seconds s == 0)%Q
  /\ (unconditional_pool [work_100] == 10)%Q
  /\ ~ (distraction_duration_seconds s == unconditional_pool [work_100])%Q
  /\ ~ (overall_distraction_score s
        == score_of_pool (unconditional_pool [work_100]) (total_duration_of [work_100]))%Q.
Proof.
  vm_compute. repeat split; try reflexivity; intros H; discriminate H.
Qed.
End Scores.

Section Parser.
Import Datetime.

Lemma append_cons (x : ascii) (a b : string) : String x a +:+ b = String x (a +:+ b).
Proof. reflexivity. Qed.

Lemma append_assoc (a b c : string) : (a +:+ b) +:+ c = a +:+ (b +:+ c).
Proof.
  induction a as [|x a IH]; [reflexivity|].
  rewrite !append_cons, IH. reflexivity.
Qed.

Lemma append_length (a b : string) :
  String.length (a +:+ b) = (String.length a + String.length b)%nat.
Proof.
  induction a as [|x a IH]; [reflexivity|].
  rewrite append_cons. cbn [String.length]. rewrite IH. reflexivity.
Qed.

Lemma replace_Z_app (a b : string) : replace_Z (a +:+ b) = replace_Z a +:+ replace_Z b.
Proof.
  induction a as [|x a IH]; [reflexivity|].
  rewrite append_cons. cbn [replace_Z]. rewrite IH.
  destruct (decide (x = "Z"%char)); [|reflexivity].
  symmetry. apply (append_assoc "+00:00").
Qed.

Lemma replace_Z_length (s : string) : (String.length s <= String.length (replace_Z s))%nat.
Proof.
  induction s as [|x s IH]; [reflexivity|].
  cbn [replace_Z]. destruct (decide (x = "Z"%char)).
  - rewrite append_length. cbn [String.length] in *. lia.
  - cbn [String.length]. lia.
Qed.

Lemma digits_consumes (n : nat) (acc : Z) (s : string) (v : Z) (s' : string) :
  digits n acc s = Some (v, s') ->
  exists p, s = p +:+ s' /\ String.length p = n.
Proof.
  revert acc s. induction n as [|n IH]; intros acc s H.
  - cbn in H. injection H as _ <-. exists EmptyString. split; reflexivity.
  - destruct s as [|c s]; [discriminate|]. cbn [digits] in H.
    destruct (digit c) as [dg|]; [|discriminate]. cbn in H.
    apply IH in H as (p & -> & Hlen).
    exists (String c p). split; [reflexivity | cbn; lia].
Qed.

Lemma expect_consumes (c : ascii) (s s' : string) :
  expect c s = Some s' -> s = String c s'.
Proof.
  destruct s as [|c' s]; [discriminate|]. cbn.
  destruct (decide (c = c')) as [->|]; [|discriminate]. intros [= ->]. reflexivity.
Qed.

Lemma parse_date_consumes (s : string) (y m d : Z) (rest : string) :
  parse_date s = Some (y, m, d, rest) ->
  exists p, s = p +:+ rest /\ String.length p = 10%nat.
Proof.
  unfold parse_date.
  destruct (digits 4 0 s) as [[y' s1]|] eqn:H1; [|discriminate]. cbn [mbind option_bind].
  destruct (expect "-" s1) as [s2|] eqn:H2; [|discriminate]. cbn [mbind option_bind].
  destruct (digits 2 0 s2) as [[m' s3]|] eqn:H3; [|discriminate]. cbn [mbind option_bind].
  destruct (expect "-" s3) as [s4|] eqn:H4; [|discriminate]. cbn [mbind option_bind].
  destruct (digits 2 0 s4) as [[d' s5]|] eqn:H5; [|discriminate]. cbn [mbind option_bind].
  destruct (_ && _); [|discriminate]. intros [= _ _ _ <-].
  apply digits_consumes in H1 as (p1 & -> & L1).
  apply expect_consumes in H2 as ->.
  apply digits_consumes in H3 as (p3 & -> & L3).
  apply expect_consumes in H4 as ->.
  apply digits_consumes in H5 as (p5 & -> & L5).
  exists (p1 +:+ String "-" (p3 +:+ String "-" p5)). split.
  - rewrite append_assoc, append_cons, append_assoc, append_cons. reflexivity.
  - rewrite append_length. cbn [String.length]. rewrite append_length.
    cbn [String.length]. lia.
Qed.

(** Two ways of cutting one string: the shorter prefix is a prefix of the
    longer one. *)
Lemma append_cut (p rest q w : string) :
  p +:+ rest = q +:+ w -> (String.length p <= String.length q)%nat ->
  exists m, q = p +:+ m /\ rest = m +:+ w.
Proof.
  revert q. induction p as [|c p IH]; intros q H Hlen.
  - exists q. split; [reflexivity | exact H].
  - destruct q as [|c' q]; [cbn in Hlen; lia|].
    rewrite !append_cons in H. injection H as <- H. cbn [String.length] in Hlen.
    destruct (IH q H ltac:(lia)) as (m & -> & ->).
    exists m. split; reflexivity.
Qed.

Lemma split_tz_finds_sign (t w : string) :
  snd (split_tz (t +:+ String "+" w)) <> None.
Proof.
  induction t as [|c t IH].
  - change (EmptyString +:+ String "+" w) with (String "+" w). cbn [split_tz].
    rewrite decide_True by reflexivity. discriminate.
  - rewrite append_cons. cbn [split_tz]. destruct (decide (c = "+"%char)); [discriminate|].
    destruct (decide (c = "-"%char)); [discriminate|].
    destruct (split_tz (t +:+ String "+" w)) as [t' z]. exact IH.
Qed.

Lemma parse_offset_aware (x : Z * string) (off : option Z) :
  parse_offset (Some x) = Some off -> off <> None.
Proof.
  destruct x as [sign s]. unfold parse_offset.
  destruct (_ || _); [|discriminate].
  destruct (parse_hh_mm_ss_ff s) as [[[[h m] sec] us]|]; [|discriminate].
  cbn [mbind option_bind]. cbv zeta.
  destruct (_ <? _); [|discriminate]. intros [= <-]. discriminate.
Qed.

(** A timestamp with a time part and a trailing Z, when it parses, parses to
    an aware datetime. *)
Lemma zulu_is_aware (s0 : string) (d : datetime) :
  (11 <= String.length s0)%nat ->
  parse_timestamp (Some (s0 +:+ "Z")) = Ok d ->
  tzinfo d <> None.
Proof.
  intros Hlen. unfold parse_timestamp, fromisoformat.
  change (default EmptyString (Some (s0 +:+ "Z"))) with (s0 +:+ "Z").
  rewrite replace_Z_app. change (replace_Z "Z") with "+00:00".
  destruct (parse_isoformat _) as [d'|] eqn:Hp; [|discriminate]. intros [= <-].
  unfold parse_isoformat in Hp.
  destruct (parse_date _) as [[[[y m] dd] rest]|] eqn:Hd; [|discriminate].
  cbn [mbind option_bind] in Hp.
  apply parse_date_consumes in Hd as (p & Hs & Lp).
  symmetry in Hs.
  pose proof (replace_Z_length s0) as Hr.
  destruct (append_cut p rest (replace_Z s0) "+00:00" Hs ltac:(lia)) as (tail & Hq & ->).
  assert (Lm : (1 <= String.length tail)%nat).
  { rewrite Hq, append_length in Hr. lia. }
  destruct tail as [|sep t]; [cbn in Lm; lia|].
  rewrite append_cons in Hp.
  pose proof (split_tz_finds_sign t "00:00") as Hz.
  change (t +:+ "+00:00") with (t +:+ String "+" "00:00") in Hp.
  destruct (split_tz (t +:+ String "+" "00:00")) as [tpart z].
  destruct (parse_hh_mm_ss_ff tpart) as [[[[h mi] sec] us]|]; [|discriminate].
  cbn [mbind option_bind] in Hp.
  destruct z as [x|]; [|contradiction].
  destruct (parse_offset (Some x)) as [off|] eqn:Ho; [|discriminate].
  cbn [mbind option_bind] in Hp.
  destruct (_ && _); [|discriminate]. injection Hp as <-. cbn.
  eapply parse_offset_aware, Ho.
Qed.
End Parser.

Section Window.
Import Datetime DistractionDetector Examples.

Lemma filterM_all_false {A : Type} (p : A -> result bool) (l : list A) :
  Forall (fun x => p x = Ok false) l -> filterM p l = Ok [].
Proof.
  induction 1 as [|x l Hx _ IH]; [reflexivity|].
  cbn [filterM]. rewrite Hx, IH. reflexivity.
Qed.

Lemma in_window_aware (cutoff : datetime) (a : activity) (d : datetime) (off : Z) :
  tzinfo cutoff = None ->
  parse_timestamp (timestamp a) = Ok d -> tzinfo d = Some off ->
  in_window cutoff a = Raise TypeError.
Proof.
  intros Hc Hp Hd. unfold in_window. rewrite Hp. cbn.
  unfold Datetime.ge, Datetime.compare. rewrite Hd, Hc. reflexivity.
Qed.

Lemma in_window_naive (cutoff : datetime) (a : activity) (d : datetime) :
  tzinfo cutoff = None ->
  parse_timestamp (timestamp a) = Ok d -> tzinfo d = None ->
  in_window cutoff a = Ok (negb (ticks d <? ticks cutoff)).
Proof.
  intros Hc Hp Hd. unfold in_window. rewrite Hp. cbn.
  unfold Datetime.ge, Datetime.compare. rewrite Hd, Hc. cbn.
  rewrite Z.ltb_compare. destruct (ticks d ?= ticks cutoff); reflexivity.
Qed.

Lemma minus_hours_naive (now h : Z) (cutoff : datetime) :
  minus_hours (of_now now) h = Ok cutoff -> tzinfo cutoff = None.
Proof.
  unfold minus_hours. destruct (_ && _); [|discriminate].
  intros [= <-]. reflexivity.
Qed.

Lemma analyze_empty (now h : Z) :
  analyze_activity_patterns now [] h
  = Ok (AnalysisError "No activities provided for analysis" 0).
Proof. reflexivity. Qed.

Lemma analyze_all_outside_naive (now h : Z) (cutoff : datetime) (l : list activity) :
  minus_hours (of_now now) h = Ok cutoff ->
  Forall (fun a => exists d, parse_timestamp (timestamp a) = Ok d
                             /\ tzinfo d = None /\ ticks d < ticks cutoff) l ->
  exists msg, analyze_activity_patterns now l h = Ok (AnalysisError msg 0).
Proof.
  intros Hc Hall. destruct l as [|a l]; [eexists; reflexivity|].
  unfold analyze_activity_patterns. rewrite Hc. cbn [mbind result_bind].
  rewrite filterM_all_false; [eexists; reflexivity|].
  eapply Forall_impl; [exact Hall|]. intros x (d & Hp & Hn & Hlt). cbn beta in *.
  rewrite (in_window_naive cutoff x d (minus_hours_naive _ _ _ Hc) Hp Hn).
  f_equal. apply negb_false_iff, Z.ltb_lt, Hlt.
Qed.

Lemma aware_timestamp_faults (now h : Z) (a : activity) (rest : list activity)
    (d : datetime) :
  parse_timestamp (timestamp a) = Ok d ->
  tzinfo d <> None ->
  analyze_activity_patterns now (a :: rest) h = Raise TypeError
  \/ analyze_activity_patterns now (a :: rest) h = Raise OverflowError.
Proof.
  intros Hp Hd. destruct (tzinfo d) as [off|] eqn:Hoff; [|contradiction].
  unfold analyze_activity_patterns.
  destruct (minus_hours (of_now now) h) as [cutoff|e] eqn:Hc.
  - left. cbn [mbind result_bind filterM].
    rewrite (in_window_aware cutoff a d off (minus_hours_naive _ _ _ Hc) Hp Hoff).
    reflexivity.
  - right. unfold minus_hours in Hc. destruct (_ && _); [discriminate|].
    injection Hc as <-. reflexivity.
Qed.

Lemma malformed_timestamp_faults (now h : Z) (a : activity) (rest : list activity)
    (e : exn) :
  parse_timestamp (timestamp a) = Raise e ->
  analyze_activity_patterns now (a :: rest) h = Raise e
  \/ analyze_activity_patterns now (a :: rest) h = Raise OverflowError.
Proof.
  intros Hp. unfold analyze_activity_patterns.
  destruct (minus_hours (of_now now) h) as [cutoff|e'] eqn:Hc.
  - left. cbn [mbind result_bind filterM]. unfold in_window. rewrite Hp. reflexivity.
  - right. unfold minus_hours in Hc. destruct (_ && _); [discriminate|].
    injection Hc as <-. reflexivity.
Qed.

(** C1 fails on the code.  When the first timestamp of a list has a time part
    and a trailing Z, [analyze_activity_patterns] returns no result, neither
    a report nor an error object: the Z is rewritten to +00:00, a valid
    timestamp parses to an aware datetime, and comparing it with the naive
    cutoff raises [TypeError] (unless the cutoff itself is out of range). *)
Theorem zulu_timestamp_faults (now h : Z) (a : activity) (rest : list activity)
    (s0 : string) :
  timestamp a = Some (s0 +:+ "Z") ->
  (11 <= String.length s0)%nat ->
  exists e : exn,
    analyze_activity_patterns now (a :: rest) h = Raise e
    /\ (forall d, parse_timestamp (timestamp a) = Ok d ->
                  e = TypeError \/ e = OverflowError).
Proof.
  intros Hts Hlen.
  destruct (parse_timestamp (timestamp a)) as [d|e] eqn:Hp.
  - assert (Haware : tzinfo d <> None).
    { rewrite Hts in Hp. exact (zulu_is_aware s0 d Hlen Hp). }
    destruct (aware_timestamp_faults now h a rest d Hp Haware) as [H|H];
      eexists; (split; [exact H|]); intros _ _; auto.
  - destruct (malformed_timestamp_faults now h a rest e Hp) as [H|H];
      eexists; (split; [exact H|]); intros d' Hd'; discriminate Hd'.
Qed.

Lemma zulu_timestamp_faults_witness :
  timestamp (activity_at "work" "2024-03-01T10:30:00Z" 600 None)
  = Some ("2024-03-01T10:30:00" +:+ "Z")
  /\ (11 <= String.length "2024-03-01T10:30:00")%nat
  /\ exists e : exn,
       analyze_activity_patterns noon
         [activity_at "work" "2024-03-01T10:30:00Z" 600 None] 24 = Raise e
       /\ (forall d,
             parse_timestamp (timestamp (activity_at "work" "2024-03-01T10:30:00Z" 600 None))
             = Ok d -> e = TypeError \/ e = OverflowError).
Proof.
  split; [reflexivity|]. split; [cbn; lia|].
  apply (zulu_timestamp_faults noon 24
           (activity_at "work" "2024-03-01T10:30:00Z" 600 None) []
           "2024-03-01T10:30:00").
  - reflexivity.
  - cbn. lia.
Defined.

(** C5 fails on the code.  The empty list and a list of naive timestamps
    before the cutoff give the error object with [total_activities = 0]; the
    same instant written with a trailing Z, also outside the window, raises
    [TypeError] instead. *)
Theorem outside_window_zulu_faults :
  analyze_activity_patterns noon [] 24
  = Ok (AnalysisError "No activities provided for analysis" 0)
  /\ analyze_activity_patterns noon [activity_at "work" "2000-01-01T00:00:00" 600 None] 24
     = Ok (AnalysisError "No recent activities in the specified time window" 0)
  /\ analyze_activity_patterns noon [activity_at "work" "2000-01-01T00:00:00Z" 600 None] 24
     = Raise TypeError.
Proof. repeat split; vm_compute; reflexivity. Qed.
End Window.

Section Statistics.
Import DistractionDetector StatisticsSpec Examples.

Lemma collect_scores_nonzero (l : list activity) :
  collect_scores l = List.filter nonzero (explicit_scores l).
Proof.
  unfold collect_scores, explicit_scores.
  induction l as [|a l IH]; [reflexivity|].
  cbn [List.filter omap list_omap]. unfold score_is_truthy at 1.
  destruct (distraction_score a) as [q|] eqn:Hq; cbn [List.filter].
  - unfold nonzero at 1. destruct (negb (Qeq_bool q 0)); cbn [map]; rewrite ?Hq, IH; reflexivity.
  - exact IH.
Qed.

(** C4 fails on the code.  [_calculate_statistics] keeps the scores that are
    true as Python values, so an explicit score of 0.0 is dropped like a
    missing one: for a score 0.0 and a score 0.8 the minimum and the mean
    are 0.8 and 0.8, where the two explicit scores have minimum 0 and
    mean 0.4. *)
Theorem zero_score_is_dropped :
  let stats := _calculate_statistics zero_then_high
                 (_calculate_distraction_scores zero_then_high) in
  (forall l, collect_scores l = List.filter nonzero (explicit_scores l))
  /\ explicit_scores zero_then_high = [0%Q; 0.8%Q]
  /\ collect_scores zero_then_high = [0.8%Q]
  /\ (min_distraction_score stats == 0.8)%Q
  /\ (avg_distraction_score stats == 0.8)%Q
  /\ (list_min (explicit_scores zero_then_high) == 0)%Q
  /\ (mean (explicit_scores zero_then_high) == 0.4)%Q.
Proof.
  split; [exact collect_scores_nonzero|].
  vm_compute. repeat split; reflexivity.
Qed.
End Statistics.

Section Rounding.
Lemma round_half_even_bounds (x : Q) (a b : Z) :
  (inject_Z a <= x)%Q -> (x <= inject_Z b)%Q ->
  a <= round_half_even x <= b.
Proof.
  intros Ha Hb.
  assert (Hfa : a <= Qfloor x).
  { rewrite <- (Qfloor_Z a). apply Qfloor_resp_le, Ha. }
  assert (Hfb : Qfloor x <= b).
  { rewrite <- (Qfloor_Z b). apply Qfloor_resp_le, Hb. }
  pose proof (Qfloor_le x) as Hfl.
  assert (Hup : (1 # 2 <= x - inject_Z (Qfloor x))%Q -> Qfloor x + 1 <= b).
  { intros Hr. assert (Hlt : (inject_Z (Qfloor x) < inject_Z b)%Q).
    { revert Hr Hb. generalize (inject_Z (Qfloor x)) (inject_Z b). intros p q Hr Hb. lra. }
    rewrite <- Zlt_Qlt in Hlt. lia. }
  unfold round_half_even.
  destruct (Qlt_le_dec (x - inject_Z (Qfloor x)) (1 # 2)) as [Hlo | Hhi]; [lia|].
  specialize (Hup Hhi).
  destruct (Qlt_le_dec (1 # 2) (x - inject_Z (Qfloor x))); [lia|].
  destruct (Z.even (Qfloor x)); lia.
Qed.

Lemma py_round2_bounds (x : Q) :
  (0.3 <= x)%Q -> (x <= 0.95)%Q -> (0.3 <= py_round2 x)%Q /\ (py_round2 x <= 0.95)%Q.
Proof.
  intros Hlo Hhi. unfold py_round2.
  destruct (round_half_even_bounds (x * 100) 30 95) as [H1 H2].
  - change (inject_Z 30) with 30%Q. lra.
  - change (inject_Z 95) with 95%Q. lra.
  - rewrite Zle_Qle in H1, H2.
    change (inject_Z 30) with 30%Q in H1. change (inject_Z 95) with 95%Q in H2.
    revert H1 H2. generalize (inject_Z (round_half_even (x * 100))). intros q H1 H2.
    unfold Qdiv. change (/ 100)%Q with (1 # 100)%Q.
    split; lra.
Qed.

Lemma clamp_bounds (lo hi x : Q) :
  (lo <= hi)%Q -> (lo <= py_max lo (py_min hi x))%Q /\ (py_max lo (py_min hi x) <= hi)%Q.
Proof.
  intros H. unfold py_max, py_min.
  destruct (Qlt_le_dec x hi); destruct (Qlt_le_dec lo _); split; lra.
Qed.
End Rounding.

Section Predictor.
Import TimePredictor PredictorSpec Examples.

(** C6.  For every task, history and profile the [confidence_score] of
    [predict_task_duration] lies in the closed interval [0.3, 0.95]. *)
Theorem confidence_score_in_range (now : Z) (t : Task.task)
    (historical_data : option (list Task.task)) (profile : option user_profile) :
  (0.3 <= confidence_score (predict_task_duration now t historical_data profile))%Q
  /\ (confidence_score (predict_task_duration now t historical_data profile) <= 0.95)%Q.
Proof.
  unfold predict_task_duration. cbn [confidence_score].
  apply py_round2_bounds; unfold _calculate_confidence; apply clamp_bounds; lra.
Qed.

(** C8.  With [historical_data = None] (and likewise with the empty list)
    [predict_task_duration] returns the prediction of the pipeline made of the
    base estimate and the profile adjustment only: the history stage hands
    the base estimate on unchanged. *)
Theorem no_history_is_base_profile_pipeline (now : Z) (t : Task.task)
    (profile : option user_profile) :
  predict_task_duration now t None profile = predict_without_history now t profile
  /\ predict_task_duration now t (Some []) profile = predict_without_history now t profile
  /\ _adjust_with_history (_get_base_estimate t (_extract_features t)) t None
     = _get_base_estimate t (_extract_features t).
Proof. repeat split. Qed.

(** C3 fails on the code.  For a writing, research or email task of more
    than 1000 words the test [word_count > 500] is met first, so the baseline
    is multiplied by 1.5; the branch of the factor 2.0 is never reached. *)
Theorem over_1000_words_scaled_once (t : Task.task) (f : features) :
  str_in (task_type f) ["writing"; "research"; "email"] = true ->
  1000 < word_count f ->
  (_get_base_estimate t f
   == default general_estimate (base_estimates !! task_type f) * 1.5
      * (if 0 <? complexity_score f
         then 1 + inject_Z (complexity_score f) * 0.2 else 1))%Q.
Proof.
  intros Hty Hwc. unfold _get_base_estimate. rewrite Hty.
  replace (500 <? word_count f) with true by (symmetry; apply Z.ltb_lt; lia).
  destruct (0 <? complexity_score f); [reflexivity | ring].
Qed.

Lemma over_1000_words_scaled_once_witness :
  str_in (task_type (_extract_features long_writing_task)) ["writing"; "research"; "email"]
  = true
  /\ word_count (_extract_features long_writing_task) = 1005
  /\ (_get_base_estimate long_writing_task (_extract_features long_writing_task)
      == 45 * 1.5 * 1)%Q
  /\ base_estimate_minutes (predict_task_duration noon long_writing_task None None) = 67.
Proof.
  split; [vm_compute; reflexivity|].
  split; [vm_compute; reflexivity|]. split; [|vm_compute; reflexivity].
  assert (Hb : default general_estimate
                 (base_estimates !! task_type (_extract_features long_writing_task))
               = 45%Q) by (vm_compute; reflexivity).
  assert (Hc : (0 <? complexity_score (_extract_features long_writing_task)) = false)
    by (vm_compute; reflexivity).
  rewrite <- Hb.
  pose proof (over_1000_words_scaled_once long_writing_task
                (_extract_features long_writing_task)) as H.
  rewrite Hc in H. apply H.
  - vm_compute. reflexivity.
  - vm_compute. reflexivity.
Defined.
End Predictor.

Section StableSort.
Context {A : Type} (key : A -> Q).

Local Abbreviation geb := (key_geb key).
Local Abbreviation R := (key_desc key).
Local Abbreviation same := (has_key key).

Lemma geb_true (x y : A) : geb x y = true -> R x y.
Proof. unfold key_geb, Qleb, key_desc. apply Qle_bool_imp_le. Qed.

Lemma geb_false (x y : A) : geb x y = false -> (key x < key y)%Q.
Proof.
  unfold key_geb, Qleb. intros H. apply Qnot_le_lt. intros Hle.
  apply Qle_bool_iff in Hle. congruence.
Qed.

Lemma sort_by_snoc (l : list A) (x : A) :
  sort_by geb (l ++ [x]) = insert_by geb x (sort_by geb l).
Proof. unfold sort_by. rewrite rev_app_distr. reflexivity. Qed.

Lemma insert_by_length (x : A) (l : list A) :
  length (insert_by geb x l) = S (length l).
Proof.
  induction l as [|y l IH]; [reflexivity|].
  cbn [insert_by]. destruct (geb y x); cbn [length]; [rewrite IH|]; reflexivity.
Qed.

Lemma insert_by_perm (x : A) (l : list A) : insert_by geb x l ≡ₚ x :: l.
Proof.
  induction l as [|y l IH]; [reflexivity|].
  cbn [insert_by]. destruct (geb y x); [|reflexivity].
  rewrite IH. apply Permutation_swap.
Qed.

Lemma sort_by_perm (l : list A) : sort_by geb l ≡ₚ l.
Proof.
  induction l as [|x l IH] using rev_ind; [reflexivity|].
  rewrite sort_by_snoc, insert_by_perm, IH.
  apply Permutation_cons_append.
Qed.

Lemma sort_by_length (l : list A) : length (sort_by geb l) = length l.
Proof. apply Permutation_length, sort_by_perm. Qed.

Lemma insert_by_sorted (x : A) (l : list A) :
  StronglySorted R l -> StronglySorted R (insert_by geb x l).
Proof.
  induction l as [|y l IH]; intros Hs.
  - repeat constructor.
  - apply StronglySorted_cons in Hs as [Hy Hs]. cbn [insert_by].
    destruct (geb y x) eqn:Hyx.
    + apply StronglySorted_cons. split; [|apply IH, Hs].
      rewrite insert_by_perm. constructor; [apply geb_true, Hyx | exact Hy].
    + apply geb_false in Hyx.
      apply StronglySorted_cons. split; [|apply StronglySorted_cons; auto].
      constructor; [unfold key_desc; lra|].
      eapply Forall_impl; [exact Hy|]. intros z Hz. unfold key_desc in *. lra.
Qed.

Lemma sort_by_sorted (l : list A) : StronglySorted R (sort_by geb l).
Proof.
  induction l as [|x l IH] using rev_ind; [constructor|].
  rewrite sort_by_snoc. apply insert_by_sorted, IH.
Qed.

Lemma filter_below (q : Q) (y : A) (l : list A) :
  (key y < q)%Q -> Forall (R y) l -> List.filter (same q) (y :: l) = [].
Proof.
  intros Hy Hl.
  assert (Hall : Forall (fun z => same q z = false) (y :: l)).
  { constructor.
    - unfold has_key. destruct (Qeq_bool (key y) q) eqn:E; [|reflexivity].
      apply Qeq_bool_eq in E. lra.
    - eapply Forall_impl; [exact Hl|]. intros z Hz. unfold has_key, key_desc in *.
      destruct (Qeq_bool (key z) q) eqn:E; [|reflexivity].
      apply Qeq_bool_eq in E. lra. }
  induction Hall as [|z l' Hz _ IH]; [reflexivity|].
  cbn [List.filter]. rewrite Hz. exact IH.
Qed.

Lemma insert_by_stable (q : Q) (x : A) (l : list A) :
  StronglySorted R l ->
  List.filter (same q) (insert_by geb x l)
  = List.filter (same q) l ++ List.filter (same q) [x].
Proof.
  induction l as [|y l IH]; intros Hs; [reflexivity|].
  apply StronglySorted_cons in Hs as [Hy Hs]. cbn [insert_by].
  destruct (geb y x) eqn:Hyx.
  - cbn [List.filter]. rewrite (IH Hs). destruct (same q y); reflexivity.
  - apply geb_false in Hyx.
    change (x :: y :: l) with ([x] ++ y :: l). rewrite List.filter_app.
    cbn [List.filter]. destruct (same q x) eqn:Hx; [|rewrite !app_nil_r; reflexivity].
    assert (Hq : (key y < q)%Q).
    { unfold has_key in Hx. apply Qeq_bool_eq in Hx. lra. }
    pose proof (filter_below q y l Hq Hy) as Hnil. cbn [List.filter] in Hnil.
    rewrite Hnil. reflexivity.
Qed.

Lemma sort_by_stable (q : Q) (l : list A) :
  List.filter (same q) (sort_by geb l) = List.filter (same q) l.
Proof.
  induction l as [|x l IH] using rev_ind; [reflexivity|].
  rewrite sort_by_snoc, insert_by_stable by apply sort_by_sorted.
  rewrite IH, List.filter_app. reflexivity.
Qed.

Lemma take_sorted (n : nat) (l : list A) :
  StronglySorted R l -> StronglySorted R (take n l).
Proof.
  intros Hs. rewrite <- (take_drop n l) in Hs.
  apply StronglySorted_app in Hs. tauto.
Qed.

Lemma filter_take_prefix (q : Q) (n : nat) (l : list A) :
  List.filter (same q) (take n l) `prefix_of` List.filter (same q) l.
Proof.
  exists (List.filter (same q) (drop n l)).
  rewrite <- List.filter_app, take_drop. reflexivity.
Qed.
End StableSort.

Section Ranker.
Import SmartSuggestions RankerSpec Examples RankerExamples.
Context {PD : Type}.

Lemma collect_suggestions_inv (now : Z) (pd : PD) (sessions : list session)
    (tasks : list Task.task) (patterns : list DistractionDetector.activity)
    (g : list suggestion) :
  collect_suggestions now pd sessions tasks patterns = Ok g ->
  exists a b,
    _generate_schedule_suggestions sessions pd = Ok a
    /\ _generate_task_prioritization_suggestions now tasks sessions = Ok b
    /\ g = a ++ b ++ _generate_break_timing_suggestions sessions patterns
             ++ _generate_duration_suggestions sessions tasks
             ++ _generate_pattern_suggestions patterns sessions.
Proof.
  unfold collect_suggestions.
  destruct (_generate_schedule_suggestions sessions pd) as [a|e]; [|discriminate].
  destruct (_generate_task_prioritization_suggestions now tasks sessions) as [b|e];
    [|discriminate].
  cbn. intros [= <-]. exists a, b. auto.
Qed.

Lemma generate_suggestions_inv (now : Z) (uid : string) (pd : PD)
    (sessions : list session) (tasks : list Task.task)
    (patterns : list DistractionDetector.activity) (out : list suggestion) :
  generate_suggestions now uid pd sessions tasks patterns = Ok out ->
  exists g, collect_suggestions now pd sessions tasks patterns = Ok g
            /\ out = take 10 (sort_suggestions g).
Proof.
  unfold generate_suggestions.
  destruct (collect_suggestions now pd sessions tasks patterns) as [g|e]; [|discriminate].
  cbn. intros [= <-]. exists g. auto.
Qed.

(** C7.  A list returned by [generate_suggestions] has at most 10 elements
    and is sorted by descending [priority_score]; it is drawn from the
    generated suggestions, and those of equal score keep the order in which
    they were generated. *)
Theorem generate_suggestions_ranked (now : Z) (uid : string) (pd : PD)
    (sessions : list session) (tasks : list Task.task)
    (patterns : list DistractionDetector.activity) (out : list suggestion) :
  generate_suggestions now uid pd sessions tasks patterns = Ok out ->
  (length out <= 10)%nat
  /\ StronglySorted (key_desc priority_score) out
  /\ exists generated,
       collect_suggestions now pd sessions tasks patterns = Ok generated
       /\ out ⊆+ generated
       /\ forall q : Q,
            List.filter (has_key priority_score q) out
            `prefix_of` List.filter (has_key priority_score q) generated.
Proof.
  intros H. apply generate_suggestions_inv in H as (g & Hg & ->).
  unfold sort_suggestions, sort_desc_by. split; [|split].
  - rewrite length_take. lia.
  - apply take_sorted, sort_by_sorted.
  - exists g. split; [exact Hg|]. split.
    + transitivity (sort_by (key_geb priority_score) g).
      * apply sublist_submseteq, sublist_take.
      * apply Permutation_submseteq, sort_by_perm.
    + intros q. rewrite <- (sort_by_stable priority_score q g).
      apply filter_take_prefix.
Qed.
End Ranker.

Lemma generate_suggestions_ranked_witness :
  SmartSuggestions.generate_suggestions Examples.noon "u1" tt
    RankerExamples.sessions3 [RankerExamples.overdue_task] RankerExamples.patterns1
  = Ok RankerExamples.ranked5
  /\ (length RankerExamples.ranked5 <= 10)%nat
  /\ StronglySorted (key_desc SmartSuggestions.priority_score) RankerExamples.ranked5.
Proof.
  assert (H : SmartSuggestions.generate_suggestions Examples.noon "u1" tt
                RankerExamples.sessions3 [RankerExamples.overdue_task]
                RankerExamples.patterns1 = Ok RankerExamples.ranked5)
    by (vm_compute; reflexivity).
  split; [exact H|].
  destruct (generate_suggestions_ranked _ _ _ _ _ _ _ H) as (Hlen & Hsorted & _).
  split; assumption.
Defined.

Section Generators.
Import SmartSuggestions RankerSpec Examples RankerExamples.
Context {PD : Type}.

Lemma none_is_fixed : at_most_one_fixed [].
Proof. split; [cbn; lia | constructor]. Qed.

Lemma one_is_fixed (s : suggestion) : fixed_score s -> at_most_one_fixed [s].
Proof. intros H. split; [cbn; lia | constructor; [exact H | constructor]]. Qed.

Local Ltac fixed_constant :=
  unfold fixed_score; cbn [priority_score];
  first [ left; reflexivity
        | right; left; reflexivity
        | right; right; left; reflexivity
        | right; right; right; left; reflexivity
        | right; right; right; right; reflexivity ].

Lemma schedule_at_most_one (sessions : list session) (pd : PD) (l : list suggestion) :
  _generate_schedule_suggestions sessions pd = Ok l -> at_most_one_fixed l.
Proof.
  unfold _generate_schedule_suggestions.
  destruct sessions as [|s sessions]; [intros [= <-]; apply none_is_fixed|].
  destruct (hourly_productivity (s :: sessions) []) as [hourly|e]; [|discriminate].
  cbn [mbind result_bind].
  destruct (take 3 _) as [|best rest]; intros [= <-].
  - apply none_is_fixed.
  - apply one_is_fixed. fixed_constant.
Qed.

Lemma task_prioritization_at_most_one (now : Z) (tasks : list Task.task)
    (sessions : list session) (l : list suggestion) :
  _generate_task_prioritization_suggestions now tasks sessions = Ok l ->
  at_most_one_fixed l.
Proof.
  unfold _generate_task_prioritization_suggestions.
  destruct (List.filter is_incomplete_high_priority tasks) as [|t ts];
    [intros [= <-]; apply none_is_fixed|].
  destruct (filterM (is_overdue now) (t :: ts)) as [overdue|e]; [|discriminate].
  cbn [mbind result_bind].
  destruct overdue; intros [= <-].
  - apply none_is_fixed.
  - apply one_is_fixed. fixed_constant.
Qed.

Lemma break_timing_at_most_one (sessions : list session)
    (patterns : list DistractionDetector.activity) :
  at_most_one_fixed (_generate_break_timing_suggestions sessions patterns).
Proof.
  unfold _generate_break_timing_suggestions.
  destruct sessions as [|s sessions]; [apply none_is_fixed|].
  destruct (List.filter _ (s :: sessions)); [apply none_is_fixed|].
  destruct (_ && _); [|apply none_is_fixed].
  apply one_is_fixed. fixed_constant.
Qed.

Lemma duration_at_most_one (sessions : list session) (tasks : list Task.task) :
  at_most_one_fixed (_generate_duration_suggestions sessions tasks).
Proof.
  unfold _generate_duration_suggestions.
  destruct sessions as [|s sessions]; [apply none_is_fixed|].
  destruct (List.filter _ (s :: sessions)) as [|x xs]; [apply none_is_fixed|].
  cbn [map]. apply one_is_fixed. fixed_constant.
Qed.

Lemma pattern_at_most_one (patterns : list DistractionDetector.activity)
    (sessions : list session) :
  at_most_one_fixed (_generate_pattern_suggestions patterns sessions).
Proof.
  unfold _generate_pattern_suggestions.
  destruct patterns as [|a patterns]; [apply none_is_fixed|].
  destruct (List.filter _ (a :: patterns)) as [|x xs]; [apply none_is_fixed|].
  destruct (fold_left _ (x :: xs) []); [apply none_is_fixed|].
  apply one_is_fixed. fixed_constant.
Qed.

Lemma at_most_one_app (a b : list suggestion) (n : nat) :
  at_most_one_fixed a -> (length b <= n)%nat /\ Forall fixed_score b ->
  (length (a ++ b) <= S n)%nat /\ Forall fixed_score (a ++ b).
Proof.
  intros [Ha Fa] [Hb Fb]. split.
  - rewrite length_app. lia.
  - apply Forall_app. auto.
Qed.

(** C10.  Each of the five generators emits at most one suggestion, scored
    0.95, 0.85, 0.80, 0.75 or 0.70; so a list returned by
    [generate_suggestions] has at most 5 elements, each with one of these
    scores. *)
Theorem generators_emit_at_most_one (now : Z) (uid : string) (pd : PD)
    (sessions : list session) (tasks : list Task.task)
    (patterns : list DistractionDetector.activity) :
  (forall l, _generate_schedule_suggestions sessions pd = Ok l -> at_most_one_fixed l)
  /\ (forall l, _generate_task_prioritization_suggestions now tasks sessions = Ok l ->
                at_most_one_fixed l)
  /\ at_most_one_fixed (_generate_break_timing_suggestions sessions patterns)
  /\ at_most_one_fixed (_generate_duration_suggestions sessions tasks)
  /\ at_most_one_fixed (_generate_pattern_suggestions patterns sessions)
  /\ (forall out, generate_suggestions now uid pd sessions tasks patterns = Ok out ->
                  (length out <= 5)%nat /\ Forall fixed_score out).
Proof.
  split; [intros l; apply schedule_at_most_one|].
  split; [intros l; apply task_prioritization_at_most_one|].
  split; [apply break_timing_at_most_one|].
  split; [apply duration_at_most_one|].
  split; [apply pattern_at_most_one|].
  intros out H. apply generate_suggestions_inv in H as (g & Hg & ->).
  apply collect_suggestions_inv in Hg as (a & b & Ha & Hb & ->).
  apply schedule_at_most_one in Ha. apply task_prioritization_at_most_one in Hb.
  assert (Hall : (length (a ++ b ++ _generate_break_timing_suggestions sessions patterns
                     ++ _generate_duration_suggestions sessions tasks
                     ++ _generate_pattern_suggestions patterns sessions) <= 5)%nat
                 /\ Forall fixed_score
                      (a ++ b ++ _generate_break_timing_suggestions sessions patterns
                         ++ _generate_duration_suggestions sessions tasks
                         ++ _generate_pattern_suggestions patterns sessions)).
  { repeat (apply at_most_one_app; [assumption || apply break_timing_at_most_one
                                    || apply duration_at_most_one|]).
    apply pattern_at_most_one. }
  destruct Hall as [Hlen Hfix]. unfold sort_suggestions, sort_desc_by. split.
  - rewrite length_take, sort_by_length. lia.
  - apply Forall_take. rewrite sort_by_perm. exact Hfix.
Qed.
End Generators.

Lemma generators_emit_at_most_one_witness :
  SmartSuggestions.generate_suggestions Examples.noon "u1" tt
    RankerExamples.sessions3 [RankerExamples.overdue_task] RankerExamples.patterns1
  = Ok RankerExamples.ranked5
  /\ (length RankerExamples.ranked5 <= 5)%nat
  /\ Forall RankerSpec.fixed_score RankerExamples.ranked5.
Proof.
  assert (H : SmartSuggestions.generate_suggestions Examples.noon "u1" tt
                RankerExamples.sessions3 [RankerExamples.overdue_task]
                RankerExamples.patterns1 = Ok RankerExamples.ranked5)
    by (vm_compute; reflexivity).
  split; [exact H|].
  destruct (generators_emit_at_most_one Examples.noon "u1" tt RankerExamples.sessions3
              [RankerExamples.overdue_task] RankerExamples.patterns1)
    as (_ & _ & _ & _ & _ & Hgen).
  exact (Hgen _ H).
Defined.

Section Coach.
Import FocusCoach CoachSpec.

Lemma tally_lookup (m : gmap string Z) (t : Task.task) (k : string) :
  tally m t !! k
  = if str_eqb (priority_key t) k then Some (default 0 (m !! k) + 1) else m !! k.
Proof.
  unfold tally, str_eqb. fold (priority_key t).
  destruct (decide (priority_key t = k)) as [->|Hne].
  - rewrite bool_decide_eq_true_2 by reflexivity. apply lookup_insert_eq.
  - rewrite bool_decide_eq_false_2 by exact Hne. apply lookup_insert_ne, Hne.
Qed.

Lemma fold_tally_lookup (tasks : list Task.task) (m : gmap string Z) (k : string) :
  fold_left tally tasks m !! k
  = if count_priority k tasks =? 0 then m !! k
    else Some (default 0 (m !! k) + count_priority k tasks).
Proof.
  revert m. induction tasks as [|t tasks IH]; intros m; [reflexivity|].
  cbn [fold_left]. rewrite IH, tally_lookup.
  unfold count_priority. cbn [List.filter].
  destruct (str_eqb (priority_key t) k); cbn [length].
  - set (n := length _).
    replace (Z.of_nat (S n) =? 0) with false by (symmetry; apply Z.eqb_neq; lia).
    destruct (Z.of_nat n =? 0) eqn:Hn.
    + apply Z.eqb_eq in Hn. cbn. f_equal. lia.
    + cbn. f_equal. lia.
  - reflexivity.
Qed.

Lemma initial_lookup (k : string) :
  initial_priority_breakdown !! k
  = if str_in k ["urgent"; "high"; "medium"; "low"] then Some 0 else None.
Proof.
  unfold initial_priority_breakdown, str_in, str_eqb. cbn [existsb].
  destruct (decide (k = "urgent")) as [->|H1]; [reflexivity|].
  destruct (decide (k = "high")) as [->|H2]; [reflexivity|].
  destruct (decide (k = "medium")) as [->|H3]; [reflexivity|].
  destruct (decide (k = "low")) as [->|H4]; [reflexivity|].
  rewrite !bool_decide_eq_false_2 by assumption. cbn [orb].
  rewrite !lookup_insert_ne by congruence. apply lookup_singleton_ne. congruence.
Qed.

(** C9, as amended.  [summarize_tasks] tallies a task under the lower-cased
    form of its priority string (medium when absent), whatever the string
    is: for a non-empty task list the histogram holds under a key [k] the
    number of tasks whose lower-cased priority is [k]; it has no entry for
    a key outside urgent, high, medium, low that no task has. *)
Theorem priority_tallied_lowercased (tasks : list Task.task) (k : string) :
  tasks <> [] ->
  priority_breakdown (summarize_tasks tasks) !! k
  = if str_in k ["urgent"; "high"; "medium"; "low"] || negb (count_priority k tasks =? 0)
    then Some (count_priority k tasks)
    else None.
Proof.
  intros Hne. destruct tasks as [|t tasks]; [contradiction|].
  unfold summarize_tasks. cbn [priority_breakdown].
  rewrite fold_tally_lookup, initial_lookup.
  destruct (str_in k _), (count_priority k (t :: tasks) =? 0) eqn:Hc;
    cbn; try reflexivity.
  apply Z.eqb_eq in Hc. rewrite Hc. reflexivity.
Qed.

Lemma priority_tallied_lowercased_witness :
  [blocker_task] <> []
  /\ priority_breakdown (summarize_tasks [blocker_task]) !! "blocker" = Some 1.
Proof.
  split; [discriminate|].
  rewrite (priority_tallied_lowercased [blocker_task] "blocker"); [|discriminate].
  vm_compute. reflexivity.
Defined.

(** C9, as stated, fails on a task of priority "BLOCKER": the histogram has
    no entry under the string supplied, the task is counted under
    "blocker". *)
Lemma exact_priority_key_refuted :
  Task.priority blocker_task = Some "BLOCKER"
  /\ priority_breakdown (summarize_tasks [blocker_task]) !! "BLOCKER" = None
  /\ priority_breakdown (summarize_tasks [blocker_task]) !! "blocker" = Some 1.
Proof. vm_compute. repeat split. Qed.
End Coach.

(** ** The scenarios of the specification *)
Section Scenarios.
Import Examples.

Example scenario_entertainment :
  (DistractionDetector.overall_distraction_score
     (DistractionDetector._calculate_distraction_scores
        [activity_at "entertainment" "2024-03-01T11:00:00" 600 None]) == 0.9)%Q.
Proof. vm_compute. reflexivity. Qed.

Example scenario_no_tasks :
  FocusCoach.summary_text (FocusCoach.summarize_tasks []) = "No tasks to summarize."
  /\ FocusCoach.total_tasks (FocusCoach.summarize_tasks []) = 0
  /\ FocusCoach.categories (FocusCoach.summarize_tasks []) = ∅
  /\ FocusCoach.priority_breakdown (FocusCoach.summarize_tasks []) = ∅.
Proof. repeat split. Qed.

Example scenario_coding_task :
  let t := {| Task.id := None; Task.title := None; Task.description := None;
              Task.type := Some "coding"; Task.priority := None; Task.due_date := None;
              Task.estimated_minutes := None; Task.duration_minutes := None;
              Task.actual_minutes := None; Task.category := None; Task.tags := None;
              Task.status := None |} in
  TimePredictor.predicted_minutes (TimePredictor.predict_task_duration noon t None None) = 90
  /\ (TimePredictor.confidence_score (TimePredictor.predict_task_duration noon t None None)
      == 0.4)%Q.
Proof. vm_compute. split; reflexivity. Qed.

Example scenario_batch (t1 t2 : Task.task) (h : option (list Task.task))
    (p : option TimePredictor.user_profile) :
  TimePredictor.batch_predict noon [t1; t2] h p
  = [TimePredictor.predict_task_duration noon t1 h p;
     TimePredictor.predict_task_duration noon t2 h p].
Proof. reflexivity. Qed.

Example scenario_zulu_in_window :
  DistractionDetector.analyze_activity_patterns noon
    [activity_at "work" "2024-03-01T10:30:00Z" 600 None] 24
  = Raise TypeError.
Proof. vm_compute. reflexivity. Qed.

Example scenario_equal_scores_keep_order :
  let s (kind : string) (score : Q) :=
    {| SmartSuggestions.suggestion_type := kind;
       SmartSuggestions.priority_score := score;
       SmartSuggestions.context := SmartSuggestions.distraction_context kind 1 |} in
  SmartSuggestions.sort_suggestions [s "first" 0.8%Q; s "second" 0.9%Q; s "third" 0.8%Q]
  = [s "second" 0.9%Q; s "first" 0.8%Q; s "third" 0.8%Q].
Proof. vm_compute. reflexivity. Qed.

Example scenario_parse_zulu :
  parse_timestamp (Some "2024-03-01T10:30:00Z")
  = Ok {| Datetime.ticks := 63844885800000000; Datetime.tzinfo := Some 0 |}.
Proof. vm_compute. reflexivity. Qed.

Example scenario_parse_missing : parse_timestamp None = Raise ValueError.
Proof. vm_compute. reflexivity. Qed.
End Scenarios.

(** ** Further properties of the engine, the planner and the summarizer *)

Section Averages.

Lemma Qsum_bounds (lo hi : Q) (l : list Q) :
  Forall (fun x => lo <= x /\ x <= hi)%Q l ->
  (inject_Z (Z.of_nat (length l)) * lo <= Qsum l
   /\ Qsum l <= inject_Z (Z.of_nat (length l)) * hi)%Q.
Proof.
  induction 1 as [|x l [Hlo Hhi] _ IH].
  - unfold Qsum. cbn [length fold_left Z.of_nat].
    change (inject_Z (Z.of_nat 0)) with 0%Q. split; lra.
  - rewrite Qsum_cons. cbn [length]. rewrite Nat2Z.inj_succ.
    unfold Z.succ. rewrite inject_Z_plus.
    change (inject_Z 1) with 1%Q. destruct IH as [IH1 IH2].
    revert IH1 IH2. generalize (inject_Z (Z.of_nat (length l))). intros n IH1 IH2.
    split; lra.
Qed.

Lemma mean_bounds (lo hi : Q) (l : list Q) :
  l <> [] ->
  Forall (fun x => lo <= x /\ x <= hi)%Q l ->
  (lo <= mean l /\ mean l <= hi)%Q.
Proof.
  intros Hne Hall. destruct (Qsum_bounds lo hi l Hall) as [H1 H2].
  unfold mean.
  assert (Hn : (0 < inject_Z (Z.of_nat (length l)))%Q).
  { change 0%Q with (inject_Z 0). rewrite <- Zlt_Qlt.
    destruct l; [contradiction | cbn [length]; lia]. }
  split.
  - apply Qle_shift_div_l; [exact Hn|]. lra.
  - apply Qle_shift_div_r; [exact Hn|]. lra.
Qed.

Lemma fold_py_min_le (l : list Q) (a : Q) :
  (fold_left py_min l a <= a)%Q /\ Forall (fun x => fold_left py_min l a <= x)%Q l.
Proof.
  revert a. induction l as [|x l IH]; intros a; cbn [fold_left].
  - split; [lra | constructor].
  - destruct (IH (py_min a x)) as [H1 H2].
    assert (Ha : (py_min a x <= a)%Q /\ (py_min a x <= x)%Q).
    { unfold py_min. destruct (Qlt_le_dec x a); split; lra. }
    split; [lra|]. constructor; [lra | exact H2].
Qed.

Lemma fold_py_max_ge (l : list Q) (a : Q) :
  (a <= fold_left py_max l a)%Q /\ Forall (fun x => x <= fold_left py_max l a)%Q l.
Proof.
  revert a. induction l as [|x l IH]; intros a; cbn [fold_left].
  - split; [lra | constructor].
  - destruct (IH (py_max a x)) as [H1 H2].
    assert (Ha : (a <= py_max a x)%Q /\ (x <= py_max a x)%Q).
    { unfold py_max. destruct (Qlt_le_dec a x); split; lra. }
    split; [lra|]. constructor; [lra | exact H2].
Qed.

Lemma list_min_max_bounds (l : list Q) :
  Forall (fun x => DistractionDetector.list_min l <= x
                   /\ x <= DistractionDetector.list_max l)%Q l.
Proof.
  destruct l as [|a l]; [constructor|].
  unfold DistractionDetector.list_min, DistractionDetector.list_max.
  destruct (fold_py_min_le l a) as [Hm1 Hm2].
  destruct (fold_py_max_ge l a) as [HM1 HM2].
  constructor; [split; assumption|].
  apply Forall_forall. intros x Hx.
  rewrite Forall_forall in Hm2, HM2. split; auto.
Qed.

Lemma mean_le (hi : Q) (l : list Q) :
  l <> [] -> Forall (fun x => x <= hi)%Q l -> (mean l <= hi)%Q.
Proof.
  intros Hne Hall.
  apply (mean_bounds (DistractionDetector.list_min l) hi l Hne).
  pose proof (list_min_max_bounds l) as Hmm. rewrite Forall_forall in *.
  intros x Hx. split; [apply Hmm, Hx | apply Hall, Hx].
Qed.

Lemma insert_by_perm_any {A : Type} (leb : A -> A -> bool) (x : A) (l : list A) :
  insert_by leb x l ≡ₚ x :: l.
Proof.
  induction l as [|y l IH]; [reflexivity|].
  cbn [insert_by]. destruct (leb y x); [|reflexivity].
  rewrite IH. apply Permutation_swap.
Qed.

Lemma sort_by_perm_any {A : Type} (leb : A -> A -> bool) (l : list A) :
  sort_by leb l ≡ₚ l.
Proof.
  unfold sort_by. rewrite <- (rev_involutive l) at 2.
  induction (rev l) as [|x r IH]; [reflexivity|].
  cbn [fold_right rev]. rewrite insert_by_perm_any, IH.
  apply Permutation_cons_append.
Qed.

Lemma median_bounds (lo hi : Q) (l : list Q) :
  l <> [] ->
  Forall (fun x => lo <= x /\ x <= hi)%Q l ->
  (lo <= median l /\ median l <= hi)%Q.
Proof.
  intros Hne Hall. unfold median.
  set (s := sort_by Qleb l).
  assert (Hs : Forall (fun x => lo <= x /\ x <= hi)%Q s).
  { unfold s. rewrite sort_by_perm_any. exact Hall. }
  assert (Hlen : (0 < length s)%nat).
  { unfold s. rewrite (Permutation_length (sort_by_perm_any Qleb l)).
    destruct l; [contradiction | cbn; lia]. }
  assert (Hnth : forall i, (i < length s)%nat -> (lo <= nth i s 0 /\ nth i s 0 <= hi)%Q).
  { intros i Hi. rewrite Forall_forall in Hs. apply Hs.
    apply list_elem_of_In, nth_In, Hi. }
  assert (Hhalf : (length s / 2 < length s)%nat) by (apply Nat.div_lt; lia).
  destruct (Nat.even (length s)).
  - destruct (Hnth (length s / 2 - 1)%nat ltac:(lia)) as [A1 A2].
    destruct (Hnth (length s / 2)%nat Hhalf) as [B1 B2].
    revert A1 A2 B1 B2. generalize (nth (length s / 2 - 1) s 0%Q) (nth (length s / 2) s 0%Q).
    intros p q A1 A2 B1 B2. unfold Qdiv. change (/ 2)%Q with (1 # 2)%Q. split; lra.
  - apply Hnth, Hhalf.
Qed.
End Averages.

Section ScoreBounds.
Import DistractionDetector DistractionSpec DistractionProps Examples.










End ScoreBounds.

Section StatisticsBounds.
Import DistractionDetector DistractionSpec DistractionProps Examples.

(** X3.  In the statistics of [_calculate_statistics] the minimum score is at
    most the average score, and the average at most the maximum. *)
Theorem statistics_min_avg_max (l : list activity) (s : distraction_scores) :
  (min_distraction_score (_calculate_statistics l s)
   <= avg_distraction_score (_calculate_statistics l s))%Q
  /\ (avg_distraction_score (_calculate_statistics l s)
      <= max_distraction_score (_calculate_statistics l s))%Q.
Proof.
  unfold _calculate_statistics.
  cbn [min_distraction_score avg_distraction_score max_distraction_score].
  destruct (collect_scores l) as [|x xs] eqn:Hs; [split; lra|].
  apply mean_bounds; [discriminate|]. apply list_min_max_bounds.
Qed.
End StatisticsBounds.

Section Assoc.
Context {K V : Type} `{EqDecision K}.

Lemma assoc_upsert_keys (k : K) (init : V) (f : V -> V) (d : list (K * V)) (P : K -> Prop) :
  P k -> Forall (fun kv => P (fst kv)) d ->
  Forall (fun kv => P (fst kv)) (assoc_upsert k init f d).
Proof.
  intros Hk. induction 1 as [|[k' v] d Hkv Hd IH]; cbn [assoc_upsert].
  - repeat constructor. exact Hk.
  - destruct (decide (k = k')); constructor; cbn in *; assumption.
Qed.

Lemma assoc_get_upsert (k k' : K) (init : V) (f : V -> V) (d : list (K * V)) :
  assoc_get k' (assoc_upsert k init f d)
  = if decide (k = k') then Some (f (default init (assoc_get k d))) else assoc_get k' d.
Proof.
  induction d as [|[k0 v] d IH]; cbn [assoc_upsert assoc_get].
  - reflexivity.
  - destruct (decide (k = k0)) as [->|Hne0]; cbn [assoc_get].
    + rewrite (decide_True (P := k0 = k0)) by reflexivity.
      destruct (decide (k0 = k')); reflexivity.
    + rewrite (decide_False (P := k0 = k)) by congruence.
      rewrite IH. destruct (decide (k0 = k')) as [->|Hne1]; [|reflexivity].
      rewrite decide_False by exact Hne0. reflexivity.
Qed.

Lemma assoc_upsert_fresh (k k' : K) (init : V) (f : V -> V) (d : list (K * V)) :
  k' ∈ (assoc_upsert k init f d).*1 <-> k' = k \/ k' ∈ d.*1.
Proof.
  induction d as [|[k0 v] d IH]; cbn [assoc_upsert].
  - cbn. rewrite list_elem_of_singleton, elem_of_nil. tauto.
  - destruct (decide (k = k0)) as [->|Hne]; cbn [fmap list_fmap fst] in *.
    + rewrite !elem_of_cons. tauto.
    + rewrite !elem_of_cons, IH. tauto.
Qed.

Lemma assoc_upsert_NoDup (k : K) (init : V) (f : V -> V) (d : list (K * V)) :
  NoDup d.*1 -> NoDup (assoc_upsert k init f d).*1.
Proof.
  induction d as [|[k0 v] d IH]; cbn [assoc_upsert]; intros Hnd.
  - cbn. apply NoDup_singleton.
  - cbn [fmap list_fmap fst] in Hnd. apply NoDup_cons in Hnd as [Hnotin Hnd].
    destruct (decide (k = k0)) as [->|Hne]; cbn [fmap list_fmap fst].
    + apply NoDup_cons. split; assumption.
    + apply NoDup_cons. split; [|apply IH, Hnd].
      rewrite assoc_upsert_fresh. intros [?|?]; [congruence | contradiction].
Qed.

Lemma assoc_get_elem (k : K) (v : V) (d : list (K * V)) :
  NoDup d.*1 -> (k, v) ∈ d -> assoc_get k d = Some v.
Proof.
  induction d as [|[k0 v0] d IH]; cbn [assoc_get]; intros Hnd Hin.
  - apply elem_of_nil in Hin. contradiction.
  - cbn [fmap list_fmap fst] in Hnd. apply NoDup_cons in Hnd as [Hnotin Hnd].
    apply elem_of_cons in Hin as [[= -> ->]|Hin].
    + rewrite decide_True by reflexivity. reflexivity.
    + destruct (decide (k0 = k)) as [->|Hne]; [|apply IH; assumption].
      exfalso. apply Hnotin. apply list_elem_of_fmap. exists (k, v). auto.
Qed.

Lemma assoc_upsert_length (k : K) (init : V) (f : V -> V) (d : list (K * V)) :
  (length d <= length (assoc_upsert k init f d) <= S (length d))%nat.
Proof.
  induction d as [|[k' v] d IH]; cbn [assoc_upsert]; [cbn; lia|].
  destruct (decide (k = k')); cbn [length]; lia.
Qed.
End Assoc.

Section Tally.
Context {A K : Type} `{EqDecision K} (key : A -> K) (f : Z -> Z).
Hypothesis f_succ : forall n, f n = n + 1.

Lemma tally_step (c : list (K * Z)) (seen : list A) (a : A) :
  tally_ok key c seen -> tally_ok key (assoc_upsert (key a) 0 f c) (seen ++ [a]).
Proof.
  intros [Hnd Hget]. split; [apply assoc_upsert_NoDup, Hnd|].
  intros k. rewrite assoc_get_upsert.
  unfold tally_count. rewrite List.filter_app, length_app. cbn [List.filter].
  destruct (decide (key a = k)) as [Heq|Hne].
  - rewrite (bool_decide_eq_true_2 _ Heq).
    rewrite Heq, (Hget k), f_succ. unfold tally_count. cbn [length].
    set (n := length (List.filter _ seen)).
    replace (Z.of_nat (n + 1) =? 0) with false by (symmetry; apply Z.eqb_neq; lia).
    destruct (Z.of_nat n =? 0) eqn:Hz.
    + apply Z.eqb_eq in Hz. cbn. f_equal. lia.
    + cbn. f_equal. lia.
  - rewrite (bool_decide_eq_false_2 _ Hne).
    cbn [length]. rewrite Nat.add_0_r. apply Hget.
Qed.

Lemma tally_fold (l seen : list A) (c : list (K * Z)) :
  tally_ok key c seen ->
  tally_ok key (fold_left (fun c a => assoc_upsert (key a) 0 f c) l c) (seen ++ l).
Proof.
  revert seen c. induction l as [|a l IH]; intros seen c Hok.
  - rewrite app_nil_r. exact Hok.
  - cbn [fold_left].
    replace (seen ++ a :: l) with ((seen ++ [a]) ++ l) by (rewrite <- app_assoc; reflexivity).
    apply IH, tally_step, Hok.
Qed.

Lemma tally_from_empty (l : list A) :
  tally_ok key (fold_left (fun c a => assoc_upsert (key a) 0 f c) l []) l.
Proof.
  apply (tally_fold l [] []). split; [constructor|]. intros k. reflexivity.
Qed.

Lemma tally_elem (c : list (K * Z)) (l : list A) (k : K) (n : Z) :
  tally_ok key c l -> (k, n) ∈ c -> n = tally_count key k l /\ 1 <= n.
Proof.
  intros [Hnd Hget] Hin. pose proof (assoc_get_elem k n c Hnd Hin) as Hc.
  rewrite Hget in Hc. destruct (tally_count key k l =? 0) eqn:Hz; [discriminate|].
  injection Hc as <-. apply Z.eqb_neq in Hz. unfold tally_count in *. split; lia.
Qed.
End Tally.

Section Patterns.
Import Datetime DistractionDetector DistractionSpec DistractionProps Examples.

Lemma first_max_by_spec {A : Type} (key : A -> Z) (l : list A) (best : A) :
  first_max_by key best l ∈ best :: l
  /\ Forall (fun x => key x <= key (first_max_by key best l)) (best :: l).
Proof.
  revert best. induction l as [|x l IH]; intros best; cbn [first_max_by].
  - split; [left | repeat constructor; lia].
  - destruct (IH (if key best <? key x then x else best)) as [Hin Hall].
    apply Forall_cons in Hall as [Hb Hall]. split.
    + apply elem_of_cons in Hin as [->|Hin].
      * destruct (key best <? key x); [right; left | left].
      * right; right. exact Hin.
    + destruct (key best <? key x) eqn:Hlt.
      * apply Z.ltb_lt in Hlt. repeat constructor; [lia | lia | exact Hall].
      * apply Z.ltb_ge in Hlt. repeat constructor; [lia | lia | exact Hall].
Qed.

Lemma hour_range (d : datetime) : 0 <= hour d <= 23.
Proof.
  unfold hour. pose proof (Z.mod_pos_bound (ticks d / us_per_hour) 24 ltac:(lia)). lia.
Qed.

Lemma group_by_hour_range (l : list activity) (acc hourly : list (Z * list activity)) :
  Forall (fun kv => 0 <= fst kv <= 23) acc ->
  group_by_hour l acc = Ok hourly ->
  Forall (fun kv => 0 <= fst kv <= 23) hourly.
Proof.
  revert acc. induction l as [|a l IH]; intros acc Hacc; cbn [group_by_hour].
  - intros [= <-]. exact Hacc.
  - destruct (parse_timestamp (timestamp a)) as [t|e]; [|discriminate].
    cbn [mbind result_bind]. apply IH.
    apply (assoc_upsert_keys _ _ _ _ (fun h => 0 <= h <= 23));
      [apply hour_range | exact Hacc].
Qed.

Lemma group_by_hour_nonempty (l : list activity) (acc hourly : list (Z * list activity)) :
  group_by_hour l acc = Ok hourly -> (length acc <= length hourly)%nat
  /\ (l <> [] -> hourly <> []).
Proof.
  revert acc. induction l as [|a l IH]; intros acc; cbn [group_by_hour].
  - intros [= <-]. split; [lia | congruence].
  - destruct (parse_timestamp (timestamp a)) as [t|e]; [|discriminate].
    cbn [mbind result_bind]. intros H. apply IH in H as [H _].
    pose proof (assoc_upsert_length (hour t) [] (fun acts => acts ++ [a]) acc) as Hl.
    assert (Hpos : (0 < length hourly)%nat).
    { destruct acc; cbn [assoc_upsert length] in *; lia. }
    split; [lia|]. intros _ ->. cbn in Hpos. lia.
Qed.


Lemma omap_length_le {A B : Type} (f : A -> option B) (l : list A) :
  (length (omap f l) <= length l)%nat.
Proof.
  induction l as [|x l IH]; [reflexivity|].
  cbn [omap list_omap]. destruct (f x); cbn [length]; lia.
Qed.

Lemma category_counter_ok (l : list activity) :
  tally_ok category_of (category_counter l) l.
Proof. apply (tally_from_empty category_of (Z.add 1)). intros n. lia. Qed.

Lemma most_common_elem (n : nat) (c : list (string * Z)) (kv : string * Z) :
  kv ∈ most_common n c -> kv ∈ c.
Proof.
  unfold most_common, sort_desc_by. intros H.
  apply elem_of_take in H as (i & Hi & _). apply list_elem_of_lookup_2 in Hi.
  rewrite sort_by_perm in Hi. exact Hi.
Qed.

(** X4.  When [_detect_patterns] returns, it returns at most five patterns.
    A peak hour is an hour in 0..23 with a count that is not negative; a
    recurring distraction names a category of weight above 0.5 and the number
    of its activities, at least 1; rapid switching is reported only when the
    switches exceed a tenth of the activities.  A non-empty list gives a peak
    hour as first pattern. *)
Theorem detect_patterns_sound (l : list activity) (ps : list pattern) :
  _detect_patterns l = Ok ps ->
  (length ps <= 5)%nat
  /\ Forall (pattern_ok l) ps
  /\ (l <> [] -> exists h n rest, ps = peak_distraction_hour h n :: rest).
Proof.
  unfold _detect_patterns.
  destruct (group_by_hour l []) as [hourly|e] eqn:Hg; [|discriminate].
  cbn [mbind result_bind].
  destruct (count_rapid_switches l) as [k|e] eqn:Hk; [|discriminate].
  cbn [mbind result_bind]. intros [= <-].
  pose proof (group_by_hour_range l [] hourly ltac:(constructor) Hg) as Hrange.
  destruct (group_by_hour_nonempty l [] hourly Hg) as [_ Hne].
  set (peak := match distraction_by_hour hourly with [] => [] | _ => _ end).
  set (recurring := omap _ (most_common 3 (category_counter l))).
  set (rapid := if Qgtb _ _ then _ else []).
  assert (Hpeak : (length peak <= 1)%nat /\ Forall (pattern_ok l) peak
                  /\ (l <> [] -> exists h n, peak = [peak_distraction_hour h n])).
  { unfold peak. unfold distraction_by_hour.
    destruct hourly as [|[h0 acts0] hourly'] eqn:Hh.
    - cbn. split; [lia|]. split; [constructor|]. intros Hl. destruct (Hne Hl eq_refl).
    - cbn [map]. split; [cbn; lia|].
      match goal with |- context [first_max_by snd ?b ?r] =>
        destruct (first_max_by_spec snd r b) as [Hin _];
        remember (first_max_by snd b r) as m eqn:Hm; clear Hm
      end.
      split; [|intros _; eexists _, _; reflexivity].
      change (m ∈ (fun '(h, acts) =>
                (h, Z.of_nat (length (List.filter is_distracting_in_hour acts))))
                <$> ((h0, acts0) :: hourly')) in Hin.
      apply list_elem_of_fmap in Hin as ([h acts] & -> & Hin).
      repeat constructor; cbn [fst snd]; try lia.
      * rewrite Forall_forall in Hrange. apply (Hrange _ Hin).
      * rewrite Forall_forall in Hrange. apply (Hrange _ Hin). }
  assert (Hrec : (length recurring <= 3)%nat /\ Forall (pattern_ok l) recurring).
  { unfold recurring. split.
    - etransitivity; [apply omap_length_le|]. unfold most_common.
      rewrite length_take. lia.
    - apply Forall_forall. intros p Hp.
      apply list_elem_of_omap in Hp as ([c n] & Hin & Hf).
      destruct (Qgtb (category_weight c) 0.5) eqn:Hw; [|discriminate].
      injection Hf as <-. apply most_common_elem in Hin.
      destruct (tally_elem category_of _ l c n (category_counter_ok l) Hin) as [Hn Hpos].
      cbn. split; [|split; [exact Hn | exact Hpos]].
      unfold Qgtb in Hw.
      destruct (Qlt_le_dec 0.5 (category_weight c)); [assumption|discriminate]. }
  assert (Hrap : (length rapid <= 1)%nat /\ Forall (pattern_ok l) rapid).
  { unfold rapid.
    destruct (Qgtb (inject_Z k) (inject_Z (Z.of_nat (length l)) * 0.1)) eqn:Hq.
    - split; [cbn; lia|]. repeat constructor. cbn.
      unfold Qgtb in Hq. destruct (Qlt_le_dec _ _) as [Hlt|]; [|discriminate].
      assert (H10 : (inject_Z (Z.of_nat (length l)) < inject_Z (10 * k))%Q).
      { rewrite inject_Z_mult. change (inject_Z 10) with 10%Q.
        revert Hlt. generalize (inject_Z (Z.of_nat (length l))) (inject_Z k).
        intros x y Hlt. lra. }
      rewrite <- Zlt_Qlt in H10. exact H10.
    - split; [cbn; lia | constructor]. }
  destruct Hpeak as (P1 & P2 & P3), Hrec as (R1 & R2), Hrap as (S1 & S2).
  split; [rewrite !length_app; lia|]. split.
  - apply Forall_app. split; [exact P2|]. apply Forall_app. split; assumption.
  - intros Hl. destruct (P3 Hl) as (h & n & ->). eexists _, _, _. reflexivity.
Qed.

Lemma detect_patterns_sound_witness :
  exists ps, _detect_patterns Fixtures.three_naive = Ok ps
    /\ (length ps <= 5)%nat
    /\ Forall (pattern_ok Fixtures.three_naive) ps
    /\ (Fixtures.three_naive <> [] ->
        exists h n rest, ps = peak_distraction_hour h n :: rest).
Proof.
  eexists. split; [vm_compute; reflexivity|].
  apply (detect_patterns_sound Fixtures.three_naive). vm_compute. reflexivity.
Defined.
End Patterns.

Section NaiveWindow.
Import Datetime DistractionDetector DistractionSpec DistractionProps Examples Fixtures.

Lemma filterM_naive (cutoff : datetime) (l : list activity) :
  tzinfo cutoff = None ->
  Forall naive_timestamp l ->
  filterM (in_window cutoff) l = Ok (List.filter (at_or_after cutoff) l).
Proof.
  intros Hc. induction 1 as [|a l (d & Hp & Hn) _ IH]; [reflexivity|].
  cbn [filterM List.filter]. rewrite (in_window_naive cutoff a d Hc Hp Hn), IH.
  unfold at_or_after at 2. rewrite Hp. reflexivity.
Qed.

Lemma filterM_raises (cutoff : datetime) (pre post : list activity) (a : activity) (e : exn) :
  tzinfo cutoff = None ->
  Forall naive_timestamp pre ->
  parse_timestamp (timestamp a) = Raise e ->
  filterM (in_window cutoff) (pre ++ a :: post) = Raise e.
Proof.
  intros Hc Hpre Ha. induction Hpre as [|x pre (d & Hp & Hn) _ IH].
  - cbn [app filterM]. unfold in_window. rewrite Ha. reflexivity.
  - cbn [app filterM]. rewrite (in_window_naive cutoff x d Hc Hp Hn), IH. reflexivity.
Qed.

Lemma group_by_hour_naive (l : list activity) (acc : list (Z * list activity)) :
  Forall naive_timestamp l -> exists hourly, group_by_hour l acc = Ok hourly.
Proof.
  intros H. revert acc. induction H as [|a l (d & Hp & _) _ IH]; intros acc.
  - eexists. reflexivity.
  - cbn [group_by_hour]. rewrite Hp. cbn [mbind result_bind]. apply IH.
Qed.

Lemma count_rapid_switches_cons (a b : activity) (l : list activity) :
  count_rapid_switches (a :: b :: l)
  = (tb ← parse_timestamp (timestamp b);
     ta ← parse_timestamp (timestamp a);
     time_diff ← diff_seconds tb ta;
     n ← count_rapid_switches (b :: l);
     Ok (if Qltb time_diff 60 then 1 + n else n)).
Proof. reflexivity. Qed.

Lemma count_rapid_switches_naive (l : list activity) :
  Forall naive_timestamp l -> exists k, count_rapid_switches l = Ok k.
Proof.
  induction 1 as [|a l (d & Hp & Hn) Hl IH]; [eexists; reflexivity|].
  destruct Hl as [|b l (d' & Hp' & Hn') Hl]; [eexists; reflexivity|].
  rewrite count_rapid_switches_cons, Hp', Hp. cbn [mbind result_bind].
  unfold diff_seconds. rewrite Hn', Hn. cbn [mbind result_bind].
  destruct IH as [k Hk]. rewrite Hk. cbn [mbind result_bind]. eexists. reflexivity.
Qed.

Lemma detect_patterns_naive (l : list activity) :
  Forall naive_timestamp l -> exists ps, _detect_patterns l = Ok ps.
Proof.
  intros H. unfold _detect_patterns.
  destruct (group_by_hour_naive l [] H) as [hourly ->].
  destruct (count_rapid_switches_naive l H) as [k ->].
  cbn [mbind result_bind]. eexists. reflexivity.
Qed.

(** X5.  On a non-empty list whose timestamps all parse to naive datetimes
    [analyze_activity_patterns] returns.  It returns the error object with
    [total_activities = 0] when no activity is at or after the cutoff, and
    otherwise the report of exactly the activities at or after the cutoff:
    their number, the window, their scores and their patterns. *)
Theorem analyze_naive_timestamps (now h : Z) (cutoff : datetime) (l : list activity) :
  minus_hours (of_now now) h = Ok cutoff ->
  l <> [] ->
  Forall naive_timestamp l ->
  exists res,
    analyze_activity_patterns now l h = Ok res
    /\ match res with
       | AnalysisError _ n => List.filter (at_or_after cutoff) l = [] /\ n = 0
       | AnalysisReport r =>
           List.filter (at_or_after cutoff) l <> []
           /\ total_activities r = Z.of_nat (length (List.filter (at_or_after cutoff) l))
           /\ analysis_period_hours r = h
           /\ report_distraction_scores r
              = _calculate_distraction_scores (List.filter (at_or_after cutoff) l)
           /\ _detect_patterns (List.filter (at_or_after cutoff) l) = Ok (patterns r)
       end.
Proof.
  intros Hc Hne Hall. destruct l as [|a l]; [contradiction|].
  unfold analyze_activity_patterns. rewrite Hc. cbn [mbind result_bind].
  rewrite (filterM_naive cutoff (a :: l) (minus_hours_naive _ _ _ Hc) Hall).
  cbn [mbind result_bind].
  destruct (List.filter (at_or_after cutoff) (a :: l)) as [|r recent] eqn:Hf.
  - eexists. split; [reflexivity|]. split; reflexivity.
  - assert (Hrn : Forall naive_timestamp (r :: recent)).
    { rewrite <- Hf. apply Forall_forall. intros x Hx.
      apply list_elem_of_In, filter_In in Hx as [Hx _].
      rewrite Forall_forall in Hall. apply Hall, list_elem_of_In, Hx. }
    destruct (detect_patterns_naive (r :: recent) Hrn) as [ps Hps].
    rewrite Hps. cbn [mbind result_bind].
    eexists. split; [reflexivity|].
    cbn [total_activities analysis_period_hours report_distraction_scores patterns].
    repeat split; try reflexivity; try exact Hps. discriminate.
Qed.

Lemma analyze_naive_timestamps_witness :
  three_naive <> []
  /\ exists res,
       analyze_activity_patterns noon three_naive 24 = Ok res
       /\ match res with
          | AnalysisError _ n => False
          | AnalysisReport r => total_activities r = 2
          end.
Proof.
  split; [discriminate|].
  assert (Hc : minus_hours (of_now noon) 24
               = Ok {| ticks := 63844804800000000; tzinfo := None |})
    by (vm_compute; reflexivity).
  assert (Hall : Forall naive_timestamp three_naive).
  { repeat constructor; eexists; (split; [vm_compute; reflexivity | reflexivity]). }
  destruct (analyze_naive_timestamps noon 24 _ three_naive Hc ltac:(discriminate) Hall)
    as (res & Hres & Hshape).
  exists res. split; [exact Hres|].
  destruct res as [msg n | r].
  - destruct Hshape as [Hnil _]. vm_compute in Hnil. discriminate Hnil.
  - destruct Hshape as (_ & Htot & _). rewrite Htot. vm_compute. reflexivity.
Defined.

(** X6.  A timestamp that does not parse, a missing one included, makes
    [analyze_activity_patterns] raise the error of the parser, when the
    activities before it have naive timestamps. *)
Theorem unparsable_timestamp_fails (now h : Z) (cutoff : datetime)
    (pre post : list activity) (a : activity) (e : exn) :
  minus_hours (of_now now) h = Ok cutoff ->
  Forall naive_timestamp pre ->
  parse_timestamp (timestamp a) = Raise e ->
  analyze_activity_patterns now (pre ++ a :: post) h = Raise e.
Proof.
  intros Hc Hpre Ha. unfold analyze_activity_patterns.
  destruct (pre ++ a :: post) as [|x xs] eqn:Hl.
  - destruct pre; discriminate Hl.
  - rewrite Hc. cbn [mbind result_bind]. rewrite <- Hl.
    rewrite (filterM_raises cutoff pre post a e (minus_hours_naive _ _ _ Hc) Hpre Ha).
    reflexivity.
Qed.

Lemma unparsable_timestamp_fails_witness :
  analyze_activity_patterns noon (three_naive ++ no_timestamp :: []) 24 = Raise ValueError.
Proof.
  apply (unparsable_timestamp_fails noon 24
           {| ticks := 63844804800000000; tzinfo := None |} three_naive [] no_timestamp).
  - vm_compute. reflexivity.
  - repeat constructor; eexists; (split; [vm_compute; reflexivity | reflexivity]).
  - vm_compute. reflexivity.
Defined.
End NaiveWindow.

Section PredictorBounds.
Import TimePredictor PredictorProps Examples.

Lemma keyword_hits_range (keywords : list string) (title description : string) :
  0 <= keyword_hits keywords title description <= Z.of_nat (length keywords).
Proof.
  unfold keyword_hits. split; [lia|].
  apply Nat2Z.inj_le, List.filter_length_le.
Qed.

Lemma base_estimates_range (k : string) (v : Q) :
  base_estimates !! k = Some v -> (5 <= v /\ v <= 120)%Q.
Proof.
  intros H. apply elem_of_list_to_map_2 in H.
  repeat (apply elem_of_cons in H as [[= -> ->]|H]; [split; lra|]).
  apply elem_of_nil in H. contradiction.
Qed.

Lemma worded_estimates_range (k : string) :
  str_in k ["writing"; "research"; "email"] = true ->
  (5 <= default general_estimate (base_estimates !! k)
   /\ default general_estimate (base_estimates !! k) <= 60)%Q.
Proof.
  unfold str_in, str_eqb. cbn [existsb]. intros H.
  repeat (apply orb_true_iff in H as [H|H];
          [apply bool_decide_eq_true_1 in H; subst k; vm_compute; split; discriminate|]).
  discriminate H.
Qed.

Lemma default_estimate_range (k : string) :
  (5 <= default general_estimate (base_estimates !! k)
   /\ default general_estimate (base_estimates !! k) <= 120)%Q.
Proof.
  destruct (base_estimates !! k) as [v|] eqn:H.
  - exact (base_estimates_range k v H).
  - vm_compute. split; discriminate.
Qed.

Lemma Qfloor_range (x : Q) (a b : Z) :
  (inject_Z a <= x)%Q -> (x <= inject_Z b)%Q -> a <= Qfloor x <= b.
Proof.
  intros Ha Hb. split.
  - rewrite <- (Qfloor_Z a). apply Qfloor_resp_le, Ha.
  - rewrite <- (Qfloor_Z b). apply Qfloor_resp_le, Hb.
Qed.

(** X7.  The base estimate of [_get_base_estimate] lies between 5 and 240
    minutes for every task, and so does [base_estimate_minutes] of the
    prediction. *)
Theorem base_estimate_range (now : Z) (t : Task.task)
    (historical_data : option (list Task.task)) (profile : option user_profile) :
  (5 <= _get_base_estimate t (_extract_features t)
   /\ _get_base_estimate t (_extract_features t) <= 240)%Q
  /\ 5 <= base_estimate_minutes (predict_task_duration now t historical_data profile) <= 240.
Proof.
  assert (Hq : (5 <= _get_base_estimate t (_extract_features t)
                /\ _get_base_estimate t (_extract_features t) <= 240)%Q).
  { assert (Hc : 0 <= complexity_score (_extract_features t) <= 5).
    { unfold _extract_features. cbn [complexity_score]. apply keyword_hits_range. }
    unfold _get_base_estimate. cbv zeta.
    set (f := _extract_features t) in *.
    destruct (default_estimate_range (task_type f)) as [D1 D2].
    assert (W : str_in (task_type f) ["writing"; "research"; "email"] = true ->
                (default general_estimate (base_estimates !! task_type f) <= 60)%Q).
    { intros H. apply worded_estimates_range, H. }
    destruct Hc as [C1 C2]. rewrite Zle_Qle in C1, C2.
    change (inject_Z 0) with 0%Q in C1. change (inject_Z 5) with 5%Q in C2.
    revert D1 D2 W C1 C2.
    generalize (default general_estimate (base_estimates !! task_type f))
               (inject_Z (complexity_score f)).
    intros b c D1 D2 W C1 C2.
    destruct (str_in (task_type f) _); [specialize (W eq_refl)|];
      destruct (500 <? word_count f); destruct (1000 <? word_count f);
      destruct (0 <? complexity_score f); split; nra. }
  split; [exact Hq|]. unfold predict_task_duration. cbn [base_estimate_minutes].
  destruct Hq as [Q1 Q2]. unfold py_int.
  destruct (Qlt_le_dec _ 0) as [Hneg|_]; [lra|].
  apply Qfloor_range; [change (inject_Z 5) with 5%Q | change (inject_Z 240) with 240%Q];
    assumption.
Qed.

Lemma overlap_range (a b : gset string) :
  a <> ∅ -> (0 <= overlap a b /\ overlap a b <= 1)%Q.
Proof.
  intros Ha. unfold overlap.
  assert (Hle : (size (a ∩ b) <= size (a ∪ b))%nat).
  { apply subseteq_size. intros x Hx. apply elem_of_intersection in Hx as [Hx _].
    apply elem_of_union. left. exact Hx. }
  assert (Hpos : (0 < size (a ∪ b))%nat).
  { assert (size (a ∪ b) <> 0%nat); [|lia].
    apply size_non_empty_iff. intros He. apply Ha. apply leibniz_equiv. set_solver. }
  assert (Hd : (0 < inject_Z (Z.of_nat (size (a ∪ b))))%Q).
  { change 0%Q with (inject_Z 0). rewrite <- Zlt_Qlt. lia. }
  split.
  - apply Qle_shift_div_l; [exact Hd|]. rewrite Qmult_0_l.
    change 0%Q with (inject_Z 0). rewrite <- Zle_Qle. lia.
  - apply Qle_shift_div_r; [exact Hd|]. rewrite Qmult_1_l. rewrite <- Zle_Qle. lia.
Qed.

Lemma set_is_empty_false (a : gset string) : set_is_empty a = false -> a <> ∅.
Proof. unfold set_is_empty. intros H. apply bool_decide_eq_false_1 in H. exact H. Qed.

Lemma guarded_overlap_range (a b : gset string) :
  (0 <= (if negb (set_is_empty a) && negb (set_is_empty b) then overlap a b else 0)
   /\ (if negb (set_is_empty a) && negb (set_is_empty b) then overlap a b else 0) <= 1)%Q.
Proof.
  destruct (negb (set_is_empty a) && negb (set_is_empty b)) eqn:H; [|split; lra].
  apply andb_true_iff in H as [H _]. apply negb_true_iff in H.
  apply overlap_range, set_is_empty_false, H.
Qed.

(** The four terms of the similarity score. *)
Lemma similarity_score_terms (t h : Task.task) :
  (similarity_score t h
   == (if same_type t h then 3 else 0)
      + (if negb (set_is_empty (title_words t)) && negb (set_is_empty (title_words h))
         then overlap (title_words t) (title_words h) else 0) * 2
      + (if same_priority t h then 1 else 0)
      + (if negb (set_is_empty (tag_set t)) && negb (set_is_empty (tag_set h))
         then overlap (tag_set t) (tag_set h) else 0))%Q.
Proof.
  unfold similarity_score. cbv zeta.
  fold (same_type t h). fold (same_priority t h).
  fold (title_words t). fold (title_words h). fold (tag_set t). fold (tag_set h).
  destruct (same_type t h), (same_priority t h),
    (negb (set_is_empty (title_words t)) && negb (set_is_empty (title_words h))),
    (negb (set_is_empty (tag_set t)) && negb (set_is_empty (tag_set h))); ring.
Qed.

Lemma similarity_score_range (t h : Task.task) :
  (0 <= similarity_score t h /\ similarity_score t h <= 7)%Q.
Proof.
  rewrite similarity_score_terms.
  destruct (guarded_overlap_range (title_words t) (title_words h)) as [A1 A2].
  destruct (guarded_overlap_range (tag_set t) (tag_set h)) as [B1 B2].
  revert A1 A2 B1 B2.
  generalize (if negb (set_is_empty (title_words t)) && negb (set_is_empty (title_words h))
              then overlap (title_words t) (title_words h) else 0%Q)
             (if negb (set_is_empty (tag_set t)) && negb (set_is_empty (tag_set h))
              then overlap (tag_set t) (tag_set h) else 0%Q).
  intros x y A1 A2 B1 B2.
  destruct (same_type t h), (same_priority t h); split; lra.
Qed.

Lemma find_similar_tasks_sublist (t : Task.task) (history : list Task.task) :
  _find_similar_tasks t history `sublist_of` history.
Proof.
  unfold _find_similar_tasks. etransitivity; [apply sublist_take|].
  induction history as [|h history IH]; [constructor|].
  cbn [List.filter]. destruct (Qgeb _ _); [constructor 2 | constructor 3]; exact IH.
Qed.

(** X8.  [_find_similar_tasks] returns at most ten tasks, taken from the
    history in its order, each with a similarity score between 2 and 7. *)
Theorem find_similar_tasks_sound (t : Task.task) (history : list Task.task) :
  (length (_find_similar_tasks t history) <= 10)%nat
  /\ _find_similar_tasks t history `sublist_of` history
  /\ Forall (fun h => 2 <= similarity_score t h /\ similarity_score t h <= 7)%Q
       (_find_similar_tasks t history).
Proof.
  split; [unfold _find_similar_tasks; rewrite length_take; lia|].
  split; [apply find_similar_tasks_sublist|]. unfold _find_similar_tasks.
  - apply Forall_take, Forall_forall. intros h Hh.
    apply list_elem_of_In, filter_In in Hh as [_ Hh].
    split; [|apply similarity_score_range].
    unfold Qgeb in Hh. destruct (Qlt_le_dec _ 2); [discriminate | assumption].
Qed.


End PredictorBounds.

Section History.
Import TimePredictor PredictorProps Examples Fixtures.

Lemma adjust_with_history_unfold (base : Q) (t : Task.task) (history : list Task.task) :
  _adjust_with_history base t (Some history)
  = match omap recorded_minutes (_find_similar_tasks t history) with
    | [] => base
    | d :: ds =>
        (base * (1 - py_min (inject_Z (Z.of_nat (length (_find_similar_tasks t history))) / 5) 1)
         + (mean (d :: ds) * 0.3 + median (d :: ds) * 0.7)
           * py_min (inject_Z (Z.of_nat (length (_find_similar_tasks t history))) / 5) 1)%Q
    end.
Proof.
  unfold _adjust_with_history. destruct history as [|h history]; cbn [history_is_empty].
  - reflexivity.
  - change (default [] (Some (h :: history))) with (h :: history).
    fold recorded_minutes.
    change (omap (fun h0 => let d := py_or (Task.actual_minutes h0) (Task.duration_minutes h0) in
                            if truthy_Z d then inject_Z <$> d else None))
      with (omap recorded_minutes).
    destruct (_find_similar_tasks t (h :: history)) as [|s ss]; [reflexivity|].
    destruct (omap recorded_minutes (s :: ss)); reflexivity.
Qed.




(** X11.  With five or more similar tasks, one of them at least with recorded
    minutes, the history has weight 1: the estimate of
    [_adjust_with_history] no longer depends on the base estimate. *)
Theorem five_similar_tasks_replace_base (b1 b2 : Q) (t : Task.task)
    (history : list Task.task) :
  (5 <= length (_find_similar_tasks t history))%nat ->
  omap recorded_minutes (_find_similar_tasks t history) <> [] ->
  (_adjust_with_history b1 t (Some history) == _adjust_with_history b2 t (Some history))%Q.
Proof.
  intros Hn Hrec. rewrite !adjust_with_history_unfold.
  destruct (omap recorded_minutes (_find_similar_tasks t history)) as [|d ds];
    [contradiction|].
  assert (Hw : (py_min (inject_Z (Z.of_nat (length (_find_similar_tasks t history))) / 5) 1
                == 1)%Q).
  { assert (H5 : (5 <= inject_Z (Z.of_nat (length (_find_similar_tasks t history))))%Q).
    { change 5%Q with (inject_Z 5). rewrite <- Zle_Qle. lia. }
    revert H5. generalize (inject_Z (Z.of_nat (length (_find_similar_tasks t history)))).
    intros x H5. unfold py_min, Qdiv. change (/ 5)%Q with (1 # 5)%Q.
    destruct (Qlt_le_dec 1 (x * (1 # 5))); lra. }
  rewrite Hw. ring.
Qed.

Lemma five_similar_tasks_replace_base_witness :
  (_adjust_with_history 45 long_writing_task (Some five_reports)
   == _adjust_with_history 90 long_writing_task (Some five_reports))%Q.
Proof.
  assert (Hs : _find_similar_tasks long_writing_task five_reports = five_reports).
  { unfold _find_similar_tasks.
    assert (Hq : Qgeb (similarity_score long_writing_task
                        (List.hd Task.empty five_reports)) 2 = true).
    { unfold Qgeb. destruct (Qlt_le_dec _ 2) as [Hlt|]; [|reflexivity]. exfalso.
      rewrite similarity_score_terms in Hlt.
      replace (same_type long_writing_task (hd Task.empty five_reports)) with true in Hlt
        by (vm_compute; reflexivity).
      destruct (guarded_overlap_range (title_words long_writing_task)
                  (title_words (hd Task.empty five_reports))) as [A1 _].
      destruct (guarded_overlap_range (tag_set long_writing_task)
                  (tag_set (hd Task.empty five_reports))) as [B1 _].
      revert Hlt A1 B1.
      generalize (if negb (set_is_empty (title_words long_writing_task))
                     && negb (set_is_empty (title_words (hd Task.empty five_reports)))
                  then overlap (title_words long_writing_task)
                         (title_words (hd Task.empty five_reports)) else 0)%Q.
      generalize (if negb (set_is_empty (tag_set long_writing_task))
                     && negb (set_is_empty (tag_set (hd Task.empty five_reports)))
                  then overlap (tag_set long_writing_task)
                         (tag_set (hd Task.empty five_reports)) else 0)%Q.
      intros x y Hlt A1 B1.
      destruct (same_priority _ _); lra. }
    cbn [five_reports repeat hd] in *. cbn [List.filter]. rewrite Hq. reflexivity. }
  apply five_similar_tasks_replace_base.
  - rewrite Hs. cbn. lia.
  - rewrite Hs. vm_compute. discriminate.
Defined.
End History.

Section GeneratorShapes.
Import SmartSuggestions RankerSpec RankerProps Examples RankerExamples.
Context {PD : Type}.

Lemma schedule_emits (sessions : list session) (pd : PD) (l : list suggestion) :
  _generate_schedule_suggestions sessions pd = Ok l ->
  emits "schedule_optimization" 0.85 l.
Proof.
  unfold _generate_schedule_suggestions.
  destruct sessions as [|s sessions]; [intros [= <-]; left; reflexivity|].
  destruct (hourly_productivity (s :: sessions) []) as [hourly|e]; [|discriminate].
  cbn [mbind result_bind].
  destruct (take 3 _) as [|best rest]; intros [= <-];
    [left | right; eexists]; reflexivity.
Qed.

Lemma task_prioritization_emits (now : Z) (tasks : list Task.task)
    (sessions : list session) (l : list suggestion) :
  _generate_task_prioritization_suggestions now tasks sessions = Ok l ->
  emits "task_prioritization" 0.95 l.
Proof.
  unfold _generate_task_prioritization_suggestions.
  destruct (List.filter is_incomplete_high_priority tasks) as [|t ts];
    [intros [= <-]; left; reflexivity|].
  destruct (filterM (is_overdue now) (t :: ts)) as [overdue|e]; [|discriminate].
  cbn [mbind result_bind].
  destruct overdue; intros [= <-]; [left | right; eexists]; reflexivity.
Qed.

Lemma break_timing_emits (sessions : list session)
    (patterns : list DistractionDetector.activity) :
  emits "break_timing" 0.75 (_generate_break_timing_suggestions sessions patterns).
Proof.
  unfold _generate_break_timing_suggestions.
  destruct sessions as [|s sessions]; [left; reflexivity|].
  destruct (List.filter _ (s :: sessions)); [left; reflexivity|].
  destruct (_ && _); [right; eexists | left]; reflexivity.
Qed.

Lemma duration_emits (sessions : list session) (tasks : list Task.task) :
  emits "focus_duration" 0.70 (_generate_duration_suggestions sessions tasks).
Proof.
  unfold _generate_duration_suggestions.
  destruct sessions as [|s sessions]; [left; reflexivity|].
  destruct (List.filter _ (s :: sessions)) as [|x xs]; [left; reflexivity|].
  cbn [map]. right; eexists; reflexivity.
Qed.

Lemma pattern_emits (patterns : list DistractionDetector.activity)
    (sessions : list session) :
  emits "distraction_management" 0.80 (_generate_pattern_suggestions patterns sessions).
Proof.
  unfold _generate_pattern_suggestions.
  destruct patterns as [|a patterns]; [left; reflexivity|].
  destruct (List.filter _ (a :: patterns)) as [|x xs]; [left; reflexivity|].
  destruct (fold_left _ (x :: xs) []); [left | right; eexists]; reflexivity.
Qed.

(** X12.  The suggestions that [generate_suggestions] returns come in one
    order of kinds, each kind at most once: task prioritization, schedule
    optimization, distraction management, break timing, focus duration. *)
Theorem suggestions_in_fixed_order (now : Z) (uid : string) (pd : PD)
    (sessions : list session) (tasks : list Task.task)
    (patterns : list DistractionDetector.activity) (out : list suggestion) :
  generate_suggestions now uid pd sessions tasks patterns = Ok out ->
  map suggestion_type out `sublist_of` ranking_order.
Proof.
  intros H. apply generate_suggestions_inv in H as (g & Hg & ->).
  apply collect_suggestions_inv in Hg as (a & b & Ha & Hb & ->).
  apply schedule_emits in Ha. apply task_prioritization_emits in Hb.
  destruct Ha as [->|[c1 ->]], Hb as [->|[c2 ->]],
    (break_timing_emits sessions patterns) as [->|[c3 ->]],
    (duration_emits sessions tasks) as [->|[c4 ->]],
    (pattern_emits patterns sessions) as [->|[c5 ->]];
    vm_compute;
    repeat first [apply sublist_nil | apply sublist_skip | apply sublist_cons].
Qed.
End GeneratorShapes.

Lemma suggestions_in_fixed_order_witness :
  map SmartSuggestions.suggestion_type RankerExamples.ranked5
  `sublist_of` RankerProps.ranking_order.
Proof.
  apply (suggestions_in_fixed_order Examples.noon "u1" tt RankerExamples.sessions3
           [RankerExamples.overdue_task] RankerExamples.patterns1).
  vm_compute. reflexivity.
Defined.

Section EmptyInputs.
Import SmartSuggestions RankerSpec RankerProps Examples RankerExamples.
Context {PD : Type}.

(** Without sessions and tasks no timestamp is read, so nothing fails. *)
Lemma no_sessions_no_tasks (now : Z) (uid : string) (pd : PD)
    (patterns : list DistractionDetector.activity) :
  exists out,
    generate_suggestions now uid pd [] [] patterns = Ok out
    /\ (length out <= 1)%nat
    /\ Forall (fun s => suggestion_type s = "distraction_management") out
    /\ (patterns = [] -> out = []).
Proof.
  unfold generate_suggestions, collect_suggestions. cbn [mbind result_bind].
  change (_generate_schedule_suggestions [] pd) with (@Ok (list suggestion) []).
  change (_generate_task_prioritization_suggestions now [] []) with (@Ok (list suggestion) []).
  cbn [mbind result_bind].
  change (_generate_break_timing_suggestions [] patterns) with (@nil suggestion).
  change (_generate_duration_suggestions [] []) with (@nil suggestion).
  cbn [app].
  destruct (pattern_emits patterns []) as [He|[ctx He]]; rewrite He.
  - exists []. split; [reflexivity|]. split; [cbn; lia|].
    split; [constructor | reflexivity].
  - eexists. split; [reflexivity|]. vm_compute. split; [lia|].
    split; [repeat constructor|]. intros ->. discriminate He.
Qed.
End EmptyInputs.

Section ScheduleHours.
Import Datetime SmartSuggestions RankerSpec RankerProps Examples RankerExamples.
Context {PD : Type}.

Lemma hourly_productivity_keys (l : list session) (acc hourly : list (Z * hour_stats)) :
  Forall (fun kv => 0 <= fst kv <= 23) acc -> NoDup acc.*1 ->
  hourly_productivity l acc = Ok hourly ->
  Forall (fun kv => 0 <= fst kv <= 23) hourly /\ NoDup hourly.*1
  /\ (length acc <= length hourly)%nat /\ (l <> [] -> hourly <> []).
Proof.
  revert acc. induction l as [|s l IH]; intros acc Hr Hnd; cbn [hourly_productivity].
  - intros [= <-]. repeat split; try assumption; [lia | congruence].
  - destruct (parse_timestamp (started_at s)) as [t|e]; [|discriminate].
    cbn [mbind result_bind]. intros H.
    match type of H with hourly_productivity l (assoc_upsert ?k ?i ?f acc) = _ =>
      pose proof (assoc_upsert_length k i f acc) as Hl;
      apply IH in H as (H1 & H2 & H3 & _);
        [| apply (assoc_upsert_keys _ _ _ _ (fun h => 0 <= h <= 23));
           [apply hour_range | exact Hr]
         | apply assoc_upsert_NoDup, Hnd ]
    end.
    repeat split; try assumption; [lia|].
    intros _ ->. cbn [length] in H3.
    destruct acc; cbn [assoc_upsert length] in *; lia.
Qed.

(** X13.  When [_generate_schedule_suggestions] returns on a non-empty list of
    sessions it returns one suggestion, and the peak hours of a suggestion
    are one to three distinct hours in 0..23. *)
Theorem schedule_suggestion_hours (sessions : list session) (pd : PD)
    (out : list suggestion) :
  _generate_schedule_suggestions sessions pd = Ok out ->
  (sessions <> [] -> length out = 1%nat)
  /\ Forall (fun s => exists hours score,
               context s = schedule_context hours score
               /\ (1 <= length hours <= 3)%nat
               /\ NoDup hours
               /\ Forall (fun h => 0 <= h <= 23) hours) out.
Proof.
  unfold _generate_schedule_suggestions.
  destruct sessions as [|s sessions]; [intros [= <-]; split; [congruence | constructor]|].
  destruct (hourly_productivity (s :: sessions) []) as [hourly|e] eqn:Hh; [|discriminate].
  cbn [mbind result_bind].
  apply hourly_productivity_keys in Hh as (Hr & Hnd & _ & Hne); [|constructor|constructor].
  specialize (Hne ltac:(discriminate)).
  set (sorted := sort_desc_by (fun x => productivity (snd x)) hourly).
  assert (Hperm : sorted ≡ₚ hourly) by apply sort_by_perm.
  assert (Hlen : length sorted <> 0%nat).
  { rewrite Hperm. destruct hourly; [contradiction | discriminate]. }
  assert (H3 : (1 <= length (map fst (take 3 sorted)) <= 3)%nat
               /\ NoDup (map fst (take 3 sorted))
               /\ Forall (fun h => 0 <= h <= 23) (map fst (take 3 sorted))).
  { change (map fst (take 3 sorted)) with (fst <$> take 3 sorted).
    rewrite fmap_take. split; [rewrite length_take, length_fmap; lia|]. split.
    - apply (sublist_NoDup _ (fst <$> sorted)); [|apply sublist_take].
      rewrite Hperm. exact Hnd.
    - apply Forall_take, Forall_fmap. rewrite Hperm. exact Hr. }
  destruct (take 3 sorted) as [|best rest] eqn:Ht.
  - destruct H3 as [H3 _]. cbn [map length] in H3. lia.
  - intros [= <-]. split; [reflexivity|]. repeat constructor.
    eexists _, _. split; [reflexivity|]. exact H3.
Qed.
End ScheduleHours.

Lemma schedule_suggestion_hours_witness :
  exists out,
    SmartSuggestions._generate_schedule_suggestions RankerExamples.sessions3 tt = Ok out
    /\ length out = 1%nat.
Proof.
  eexists. split; [vm_compute; reflexivity|].
  refine (proj1 (schedule_suggestion_hours RankerExamples.sessions3 tt _ _) _).
  - vm_compute. reflexivity.
  - discriminate.
Defined.

Section Overdue.
Import Datetime SmartSuggestions RankerSpec RankerProps Examples RankerExamples Fixtures.

Lemma is_overdue_naive (now : Z) (t : Task.task) :
  (has_due_date t = true ->
   exists d, parse_timestamp (Task.due_date t) = Ok d /\ tzinfo d = None) ->
  is_overdue now t = Ok (overdue_at now t).
Proof.
  intros H. unfold is_overdue, overdue_at, has_due_date in *.
  destruct (truthy_str (Task.due_date t)); [|reflexivity].
  destruct (H eq_refl) as (d & Hp & Hn). rewrite Hp. cbn [mbind result_bind andb].
  unfold Datetime.lt, Datetime.compare. rewrite Hn. cbn.
  rewrite Z.ltb_compare. destruct (ticks d ?= now); reflexivity.
Qed.

Lemma filterM_pure {A : Type} (p : A -> result bool) (q : A -> bool) (l : list A) :
  Forall (fun x => p x = Ok (q x)) l -> filterM p l = Ok (List.filter q l).
Proof.
  induction 1 as [|x l Hx _ IH]; [reflexivity|].
  cbn [filterM List.filter]. rewrite Hx, IH. reflexivity.
Qed.

(** X14.  When the due dates that are read, those of the unfinished urgent
    and high tasks, are naive, [_generate_task_prioritization_suggestions]
    returns: nothing when none of these tasks is overdue, and otherwise one
    suggestion with the number of the overdue ones and the titles of the
    first three. *)
Theorem task_prioritization_naive (now : Z) (tasks : list Task.task)
    (sessions : list session) :
  Forall (fun t => is_incomplete_high_priority t = true -> has_due_date t = true ->
                   exists d, parse_timestamp (Task.due_date t) = Ok d /\ tzinfo d = None)
         tasks ->
  _generate_task_prioritization_suggestions now tasks sessions
  = Ok match List.filter (overdue_at now) (List.filter is_incomplete_high_priority tasks) with
       | [] => []
       | o :: os =>
           [ {| suggestion_type := "task_prioritization";
                priority_score := 0.95;
                context := overdue_context (Z.of_nat (length (o :: os)))
                             (map Task.title (take 3 (o :: os))) |} ]
       end.
Proof.
  intros Hall. unfold _generate_task_prioritization_suggestions.
  destruct (List.filter is_incomplete_high_priority tasks) as [|t ts] eqn:Hf;
    [reflexivity|].
  rewrite (filterM_pure (is_overdue now) (overdue_at now)).
  - cbn [mbind result_bind]. destruct (List.filter (overdue_at now) (t :: ts)); reflexivity.
  - rewrite <- Hf. apply Forall_forall. intros x Hx.
    apply list_elem_of_In, filter_In in Hx as [Hx Hrel].
    apply is_overdue_naive. rewrite Forall_forall in Hall.
    apply (Hall x); [apply list_elem_of_In, Hx | exact Hrel].
Qed.

Lemma task_prioritization_naive_witness :
  exists s, _generate_task_prioritization_suggestions noon [overdue_task] [] = Ok [s]
            /\ context s = overdue_context 1 [Some "File the tax return"].
Proof.
  eexists. rewrite (task_prioritization_naive noon [overdue_task] []).
  - vm_compute. split; reflexivity.
  - repeat constructor. intros _ _. eexists. split; [vm_compute; reflexivity | reflexivity].
Defined.



End Overdue.

Section SessionSuggestions.
Import SmartSuggestions RankerSpec RankerProps Examples RankerExamples.

Lemma Forall_map_filter {A : Type} (p : A -> bool) (g : A -> Q) (P : Q -> Prop) (l : list A) :
  (forall x, x ∈ l -> p x = true -> P (g x)) ->
  Forall P (map g (List.filter p l)).
Proof.
  intros H. apply Forall_forall. intros q Hq.
  apply list_elem_of_In, in_map_iff in Hq as (x & <- & Hx).
  apply filter_In in Hx as [Hx Hp]. apply H; [apply list_elem_of_In, Hx | exact Hp].
Qed.

(** X16.  [_generate_break_timing_suggestions] returns nothing when no session
    has more than 3 interruptions, and nothing when no interrupted session
    is longer than 50 minutes. *)
Theorem break_timing_needs_interruptions (sessions : list session)
    (patterns : list DistractionDetector.activity) :
  Forall (fun s => default 0 (interruption_count s) <= 3) sessions
  \/ Forall (fun s => 0 < default 0 (interruption_count s) ->
                      default 0 (duration_minutes s) <= 50) sessions ->
  _generate_break_timing_suggestions sessions patterns = [].
Proof.
  intros H. unfold _generate_break_timing_suggestions.
  destruct sessions as [|s0 sessions]; [reflexivity|].
  set (l := s0 :: sessions) in *.
  destruct (List.filter (fun s => 0 <? default 0 (interruption_count s)) l)
    as [|x xs] eqn:Hf; [reflexivity|].
  rewrite <- Hf.
  assert (Hne : forall g : session -> Q,
             map g (List.filter (fun s => 0 <? default 0 (interruption_count s)) l) <> []).
  { intros g. rewrite Hf. discriminate. }
  destruct H as [H|H].
  - assert (Hm : (mean (map (fun s => inject_Z (default 0%Z (interruption_count s)))
                     (List.filter (fun s => (0 <? default 0 (interruption_count s))%Z) l))
                  <= 3)%Q).
    { apply mean_le; [apply Hne|]. apply Forall_map_filter.
      intros x' Hx _. rewrite Forall_forall in H. specialize (H x' Hx).
      change 3%Q with (inject_Z 3). rewrite <- Zle_Qle. exact H. }
    unfold Qgtb at 1. destruct (Qlt_le_dec 3 _); [lra | reflexivity].
  - assert (Hm : (mean (map (fun s => inject_Z (default 0%Z (duration_minutes s)))
                     (List.filter (fun s => (0 <? default 0 (interruption_count s))%Z) l))
                  <= 50)%Q).
    { apply mean_le; [apply Hne|]. apply Forall_map_filter.
      intros x' Hx Hp. rewrite Forall_forall in H. specialize (H x' Hx).
      apply Z.ltb_lt in Hp. specialize (H Hp).
      change 50%Q with (inject_Z 50). rewrite <- Zle_Qle. exact H. }
    destruct (Qgtb _ 3); [|reflexivity]. cbn [andb].
    unfold Qgtb. destruct (Qlt_le_dec 50 _); [lra | reflexivity].
Qed.

Lemma break_timing_needs_interruptions_witness :
  _generate_break_timing_suggestions [session_at "2024-03-01T09:00:00" 90 2] [] = [].
Proof.
  apply break_timing_needs_interruptions. left. repeat constructor. cbn. lia.
Defined.

(** X17.  The optimal duration of a focus-duration suggestion is at least 30
    minutes, and the suggestion counts at least one successful session and
    no more than there are sessions. *)
Theorem duration_suggestion_at_least_30 (sessions : list session) (tasks : list Task.task) :
  Forall (fun s => exists m n,
            context s = duration_context m n
            /\ (30 <= m)%Q
            /\ 1 <= n <= Z.of_nat (length sessions))
         (_generate_duration_suggestions sessions tasks).
Proof.
  unfold _generate_duration_suggestions.
  destruct sessions as [|s0 sessions]; [constructor|].
  set (l := s0 :: sessions).
  set (ok := fun s => (default 0 (interruption_count s) <=? 1)
                      && (30 <=? default 0 (duration_minutes s))).
  destruct (List.filter ok l) as [|x xs] eqn:Hf; [constructor|].
  rewrite <- Hf.
  destruct (map (fun s => inject_Z (default 0 (duration_minutes s))) (List.filter ok l))
    as [|d ds] eqn:Hm; [constructor|].
  repeat constructor. eexists _, _. split; [reflexivity|]. split.
  - rewrite <- Hm.
    set (ds' := map (fun s => inject_Z (default 0 (duration_minutes s))) (List.filter ok l)).
    assert (Hb : Forall (fun q => 30 <= q /\ q <= DistractionDetector.list_max ds')%Q ds').
    { pose proof (list_min_max_bounds ds') as Hmm.
      assert (H30 : Forall (fun q => 30 <= q)%Q ds').
      { apply Forall_map_filter. intros y _ Hy. unfold ok in Hy.
        apply andb_true_iff in Hy as [_ Hy]. apply Z.leb_le in Hy.
        change 30%Q with (inject_Z 30). rewrite <- Zle_Qle. exact Hy. }
      rewrite Forall_forall in *. intros q Hq. split; [apply H30, Hq | apply Hmm, Hq]. }
    refine (proj1 (median_bounds 30 (DistractionDetector.list_max ds') ds' _ Hb)).
    unfold ds'. rewrite Hm. discriminate.
  - pose proof (List.filter_length_le ok l) as Hle.
    rewrite Hf in *. cbn [length] in *. lia.
Qed.

(** X18.  The distraction-management suggestion names a category with the
    largest number of high-distraction activities (score above 0.7) and
    gives that number, which is at least 1. *)
Theorem pattern_suggestion_most_frequent
    (patterns : list DistractionDetector.activity) (sessions : list session) :
  Forall (fun s => exists c n,
            context s = distraction_context c n
            /\ n = tally_count raw_category c (List.filter is_high_distraction patterns)
            /\ 1 <= n
            /\ forall c', tally_count raw_category c'
                            (List.filter is_high_distraction patterns) <= n)
         (_generate_pattern_suggestions patterns sessions).
Proof.
  unfold _generate_pattern_suggestions.
  destruct patterns as [|a0 patterns]; [constructor|].
  set (l := a0 :: patterns).
  change (List.filter (fun a => Qgtb (default 0%Q (DistractionDetector.distraction_score a)) 0.7) l)
    with (List.filter is_high_distraction l).
  destruct (List.filter is_high_distraction l) as [|x xs] eqn:Hf; [constructor|].
  rewrite <- Hf.
  pose proof (tally_from_empty raw_category (fun n => n + 1) ltac:(reflexivity)
                (List.filter is_high_distraction l)) as Hok.
  change (fold_left (fun d a => assoc_upsert (default "unknown"
            (DistractionDetector.activity_category a)) 0 (fun n => n + 1) d))
    with (fold_left (fun d a => assoc_upsert (raw_category a) 0 (fun n => n + 1) d)).
  destruct (fold_left _ (List.filter is_high_distraction l) []) as [|first others] eqn:Hd;
    [constructor|].
  destruct (first_max_by_spec snd others first) as [Hin Hmax].
  remember (first_max_by snd first others) as top eqn:Htop. clear Htop.
  destruct top as [c n]. repeat constructor. exists c, n. split; [reflexivity|].
  destruct (tally_elem raw_category _ _ c n Hok Hin) as [Hn Hpos].
  split; [exact Hn|]. split; [exact Hpos|].
  intros c'. destruct Hok as [Hnd Hget]. specialize (Hget c').
  destruct (tally_count raw_category c' (List.filter is_high_distraction l) =? 0) eqn:Hz.
  - apply Z.eqb_eq in Hz. lia.
  - assert (Hin' : (c', tally_count raw_category c' (List.filter is_high_distraction l))
                   ∈ first :: others).
    { clear -Hget. induction (first :: others) as [|[k v] d IH]; cbn [assoc_get] in Hget;
        [discriminate|].
      destruct (decide (k = c')) as [->|Hne]; [injection Hget as ->; left | right; auto]. }
    rewrite Forall_forall in Hmax. apply (Hmax _ Hin').
Qed.
End SessionSuggestions.

Section Planner.
Import Datetime FocusPlanner PlannerProps.

Lemma priority_order_range (k : string) : 1 <= default 2 (priority_order !! k) <= 4.
Proof.
  unfold priority_order.
  destruct (decide (k = "urgent")) as [->|H1]; [rewrite lookup_insert_eq; cbn; lia|].
  rewrite lookup_insert_ne by congruence.
  destruct (decide (k = "high")) as [->|H2]; [rewrite lookup_insert_eq; cbn; lia|].
  rewrite lookup_insert_ne by congruence.
  destruct (decide (k = "medium")) as [->|H3]; [rewrite lookup_insert_eq; cbn; lia|].
  rewrite lookup_insert_ne by congruence.
  destruct (decide (k = "low")) as [->|H4]; [rewrite lookup_singleton_eq; cbn; lia|].
  rewrite lookup_singleton_ne by congruence. cbn. lia.
Qed.

(** X19.  The score by which [_prioritize_tasks] sorts lies between 1 and 7,
    whatever the priority and the due date of the task. *)
Theorem task_score_range (now utc_offset : Z) (t : Task.task) :
  1 <= task_score now utc_offset t <= 7.
Proof.
  unfold task_score.
  pose proof (priority_order_range (lower (default "medium" (Task.priority t)))) as H.
  cbv zeta. destruct (days_until_due now utc_offset t) as [d|]; [|lia].
  destruct (d <? 0); [lia|]. destruct (d =? 0); [lia|]. destruct (d <=? 1); lia.
Qed.

(** A due date that does not parse is ignored: the [except] swallows the
    error. *)
Lemma unparsable_due_date_ignored (now utc_offset : Z) (t : Task.task) (e : exn) :
  parse_timestamp (Task.due_date t) = Raise e ->
  task_score now utc_offset t = task_score now utc_offset (without_due_date t).
Proof.
  intros H. unfold task_score, days_until_due. rewrite H. cbn.
  destruct (truthy_str (Task.due_date t)); reflexivity.
Qed.

Lemma has_score_key (now utc_offset z : Z) (t : Task.task) :
  has_key (fun t => inject_Z (task_score now utc_offset t)) (inject_Z z) t
  = has_score now utc_offset z t.
Proof.
  unfold has_key, has_score, Qeq_bool. cbn [Qnum Qden inject_Z].
  rewrite !Z.mul_1_r. reflexivity.
Qed.

(** X20.  [_prioritize_tasks] returns the tasks it was given, every one once,
    in descending order of score; tasks of equal score keep their order. *)
Theorem prioritize_tasks_sorted (now utc_offset : Z) (tasks : list Task.task) :
  _prioritize_tasks now utc_offset tasks ≡ₚ tasks
  /\ StronglySorted (score_desc now utc_offset) (_prioritize_tasks now utc_offset tasks)
  /\ forall z, List.filter (has_score now utc_offset z) (_prioritize_tasks now utc_offset tasks)
               = List.filter (has_score now utc_offset z) tasks.
Proof.
  unfold _prioritize_tasks, sort_desc_by. split; [apply sort_by_perm|]. split.
  - pose proof (sort_by_sorted (fun t => inject_Z (task_score now utc_offset t)) tasks) as Hs.
    induction Hs as [|x l Hs IH Hx]; constructor; [exact IH|].
    eapply Forall_impl; [exact Hx|]. intros y Hy. unfold key_desc in Hy. unfold score_desc.
    rewrite Zle_Qle. exact Hy.
  - intros z.
    pose proof (sort_by_stable (fun t => inject_Z (task_score now utc_offset t))
                  (inject_Z z) tasks) as Hst.
    erewrite (List.filter_ext _ (has_score now utc_offset z)) in Hst
      by (intros a; apply has_score_key).
    rewrite Hst. apply List.filter_ext. intros a. apply has_score_key.
Qed.

End Planner.

Section Scheduler.
Import Datetime FocusPlanner PlannerProps.

Lemma Zsum_app (l1 l2 : list Z) : Zsum (l1 ++ l2) = Zsum l1 + Zsum l2.
Proof.
  unfold Zsum. rewrite fold_left_app.
  rewrite (fold_left_Zadd_acc l2 (fold_left Z.add l1 0)). reflexivity.
Qed.

Lemma schedule_loop_prefix (peaks : list Z) (avail : Z) (tasks : list Task.task) :
  forall i acc ct total entries total',
  schedule_loop peaks avail i tasks acc ct total = Done (entries, total') ->
  exists k new, entries = acc ++ new
    /\ Forall2 entry_of (take k tasks) new
    /\ (forall j e, new !! j = Some e -> order e = i + 1 + Z.of_nat j)
    /\ total' = total + Zsum (map estimated_or_30 (take k tasks))
    /\ (total <= avail -> total' <= avail)
    /\ (forall t, tasks !! k = Some t -> avail < total' + estimated_or_30 t).
Proof.
  induction tasks as [|t rest IH]; intros i acc ct total entries total' H.
  - cbn in H. injection H as <- <-. exists 0%nat, [].
    rewrite app_nil_r. cbn. repeat split; try constructor; try lia.
    + intros j e Hj. rewrite lookup_nil in Hj. discriminate.
    + intros t Ht. discriminate.
  - cbn [schedule_loop] in H. cbv zeta in H.
    destruct (avail <? total + estimated_or_30 t) eqn:Hfit.
    + injection H as <- <-. exists 0%nat, [].
      rewrite app_nil_r. cbn. repeat split; try constructor; try lia.
      * intros j e Hj. rewrite lookup_nil in Hj. discriminate.
      * intros t0 [= <-]. apply Z.ltb_lt in Hfit. lia.
    + apply Z.ltb_ge in Hfit.
      destruct (move_to_peak peaks i ct) as [ct'|e] eqn:Hmove; [|discriminate].
      cbn [mbind attempt_bind] in H.
      destruct (plus_minutes ct' (estimated_or_30 t + 5)) as [nt|e] eqn:Hplus; [|discriminate].
      cbn [mbind attempt_bind] in H.
      apply IH in H as (k & new & -> & Hent & Hord & -> & Hle & Hstop).
      exists (S k), ({| entry_task_id := Task.id t; entry_title := Task.title t;
                        scheduled_time := ct';
                        entry_estimated_minutes := estimated_or_30 t;
                        entry_priority := default "medium" (Task.priority t);
                        order := i + 1 |} :: new).
      split; [rewrite <- app_assoc; reflexivity|].
      split; [cbn [take]; constructor; [repeat split|exact Hent]|].
      split.
      { intros [|j] e Hj.
        - injection Hj as <-. cbn. lia.
        - cbn in Hj. apply Hord in Hj. lia. }
      split; [cbn [take map]; rewrite Zsum_cons; lia|].
      split; [intros _; apply Hle; lia|].
      intros t0 Ht0. cbn in Ht0. apply Hstop, Ht0.
Qed.

(** X21.  When [_generate_schedule] returns, the schedule holds the first k
    tasks of the list, in order and numbered from 1, each with its id, title,
    priority and estimate (30 when missing); [total_scheduled_minutes] is the
    sum of their estimates, at most the available minutes when these are not
    negative; and the task after them, if any, no longer fits. *)
Theorem schedule_is_prefix (now : Z) (tasks : list Task.task) (avail : Z)
    (prefs : user_prefs) (s : schedule) :
  _generate_schedule now tasks avail prefs = Done s ->
  exists k,
    Forall2 entry_of (take k tasks) (task_schedule s)
    /\ (forall j e, task_schedule s !! j = Some e -> order e = Z.of_nat j + 1)
    /\ total_scheduled_minutes s = Zsum (map estimated_or_30 (take k tasks))
    /\ (0 <= avail -> total_scheduled_minutes s <= avail)
    /\ (forall t, tasks !! k = Some t -> avail < total_scheduled_minutes s + estimated_or_30 t).
Proof.
  unfold _generate_schedule. cbv zeta.
  destruct (schedule_loop _ avail 0 tasks [] (nine_o_clock now) 0) as [[entries total]|e] eqn:H;
    [|discriminate].
  cbn [mbind attempt_bind]. intros [= <-]. cbn [task_schedule total_scheduled_minutes].
  apply schedule_loop_prefix in H as (k & new & -> & Hent & Hord & -> & Hle & Hstop).
  exists k. cbn [app]. repeat split; auto.
  intros j e Hj. apply Hord in Hj. lia.
Qed.

End Scheduler.

Section Clock.
Import Datetime FocusPlanner PlannerProps.

Lemma Z_in_spec (x : Z) (l : list Z) : Z_in x l = true <-> x ∈ l.
Proof.
  unfold Z_in. rewrite existsb_exists. split.
  - intros (y & Hy & Heq). apply Z.eqb_eq in Heq as ->. apply list_elem_of_In, Hy.
  - intros H. exists x. split; [apply list_elem_of_In, H | apply Z.eqb_refl].
Qed.

Lemma list_min_Z_spec (l : list Z) (x : Z) :
  list_min_Z x l ∈ x :: l /\ forall y, y ∈ x :: l -> list_min_Z x l <= y.
Proof.
  unfold list_min_Z. revert x. induction l as [|a l IH]; intros x; cbn [fold_left].
  - split; [left|]. intros y Hy. apply list_elem_of_singleton in Hy as ->. lia.
  - destruct (IH (Z.min x a)) as [Hin Hle]. split.
    + apply elem_of_cons in Hin as [Heq|Hin].
      * rewrite Heq. destruct (Z.min_spec x a) as [[_ ->]|[_ ->]];
          [left | right; left].
      * right; right. exact Hin.
    + intros y Hy. apply elem_of_cons in Hy as [->|Hy].
      * etrans; [apply Hle; left|]. lia.
      * apply elem_of_cons in Hy as [->|Hy].
        -- etrans; [apply Hle; left|]. lia.
        -- apply Hle. right. exact Hy.
Qed.

Lemma next_peak_hour_spec (peaks : list Z) (h p : Z) :
  next_peak_hour peaks h = Done p ->
  p ∈ peaks
  /\ ((h < p /\ forall q, q ∈ peaks -> h < q -> p <= q)
      \/ ((forall q, q ∈ peaks -> q <= h) /\ head peaks = Some p)).
Proof.
  unfold next_peak_hour. destruct peaks as [|first rest]; [discriminate|].
  destruct (List.filter (fun q => h <? q) (first :: rest)) as [|a l] eqn:Hf.
  - intros [= <-]. split; [left|]. right. split; [|reflexivity].
    intros q Hq. destruct (Z.ltb_spec h q) as [Hlt|]; [|lia].
    assert (Hin : In q (List.filter (fun q => h <? q) (first :: rest))).
    { apply List.filter_In. split; [apply list_elem_of_In, Hq | apply Z.ltb_lt, Hlt]. }
    rewrite Hf in Hin. destruct Hin.
  - intros [= <-]. destruct (list_min_Z_spec l a) as [Hin Hle].
    assert (Hsub : forall q, q ∈ a :: l <-> q ∈ first :: rest /\ h < q).
    { intros q. rewrite !list_elem_of_In, <- Hf, List.filter_In, Z.ltb_lt. reflexivity. }
    apply Hsub in Hin as [Hin Hlt]. split; [exact Hin|]. left. split; [exact Hlt|].
    intros q Hq Hhq. apply Hle, Hsub. auto.
Qed.


Lemma replace_hour_spec (d d' : datetime) (h : Z) :
  replace_hour d h = Done d' ->
  0 <= h <= 23 /\ hour d' = h /\ tzinfo d' = tzinfo d
  /\ ticks d' / us_per_day = ticks d / us_per_day
  /\ ticks d' = ticks d - ticks d mod us_per_day + h * us_per_hour
                + ticks d mod us_per_minute.
Proof.
  unfold replace_hour. destruct ((0 <=? h) && (h <=? 23)) eqn:Hh; [|discriminate].
  apply andb_true_iff in Hh as [H0 H23]. apply Z.leb_le in H0, H23.
  intros [= <-]. cbn [ticks tzinfo]. unfold hour. cbn [ticks].
  unfold us_per_day, us_per_minute, us_per_hour, us_per_second.
  generalize (ticks d). intros t. repeat split; try lia.
  - pose proof (Z.mod_pos_bound t (60 * 1000000) ltac:(lia)) as Hm.
    pose proof (Z.div_mod t (24 * (3600 * 1000000)) ltac:(lia)) as Hd.
    replace (t - t mod (24 * (3600 * 1000000)))
      with (24 * (3600 * 1000000) * (t / (24 * (3600 * 1000000)))) by lia.
    replace ((24 * (3600 * 1000000) * (t / (24 * (3600 * 1000000))) + h * (3600 * 1000000)
              + t mod (60 * 1000000)) / (3600 * 1000000))
      with (24 * (t / (24 * (3600 * 1000000))) + h).
    + rewrite Z.add_comm, Z.mul_comm, Z.mod_add by lia. apply Z.mod_small. lia.
    + apply Z.div_unique with (r := t mod (60 * 1000000)); lia.
  - pose proof (Z.mod_pos_bound t (60 * 1000000) ltac:(lia)) as Hm.
    pose proof (Z.div_mod t (24 * (3600 * 1000000)) ltac:(lia)) as Hd.
    symmetry. apply Z.div_unique with (r := h * (3600 * 1000000) + t mod (60 * 1000000)); lia.
Qed.

Lemma move_to_peak_first (peaks : list Z) (ct : datetime) :
  move_to_peak peaks 0 ct = Done ct.
Proof. unfold move_to_peak. cbn. rewrite andb_false_r. reflexivity. Qed.

Lemma move_to_peak_spec (peaks : list Z) (i : Z) (ct ct' : datetime) :
  move_to_peak peaks i ct = Done ct' ->
  (0 < i -> hour ct' ∈ peaks)
  /\ tzinfo ct' = tzinfo ct
  /\ ticks ct' / us_per_day = ticks ct / us_per_day.
Proof.
  unfold move_to_peak. cbv zeta.
  destruct (Z_in (hour ct) peaks) eqn:Hin; cbn [negb andb].
  - intros [= <-]. split; [|split; reflexivity]. intros _. apply Z_in_spec, Hin.
  - destruct (0 <? i) eqn:Hi.
    + destruct (next_peak_hour peaks (hour ct)) as [p|e] eqn:Hp; [|discriminate].
      cbn [mbind attempt_bind]. intros Hr.
      apply replace_hour_spec in Hr as (_ & Hh & Htz & Hday & _).
      apply next_peak_hour_spec in Hp as [Hp _].
      split; [|split; assumption]. intros _. rewrite Hh. exact Hp.
    + intros [= <-]. apply Z.ltb_ge in Hi. split; [lia|split; reflexivity].
Qed.



Lemma schedule_loop_hours (peaks : list Z) (avail : Z) (tasks : list Task.task) :
  forall i acc ct total entries total',
  0 <= i ->
  schedule_loop peaks avail i tasks acc ct total = Done (entries, total') ->
  exists new, entries = acc ++ new
    /\ forall j e, new !! j = Some e ->
         (0 < i + Z.of_nat j -> hour (scheduled_time e) ∈ peaks)
         /\ (i + Z.of_nat j = 0 -> scheduled_time e = ct).
Proof.
  induction tasks as [|t rest IH]; intros i acc ct total entries total' Hi H.
  - cbn in H. injection H as <- <-. exists []. rewrite app_nil_r. split; [reflexivity|].
    intros j e Hj. rewrite lookup_nil in Hj. discriminate.
  - cbn [schedule_loop] in H. cbv zeta in H.
    destruct (avail <? total + estimated_or_30 t).
    + injection H as <- <-. exists []. rewrite app_nil_r. split; [reflexivity|].
      intros j e Hj. rewrite lookup_nil in Hj. discriminate.
    + destruct (move_to_peak peaks i ct) as [ct'|e] eqn:Hmove; [|discriminate].
      cbn [mbind attempt_bind] in H.
      destruct (plus_minutes ct' (estimated_or_30 t + 5)) as [nt|e] eqn:Hplus; [|discriminate].
      cbn [mbind attempt_bind] in H.
      apply IH in H as (new & -> & Hnew); [|lia].
      eexists (_ :: new). split; [rewrite <- app_assoc; reflexivity|].
      intros [|j] e Hj.
      * injection Hj as <-. cbn [scheduled_time]. split.
        -- intros Hpos. apply move_to_peak_spec in Hmove as [Hh _]. apply Hh. lia.
        -- intros Hz. assert (i = 0) as -> by lia.
           rewrite move_to_peak_first in Hmove. congruence.
      * cbn in Hj. apply Hnew in Hj as [Hj _]. split; [|lia].
        intros _. apply Hj. lia.
Qed.

(** X22.  When [_generate_schedule] returns, the first task is put at nine
    o'clock of the current day, whatever the peak hours, and every later
    task starts in a peak hour; [start_time] and [end_time] are the times of
    the first and of the last entry. *)
Theorem later_tasks_in_peak_hours (now : Z) (tasks : list Task.task) (avail : Z)
    (prefs : user_prefs) (s : schedule) :
  _generate_schedule now tasks avail prefs = Done s ->
  (forall e, task_schedule s !! 0%nat = Some e -> scheduled_time e = nine_o_clock now)
  /\ (forall j e, task_schedule s !! S j = Some e ->
        hour (scheduled_time e) ∈ peaks_of prefs)
  /\ start_time s = scheduled_time <$> head (task_schedule s)
  /\ end_time s = scheduled_time <$> last (task_schedule s).
Proof.
  unfold _generate_schedule. cbv zeta.
  destruct (schedule_loop _ avail 0 tasks [] (nine_o_clock now) 0) as [[entries total]|e] eqn:H;
    [|discriminate].
  cbn [mbind attempt_bind]. intros [= <-]. cbn [task_schedule start_time end_time].
  apply schedule_loop_hours in H as (new & -> & Hnew); [|lia]. cbn [app].
  split; [|split; [|split; reflexivity]].
  - intros e He. apply Hnew in He as [_ He]. apply He. reflexivity.
  - intros j e He. apply Hnew in He as [He _]. apply He. lia.
Qed.

Lemma plus_minutes_ok (d : datetime) (m : Z) :
  0 <= ticks d + m * us_per_minute < max_ticks ->
  plus_minutes d m = Done {| ticks := ticks d + m * us_per_minute; tzinfo := tzinfo d |}.
Proof.
  intros [H0 H1]. unfold plus_minutes. cbv zeta.
  replace ((0 <=? _) && (_ <? max_ticks)) with true; [reflexivity|].
  symmetry. apply andb_true_iff. split; [apply Z.leb_le | apply Z.ltb_lt]; assumption.
Qed.



(** X23.  With an empty list of peak hours [_generate_schedule] fails on the
    second task that fits, at [peak_hours[0]]: the default of [min] is
    evaluated although the list is empty. *)
Theorem empty_peak_list_fails (now : Z) (t1 t2 : Task.task) (rest : list Task.task)
    (avail : Z) (prefs : user_prefs) :
  peak_productivity_hours prefs = Some [] ->
  estimated_or_30 t1 <= avail ->
  estimated_or_30 t1 + estimated_or_30 t2 <= avail ->
  0 <= ticks (nine_o_clock now) + (estimated_or_30 t1 + 5) * us_per_minute < max_ticks ->
  _generate_schedule now (t1 :: t2 :: rest) avail prefs = Failed PeakIndexError.
Proof.
  intros Hp H1 H2 Hclock. unfold _generate_schedule. cbv zeta. rewrite Hp.
  change (default default_peak_hours (Some [])) with (@nil Z).
  cbn [schedule_loop]. cbv zeta.
  replace (avail <? 0 + estimated_or_30 t1) with false by (symmetry; apply Z.ltb_ge; lia).
  rewrite move_to_peak_first. cbn [mbind attempt_bind].
  rewrite plus_minutes_ok by exact Hclock. cbn [mbind attempt_bind].
  replace (avail <? 0 + estimated_or_30 t1 + estimated_or_30 t2) with false
    by (symmetry; apply Z.ltb_ge; lia).
  reflexivity.
Qed.

(** X24.  When the clock of [_generate_schedule] is past every peak hour, a
    task that is not the first is put at the first listed peak hour of the
    same day, which is earlier than the clock: scheduled times can go
    back. *)
Theorem late_clock_wraps_back (first : Z) (rest : list Z) (i : Z) (ct : datetime) :
  0 < i -> 0 <= first ->
  Forall (fun h => h < hour ct) (first :: rest) ->
  exists ct', move_to_peak (first :: rest) i ct = Done ct'
    /\ hour ct' = first
    /\ ticks ct' / us_per_day = ticks ct / us_per_day
    /\ ticks ct' < ticks ct.
Proof.
  intros Hi Hfirst Hall. unfold move_to_peak. cbv zeta.
  assert (Hnot : Z_in (hour ct) (first :: rest) = false).
  { destruct (Z_in (hour ct) (first :: rest)) eqn:E; [|reflexivity].
    apply Z_in_spec in E. rewrite Forall_forall in Hall. apply Hall in E. lia. }
  rewrite Hnot. replace (0 <? i) with true by (symmetry; apply Z.ltb_lt; lia).
  cbn [negb andb].
  assert (Hnext : next_peak_hour (first :: rest) (hour ct) = Done first).
  { unfold next_peak_hour.
    replace (List.filter (fun h => hour ct <? h) (first :: rest)) with (@nil Z); [reflexivity|].
    symmetry. clear Hnot. induction Hall as [|h l Hh _ IH]; [reflexivity|].
    cbn [List.filter]. replace (hour ct <? h) with false by (symmetry; apply Z.ltb_ge; lia).
    exact IH. }
  rewrite Hnext. cbn [mbind attempt_bind].
  assert (Hlt : first < hour ct) by (inversion Hall; assumption).
  assert (Hh : hour ct < 24) by (unfold hour; apply Z.mod_pos_bound; lia).
  destruct (replace_hour ct first) as [ct'|e] eqn:Hr.
  - exists ct'. split; [reflexivity|].
    apply replace_hour_spec in Hr as (_ & Hhour & _ & Hday & Hticks).
    split; [exact Hhour|]. split; [exact Hday|]. rewrite Hticks.
    unfold hour in Hlt.
    change us_per_day with 86400000000 in *. change us_per_minute with 60000000.
    change us_per_hour with 3600000000 in *.
    revert Hlt. generalize (ticks ct). intros t Hlt.
    pose proof (Z.mod_pos_bound t 86400000000 ltac:(lia)) as Hb.
    pose proof (Z.div_mod t 3600000000 ltac:(lia)) as Hd2.
    pose proof (Z.div_mod (t / 3600000000) 24 ltac:(lia)) as Hd3.
    assert (Hq : t mod 86400000000 = t mod 3600000000 + 3600000000 * ((t / 3600000000) mod 24)).
    { change 86400000000 with (3600000000 * 24). apply Z.rem_mul_r; lia. }
    assert (Hm2 : t mod 3600000000 = t mod 60000000 + 60000000 * ((t / 60000000) mod 60)).
    { change 3600000000 with (60000000 * 60) at 1. apply Z.rem_mul_r; lia. }
    pose proof (Z.mod_pos_bound (t / 60000000) 60 ltac:(lia)).
    lia.
  - unfold replace_hour in Hr.
    replace ((0 <=? first) && (first <=? 23)) with true in Hr; [discriminate|].
    symmetry. apply andb_true_iff. split; apply Z.leb_le; lia.
Qed.

End Clock.

Section Plan.
Import Datetime FocusPlanner PlannerProps Examples PlannerExamples.

Example scenario_unparsable_due_date : task_score noon 0 review = 1.
Proof.
  rewrite (unparsable_due_date_ignored noon 0 review ValueError).
  - vm_compute. reflexivity.
  - vm_compute. reflexivity.
Qed.

Lemma schedule_is_prefix_witness :
  exists s, _generate_schedule noon [report; review; inbox] 180 no_prefs = Done s
    /\ exists k,
      Forall2 entry_of (take k [report; review; inbox]) (task_schedule s)
      /\ (forall j e, task_schedule s !! j = Some e -> order e = Z.of_nat j + 1)
      /\ total_scheduled_minutes s
         = Zsum (map estimated_or_30 (take k [report; review; inbox]))
      /\ (0 <= 180 -> total_scheduled_minutes s <= 180)
      /\ (forall t, [report; review; inbox] !! k = Some t ->
            180 < total_scheduled_minutes s + estimated_or_30 t).
Proof.
  eexists. split; [vm_compute; reflexivity|].
  apply (schedule_is_prefix noon [report; review; inbox] 180 no_prefs).
  vm_compute. reflexivity.
Defined.

Lemma later_tasks_in_peak_hours_witness :
  exists s, _generate_schedule noon [report; review; inbox] 480 no_prefs = Done s
    /\ (forall j e, task_schedule s !! S j = Some e ->
          hour (scheduled_time e) ∈ peaks_of no_prefs).
Proof.
  eexists. split; [vm_compute; reflexivity|].
  apply (later_tasks_in_peak_hours noon [report; review; inbox] 480 no_prefs).
  vm_compute. reflexivity.
Defined.

Lemma empty_peak_list_fails_witness :
  _generate_schedule noon [report; review; inbox] 480 no_peaks = Failed PeakIndexError.
Proof.
  apply (empty_peak_list_fails noon report review [inbox] 480 no_peaks).
  - reflexivity.
  - vm_compute. discriminate.
  - vm_compute. discriminate.
  - vm_compute. split; [discriminate | reflexivity].
Defined.

Lemma late_clock_wraps_back_witness :
  exists ct', move_to_peak [9; 10; 11] 2 five_pm = Done ct'
    /\ hour ct' = 9
    /\ ticks ct' / us_per_day = ticks five_pm / us_per_day
    /\ ticks ct' < ticks five_pm.
Proof.
  apply (late_clock_wraps_back 9 [10; 11] 2 five_pm).
  - lia.
  - lia.
  - repeat constructor; vm_compute; reflexivity.
Defined.

Lemma entries_sum (l : list Task.task) (entries : list schedule_entry) :
  Forall2 entry_of l entries ->
  Zsum (map entry_estimated_minutes entries) = Zsum (map estimated_or_30 l).
Proof.
  induction 1 as [|t e l entries (_ & _ & He & _) _ IH]; [reflexivity|].
  cbn [map]. rewrite !Zsum_cons, He, IH. reflexivity.
Qed.

Lemma summarize_tasks_total (tasks : list Task.task) :
  FocusCoach.total_tasks (FocusCoach.summarize_tasks tasks) = Z.of_nat (length tasks).
Proof. destruct tasks; reflexivity. Qed.

(** X25.  In a plan of [generate_focus_plan] the [estimated_total_minutes] are
    the [total_scheduled_minutes] of its schedule, at most 60 times the
    available hours (8 when none or 0 is given) when these are not negative;
    the summary counts all tasks, and the schedule holds the first tasks of
    the prioritised list. *)
Theorem plan_totals (now utc_offset : Z) (tasks : list Task.task)
    (user_preferences : option user_prefs) (available_hours : option Z) (p : plan) :
  generate_focus_plan now utc_offset tasks user_preferences available_hours = Done (Plan p) ->
  estimated_total_minutes p = total_scheduled_minutes (recommended_schedule p)
  /\ (0 <= hours_or_8 available_hours ->
      estimated_total_minutes p <= hours_or_8 available_hours * 60)
  /\ FocusCoach.total_tasks (tasks_summary p) = Z.of_nat (length tasks)
  /\ exists k,
       Forall2 entry_of (take k (_prioritize_tasks now utc_offset tasks))
               (task_schedule (recommended_schedule p)).
Proof.
  unfold generate_focus_plan. destruct tasks as [|t0 tasks0] eqn:Ht; [discriminate|].
  rewrite <- Ht. cbv zeta.
  destruct (_generate_schedule now (_prioritize_tasks now utc_offset tasks)
              (hours_or_8 available_hours * 60) (prefs_or_empty user_preferences))
    as [s|e] eqn:Hs; [|discriminate].
  cbn [mbind attempt_bind]. intros [= <-].
  cbn [estimated_total_minutes recommended_schedule tasks_summary].
  unfold _generate_schedule in Hs. cbv zeta in Hs.
  destruct (schedule_loop _ _ 0 _ [] (nine_o_clock now) 0) as [[entries total]|e] eqn:Hl;
    [|discriminate].
  cbn [mbind attempt_bind] in Hs. injection Hs as <-.
  cbn [task_schedule total_scheduled_minutes].
  apply schedule_loop_prefix in Hl as (k & new & -> & Hent & _ & -> & Hle & _).
  cbn [app]. rewrite (entries_sum _ _ Hent).
  split; [lia|]. split; [intros H; rewrite Z.add_0_l in Hle; apply Hle; lia|].
  split; [apply summarize_tasks_total|]. exists k. exact Hent.
Qed.

Lemma plan_totals_witness :
  exists p, generate_focus_plan noon 0 [inbox; review; report] None (Some 3) = Done (Plan p)
    /\ estimated_total_minutes p = total_scheduled_minutes (recommended_schedule p).
Proof.
  eexists. split; [vm_compute; reflexivity|].
  refine (proj1 (plan_totals noon 0 [inbox; review; report] None (Some 3) _ _)).
  vm_compute. reflexivity.
Defined.



End Plan.

Section Cleaner.
Import Summarizer SummarizerProps.

Lemma collapse_single_spaced (s : string) (b : bool) :
  single_spaced b (collapse b s) = true.
Proof.
  revert b. induction s as [|c s IH]; intros b; [reflexivity|].
  cbn [collapse]. destruct (is_space c) eqn:Hc.
  - destruct b; [apply IH|]. cbn [single_spaced].
    change (is_space " ") with true. cbv iota.
    rewrite IH. reflexivity.
  - cbn [single_spaced]. rewrite Hc. apply IH.
Qed.

Lemma single_spaced_collapse (s : string) (b : bool) :
  single_spaced b s = true -> collapse b s = s.
Proof.
  revert b. induction s as [|c s IH]; intros b H; [reflexivity|].
  cbn [single_spaced collapse] in *. destruct (is_space c).
  - apply andb_true_iff in H as [H Hs]. apply andb_true_iff in H as [Hc Hb].
    apply bool_decide_eq_true in Hc as ->. destruct b; [discriminate|].
    rewrite (IH true Hs). reflexivity.
  - rewrite (IH false H). reflexivity.
Qed.

Lemma single_spaced_weaken (s : string) (b : bool) :
  single_spaced true s = true -> single_spaced b s = true.
Proof.
  destruct s as [|c s]; [reflexivity|]. cbn [single_spaced].
  destruct (is_space c); [|auto]. rewrite andb_false_r. discriminate.
Qed.

Lemma lstrip_single_spaced (s : string) (b : bool) :
  single_spaced b s = true -> single_spaced true (lstrip s) = true.
Proof.
  revert b. induction s as [|c s IH]; intros b H; [reflexivity|].
  cbn [lstrip]. destruct (is_space c) eqn:Hc.
  - cbn [single_spaced] in H. rewrite Hc in H.
    apply andb_true_iff in H as [_ H]. apply (IH true H).
  - cbn [single_spaced] in *. rewrite Hc in *. exact H.
Qed.

Lemma rstrip_single_spaced (s : string) (b : bool) :
  single_spaced b s = true -> single_spaced b (rstrip s) = true.
Proof.
  revert b. induction s as [|c s IH]; intros b H; [reflexivity|].
  cbn [rstrip]. cbn [single_spaced] in H.
  destruct (is_space c) eqn:Hc.
  - apply andb_true_iff in H as [H Hs]. specialize (IH true Hs).
    destruct (rstrip s) as [|c' r]; [reflexivity|].
    cbn [single_spaced] in *. rewrite Hc, H. exact IH.
  - specialize (IH false H). destruct (rstrip s) as [|c' r].
    + cbn [single_spaced]. rewrite Hc. reflexivity.
    + cbn [single_spaced] in *. rewrite Hc. exact IH.
Qed.

Lemma rstrip_no_trailing_space (s : string) : ends_with_space (rstrip s) = false.
Proof.
  induction s as [|c s IH]; [reflexivity|]. cbn [rstrip].
  destruct (rstrip s) as [|c' r].
  - destruct (is_space c) eqn:Hc; [reflexivity|]. cbn. exact Hc.
  - exact IH.
Qed.

Lemma lstrip_fixed (s : string) : single_spaced true s = true -> lstrip s = s.
Proof.
  destruct s as [|c s]; [reflexivity|]. cbn [single_spaced lstrip].
  destruct (is_space c); [|reflexivity]. rewrite andb_false_r. discriminate.
Qed.

Lemma rstrip_fixed (s : string) : ends_with_space s = false -> rstrip s = s.
Proof.
  induction s as [|c s IH]; [reflexivity|]. intros H. cbn [rstrip].
  destruct s as [|c' s'].
  - cbn in *. rewrite H. reflexivity.
  - rewrite IH by exact H. reflexivity.
Qed.

Lemma clean_text_single_spaced (s : string) : single_spaced true (clean_text s) = true.
Proof.
  unfold clean_text, strip. apply rstrip_single_spaced.
  apply (lstrip_single_spaced _ false), collapse_single_spaced.
Qed.

Lemma clean_text_fixed (s : string) :
  single_spaced true s = true -> ends_with_space s = false -> clean_text s = s.
Proof.
  intros H1 H2. unfold clean_text, strip.
  rewrite (single_spaced_collapse s false) by (apply single_spaced_weaken, H1).
  rewrite lstrip_fixed by exact H1. apply rstrip_fixed, H2.
Qed.

Lemma clean_text_no_trailing_space (s : string) : ends_with_space (clean_text s) = false.
Proof. unfold clean_text, strip. apply rstrip_no_trailing_space. Qed.

Lemma clean_text_idem (s : string) : clean_text (clean_text s) = clean_text s.
Proof.
  apply clean_text_fixed; [apply clean_text_single_spaced | apply clean_text_no_trailing_space].
Qed.

(** X27.  The text [clean_text] returns has a single space as its only
    whitespace, never two in a row, none at its start and none at its end;
    cleaning it again changes nothing. *)
Theorem clean_text_normal_form (s : string) :
  single_spaced true (clean_text s) = true
  /\ ends_with_space (clean_text s) = false
  /\ clean_text (clean_text s) = clean_text s.
Proof.
  split; [apply clean_text_single_spaced|].
  split; [apply clean_text_no_trailing_space | apply clean_text_idem].
Qed.

Lemma collapse_non_spaces (s : string) (b : bool) : non_spaces (collapse b s) = non_spaces s.
Proof.
  revert b. induction s as [|c s IH]; intros b; [reflexivity|].
  cbn [collapse non_spaces]. destruct (is_space c) eqn:Hc.
  - destruct b; [apply IH|]. cbn [non_spaces]. change (is_space " ") with true.
    cbv iota. apply IH.
  - cbn [non_spaces]. rewrite Hc, IH. reflexivity.
Qed.

Lemma lstrip_non_spaces (s : string) : non_spaces (lstrip s) = non_spaces s.
Proof.
  induction s as [|c s IH]; [reflexivity|]. cbn [lstrip non_spaces].
  destruct (is_space c) eqn:Hc; [exact IH|]. cbn [non_spaces]. rewrite Hc. reflexivity.
Qed.

Lemma rstrip_non_spaces (s : string) : non_spaces (rstrip s) = non_spaces s.
Proof.
  induction s as [|c s IH]; [reflexivity|]. cbn [rstrip non_spaces].
  destruct (rstrip s) as [|c' r].
  - destruct (is_space c) eqn:Hc; cbn [non_spaces] in *; rewrite ?Hc; congruence.
  - cbn [non_spaces] in *. rewrite IH. reflexivity.
Qed.

Lemma length_ge_non_spaces (s : string) :
  (length (non_spaces s) <= String.length s)%nat.
Proof.
  induction s as [|c s IH]; [reflexivity|]. cbn [non_spaces String.length].
  destruct (is_space c); cbn [length]; lia.
Qed.

Lemma collapse_length (s : string) (b : bool) :
  (String.length (collapse b s) <= String.length s)%nat.
Proof.
  revert b. induction s as [|c s IH]; intros b; [reflexivity|].
  pose proof (IH true). pose proof (IH false).
  cbn [collapse]. destruct (is_space c); [destruct b|]; cbn [String.length]; lia.
Qed.

Lemma lstrip_length (s : string) : (String.length (lstrip s) <= String.length s)%nat.
Proof.
  induction s as [|c s IH]; [reflexivity|]. cbn [lstrip].
  destruct (is_space c); cbn [String.length]; lia.
Qed.

Lemma rstrip_length (s : string) : (String.length (rstrip s) <= String.length s)%nat.
Proof.
  induction s as [|c s IH]; [reflexivity|]. cbn [rstrip].
  destruct (rstrip s) as [|c' r]; [destruct (is_space c)|]; cbn [String.length] in *; lia.
Qed.

Lemma clean_text_non_spaces (s : string) : non_spaces (clean_text s) = non_spaces s.
Proof.
  unfold clean_text, strip.
  rewrite rstrip_non_spaces, lstrip_non_spaces, collapse_non_spaces. reflexivity.
Qed.

(** X28.  [clean_text] keeps every character that is not whitespace, in
    order, and never lengthens the text. *)
Theorem clean_text_keeps_words (s : string) :
  non_spaces (clean_text s) = non_spaces s
  /\ (String.length (clean_text s) <= String.length s)%nat.
Proof.
  split; [apply clean_text_non_spaces|]. unfold clean_text, strip.
  etrans; [apply rstrip_length|]. etrans; [apply lstrip_length|]. apply collapse_length.
Qed.

Lemma all_spaces_non_spaces (s : string) : all_spaces s = true <-> non_spaces s = [].
Proof.
  induction s as [|c s IH]; [split; reflexivity|]. cbn [all_spaces non_spaces].
  destruct (is_space c); cbn [andb]; [exact IH|]. split; discriminate.
Qed.

Lemma single_spaced_blank (s : string) :
  single_spaced true s = true -> ends_with_space s = false -> non_spaces s = [] ->
  s = EmptyString.
Proof.
  destruct s as [|c s]; [reflexivity|]. cbn [single_spaced].
  destruct (is_space c) eqn:Hc.
  - rewrite andb_false_r. discriminate.
  - intros _ _. cbn [non_spaces]. rewrite Hc. discriminate.
Qed.

Lemma clean_text_blank (s : string) :
  clean_text s = EmptyString <-> all_spaces s = true.
Proof.
  rewrite all_spaces_non_spaces. split.
  - intros H. rewrite <- (clean_text_non_spaces s), H. reflexivity.
  - intros H. apply single_spaced_blank;
      [apply clean_text_single_spaced | apply clean_text_no_trailing_space|].
    rewrite clean_text_non_spaces. exact H.
Qed.

End Cleaner.

Section Service.
Import Summarizer SummarizerProps SummarizerExamples.
Variable summarize_text : string -> Z -> Z -> model_output.

Lemma rstrip_keeps_head (s : string) :
  lstrip s = s -> lstrip (rstrip s) = rstrip s.
Proof.
  destruct s as [|c0 s]; [reflexivity|]. cbn [lstrip rstrip].
  destruct (is_space c0) eqn:Hc.
  - intros H. exfalso. assert (Hl := lstrip_length s). rewrite H in Hl.
    cbn [String.length] in Hl. lia.
  - intros _. destruct (rstrip s); cbn [lstrip]; rewrite Hc; reflexivity.
Qed.

Lemma lstrip_idem (s : string) : lstrip (lstrip s) = lstrip s.
Proof.
  induction s as [|c s IH]; [reflexivity|]. cbn [lstrip].
  destruct (is_space c) eqn:Hc; [exact IH|]. cbn [lstrip]. rewrite Hc. reflexivity.
Qed.

Lemma strip_idem (s : string) : strip (strip s) = strip s.
Proof.
  unfold strip.
  rewrite (rstrip_keeps_head (lstrip s)) by apply lstrip_idem.
  apply rstrip_fixed, rstrip_no_trailing_space.
Qed.

Lemma py_round4_unit (x : Q) :
  (0 <= x)%Q -> (0 <= py_round4 x)%Q /\ ((x <= 1)%Q -> (py_round4 x <= 1)%Q).
Proof.
  intros H0. unfold py_round4. split.
  - destruct (round_half_even_bounds (x * 10000) 0 (Qceiling (x * 10000))) as [H1 _].
    + change (inject_Z 0) with 0%Q. lra.
    + apply Qle_ceiling.
    + rewrite Zle_Qle in H1. change (inject_Z 0) with 0%Q in H1.
      revert H1. generalize (inject_Z (round_half_even (x * 10000))). intros q H1.
      unfold Qdiv. change (/ 10000)%Q with (1 # 10000)%Q. lra.
  - intros H1.
    destruct (round_half_even_bounds (x * 10000) 0 10000) as [_ H2].
    + change (inject_Z 0) with 0%Q. lra.
    + change (inject_Z 10000) with 10000%Q. lra.
    + rewrite Zle_Qle in H2. change (inject_Z 10000) with 10000%Q in H2.
      revert H2. generalize (inject_Z (round_half_even (x * 10000))). intros q H2.
      unfold Qdiv. change (/ 10000)%Q with (1 # 10000)%Q. lra.
Qed.


Lemma summarize_cleaned (min_length max_length : Z) (payload : string) :
  summarize summarize_text min_length max_length (clean_text payload)
  = summarize summarize_text min_length max_length payload.
Proof. unfold summarize. rewrite clean_text_idem. reflexivity. Qed.

(** X29.  Whatever the model answers, [SummaryService.summarize] returns the
    length of the summary it returns, a summary with no whitespace around
    it, and a compression ratio that is not negative, at most 1 when the
    summary is no longer than the cleaned text; the result is the one for
    the cleaned text. *)
Theorem summarize_metadata (min_length max_length : Z) (payload : string) :
  let m := summarize summarize_text min_length max_length payload in
  meta_length m = Z.of_nat (String.length (meta_summary m))
  /\ strip (meta_summary m) = meta_summary m
  /\ (0 <= compression_ratio m)%Q
  /\ (meta_length m <= Z.of_nat (String.length (clean_text payload)) ->
      (compression_ratio m <= 1)%Q)
  /\ summarize summarize_text min_length max_length (clean_text payload) = m.
Proof.
  cbv zeta. unfold summarize. cbv zeta.
  cbn [meta_length meta_summary compression_ratio].
  set (text := strip _).
  set (n := Z.of_nat (String.length text)).
  set (orig := Z.max (Z.of_nat (String.length (clean_text payload))) 1).
  assert (Hn : 0 <= n) by (unfold n; lia).
  assert (Horig : 1 <= orig) by (unfold orig; lia).
  assert (Hq : (0 <= inject_Z n / inject_Z orig)%Q).
  { apply Qle_shift_div_l.
    - rewrite <- (Zlt_Qlt 0). lia.
    - rewrite Qmult_0_l. rewrite <- (Zle_Qle 0). exact Hn. }
  split; [reflexivity|]. split; [apply strip_idem|].
  split; [apply py_round4_unit, Hq|]. split.
  - intros Hle. apply py_round4_unit; [exact Hq|].
    apply Qle_shift_div_r.
    + rewrite <- (Zlt_Qlt 0). lia.
    + rewrite Qmult_1_l. rewrite <- Zle_Qle. unfold orig. lia.
  - subst text n orig. rewrite clean_text_idem. reflexivity.
Qed.

(** X30.  [POST /summarize] answers "Text cannot be empty." exactly on the
    texts made of whitespace only; a summary it returns is the one of the
    service on the text as sent, whose cleaned form has 30 characters or
    more. *)
Theorem endpoint_validates (text : string) :
  (summarize_endpoint summarize_text text = BadRequest "Text cannot be empty."
   <-> all_spaces text = true)
  /\ (forall body, summarize_endpoint summarize_text text = Summary body ->
        body = summarize summarize_text 60 180 text
        /\ (30 <= String.length (clean_text text))%nat).
Proof.
  unfold summarize_endpoint. cbv zeta. unfold str_eqb. split.
  - rewrite <- clean_text_blank. case_bool_decide as Hc; [tauto|].
    destruct (String.length (clean_text text) <? 30)%nat; split; try discriminate; tauto.
  - intros body. case_bool_decide as Hc; [discriminate|].
    destruct (Nat.ltb_spec (String.length (clean_text text)) 30) as [|Hlen]; [discriminate|].
    intros [= <-]. split; [|exact Hlen].
    apply summarize_cleaned.
Qed.

End Service.

Example scenario_release_memo :
  exists body, Summarizer.summarize_endpoint SummarizerExamples.lead_model
                 SummarizerExamples.memo = Summarizer.Summary body
    /\ Summarizer.meta_summary body = "The release moved to Friday."
    /\ Summarizer.meta_length body = 28
    /\ (Summarizer.compression_ratio body == 0.4179)%Q.
Proof. eexists. split; [vm_compute; reflexivity|]. vm_compute. auto. Qed.
